(** * DynamoDB payload formatter: content script and background script

    A shallow embedding of the browser extension's two content-script
    variants ([src/content.ts] and the hover-preview variant) and of the
    background script's context-menu listener, with the properties of the
    decode pipeline, of the context-menu formatter and of the hover state
    machine.

    JavaScript strings are sequences of UTF-16 code units, byte arrays are
    sequences of numbers below 256, the fields of [PayloadFormatter] and the
    part of the browser the script touches form an explicit state, and every
    method is a computation that may return, throw and change that state. *)

From Stdlib Require Import ZArith NArith List String Ascii Bool Lia.
From stdpp Require Import gmap list.
Import ListNotations.

Local Open Scope N_scope.

(** ** JavaScript strings *)

(** A JavaScript string: its UTF-16 code units. *)
Definition jsstring : Type := list N.

(** A string literal of the source (ASCII only). *)
Definition str (s : string) : jsstring :=
  List.map N_of_ascii (list_ascii_of_string s).

(** [!s] for a string: only the empty string is falsy. *)
Definition falsy (s : jsstring) : bool :=
  match s with [] => true | _ => false end.

(** ECMAScript WhiteSpace and LineTerminator code units, as removed by
    [String.prototype.trim]. *)
Definition is_js_space (c : N) : bool :=
  (c =? 9) || (c =? 10) || (c =? 11) || (c =? 12) || (c =? 13) || (c =? 32)
  || (c =? 160) || (c =? 5760) || ((8192 <=? c) && (c <=? 8202))
  || (c =? 8232) || (c =? 8233) || (c =? 8239) || (c =? 8287)
  || (c =? 12288) || (c =? 65279).

Fixpoint trim_start (s : jsstring) : jsstring :=
  match s with
  | [] => []
  | c :: r => if is_js_space c then trim_start r else s
  end.

(** [s.trim()]. *)
Definition trim (s : jsstring) : jsstring :=
  rev (trim_start (rev (trim_start s))).

Fixpoint starts_with (p s : jsstring) : bool :=
  match p, s with
  | [], _ => true
  | _ :: _, [] => false
  | a :: p', b :: s' => (a =? b) && starts_with p' s'
  end.

(** [s.includes(p)]. *)
Fixpoint includes (s p : jsstring) : bool :=
  starts_with p s ||
  match s with
  | [] => false
  | _ :: s' => includes s' p
  end.

(** ** Base64: [btoa] and [atob]

    [atob] is the host's forgiving-base64 decode; [btoa] the matching
    encoder.  Both work on binary strings, whose code units are below 256. *)

Module Base64.

(** The character of a 6-bit value. *)
Definition b64_char (v : N) : N :=
  if v <? 26 then 65 + v
  else if v <? 52 then 97 + (v - 26)
  else if v <? 62 then 48 + (v - 52)
  else if v =? 62 then 43
  else 47.

(** The 6-bit value of a character of the alphabet. *)
Definition b64_value (c : N) : option N :=
  if (65 <=? c) && (c <=? 90) then Some (c - 65)
  else if (97 <=? c) && (c <=? 122) then Some (c - 71)
  else if (48 <=? c) && (c <=? 57) then Some (c + 4)
  else if c =? 43 then Some 62
  else if c =? 47 then Some 63
  else None.

Definition pad : N := 61.

Fixpoint btoa (bs : list N) : jsstring :=
  match bs with
  | [] => []
  | [a] => [b64_char (a / 4); b64_char ((a mod 4) * 16); pad; pad]
  | [a; b] =>
      [b64_char (a / 4); b64_char ((a mod 4) * 16 + b / 16);
       b64_char ((b mod 16) * 4); pad]
  | a :: b :: c :: rest =>
      b64_char (a / 4) :: b64_char ((a mod 4) * 16 + b / 16)
      :: b64_char ((b mod 16) * 4 + c / 64) :: b64_char (c mod 64)
      :: btoa rest
  end.

Definition is_ascii_whitespace (c : N) : bool :=
  (c =? 9) || (c =? 10) || (c =? 12) || (c =? 13) || (c =? 32).

(** Remove one or two [=] at the end of the data. *)
Fixpoint drop_trailing_pad (d : jsstring) : jsstring :=
  match d with
  | [] => []
  | [c] => if c =? pad then [] else [c]
  | [c1; c2] =>
      if c2 =? pad then (if c1 =? pad then [] else [c1]) else [c1; c2]
  | c :: r => c :: drop_trailing_pad r
  end.

Definition strip_padding (d : jsstring) : jsstring :=
  if (length d mod 4 =? 0)%nat then drop_trailing_pad d else d.

Fixpoint b64_values (d : jsstring) : option (list N) :=
  match d with
  | [] => Some []
  | c :: r =>
      match b64_value c, b64_values r with
      | Some v, Some vs => Some (v :: vs)
      | _, _ => None
      end
  end.

(** Every four values give three bytes; a rest of three values gives two
    bytes, a rest of two gives one, the spare low bits being dropped. *)
Fixpoint b64_bytes (vs : list N) : list N :=
  match vs with
  | v1 :: v2 :: v3 :: v4 :: rest =>
      let n := ((v1 * 64 + v2) * 64 + v3) * 64 + v4 in
      n / 65536 :: (n / 256) mod 256 :: n mod 256 :: b64_bytes rest
  | [v1; v2; v3] =>
      let n := (v1 * 64 + v2) * 64 + v3 in
      [n / 1024; (n / 4) mod 256]
  | [v1; v2] => [(v1 * 64 + v2) / 16]
  | _ => []
  end.

(** [atob(s)]: [None] stands for the [InvalidCharacterError] it throws. *)
Definition atob (s : jsstring) : option jsstring :=
  let d := strip_padding (List.filter (fun c => negb (is_ascii_whitespace c)) s) in
  if (length d mod 4 =? 1)%nat then None
  else option_map b64_bytes (b64_values d).

End Base64.

(** ** Completions and results *)

(** A thrown value: an instance of [Error] with its message, or anything
    else. *)
Inductive exn : Type :=
| ErrorObject (message : jsstring)
| OtherThrown.

(** How a call ends: it returns a value or throws. *)
Inductive completion (A : Type) : Type :=
| Returned (a : A)
| Thrown (e : exn).
Arguments Returned {A} a.
Arguments Thrown {A} e.

(** [interface FormatResult]: the optional fields are absent when [None]. *)
Record FormatResult : Type := mkFormatResult {
  success : bool;
  data : option jsstring;
  error : option jsstring
}.

(** The truth value of an optional string field: [undefined] and the empty
    string are falsy. *)
Definition truthy (o : option jsstring) : bool :=
  match o with
  | Some (_ :: _) => true
  | _ => false
  end.

(** ** The host platform

    The library and browser functions the pipeline composes.  [pako_inflate]
    is [pako.inflate] called without options, as the scripts call it: it
    finds out from the first bytes whether the data is a gzip member or a
    zlib stream and inflates either; it gives [None] when [pako.inflate]
    throws.  [TextDecoder_decode] is the
    non-fatal UTF-8 decoder, which never throws; [JSON_parse] gives the
    message of the [SyntaxError] it throws on the left;
    [JSON_stringify v n] is [JSON.stringify(v, null, n)] on a parsed value,
    which is never the empty string. *)
Record Platform : Type := mkPlatform {
  JSValue : Type;
  pako_inflate : list N -> option (list N);
  TextDecoder_decode : list N -> jsstring;
  JSON_parse : jsstring -> jsstring + JSValue;
  JSON_stringify : JSValue -> N -> jsstring;
  JSON_stringify_nonempty : forall v n, JSON_stringify v n <> []
}.

(** ** The document and the script state *)

Inductive Theme : Type := light | dark.

Record ThemeStyles : Type := mkThemeStyles {
  background : jsstring;
  text : jsstring;
  textSecondary : jsstring;
  border : jsstring;
  shadow : jsstring;
  buttonBg : jsstring;
  buttonText : jsstring;
  buttonHover : jsstring;
  scrollThumb : jsstring;
  scrollThumbHover : jsstring;
  errorText : jsstring;
  successBg : jsstring
}.

(** The elements of a preview panel. *)
Inductive PanelPart : Type :=
| PanelRoot | PanelHeader | PanelTitle | PanelCopyButton | PanelContent.

(** A reference to an element: an element of the page, or a part of the
    panel with the given index among the panels created. *)
Inductive Target : Type :=
| PageNode (id : N)
| PanelNode (panel : nat) (part : PanelPart).

(** What the script reads of a page element.  [value] is read only from
    elements whose [tagName] is [TEXTAREA].  The sides of the bounding
    rectangle are whole numbers of pixels here, where the source has
    doubles: the statements below do not depend on the position
    [positionPanel] computes, and the examples use whole pixels, on which
    its arithmetic is exact. *)
Record PageElement : Type := mkPageElement {
  tagName : jsstring;
  value : jsstring;
  rect_left : Z;
  rect_right : Z;
  rect_top : Z
}.

(** The part of the browser the script reads and does not own. *)
Record World : Type := mkWorld {
  page : N -> PageElement;
  hostname : jsstring;
  innerWidth : Z;
  innerHeight : Z;
  aws_theme : Theme;
  panel_hovered : bool;
  clipboard_api : bool;
  dynamoDBFormatterDebug : bool
}.

(** [interface PreviewPanel] with the style and content of its three
    elements.  An unset style property is the empty string; [element_left]
    and [element_top] are pixel counts.  [created_styles] is the [styles]
    object the button's hover listeners closed over and [copyButton_onclick]
    the text the click handler closed over. *)
Record PreviewPanel : Type := mkPreviewPanel {
  element_display : jsstring;
  element_left : option Z;
  element_top : option Z;
  content_textContent : jsstring;
  content_color : jsstring;
  copyButton_textContent : jsstring;
  copyButton_background : jsstring;
  copyButton_display : jsstring;
  copyButton_onclick : option jsstring;
  created_styles : ThemeStyles;
  isVisible : bool
}.

(** The callbacks the script passes to [setTimeout], with what they close
    over. *)
Inductive TimerCallback : Type :=
| HoverTimerFired (textarea : Target)
| MouseLeaveHide
| ErrorPreviewReset
| CopyFeedbackReset (originalText : jsstring) (styles : ThemeStyles).

(** Calls into the host that leave the script. *)
Inductive HostCall : Type :=
| ClipboardWriteText (text : jsstring)
| ExecCommandCopy (text : jsstring)
| ConsoleDebug (message : jsstring)
| SendResponse (r : FormatResult).

(** The fields of [PayloadFormatter], the panel objects created so far (each
    with its elements attached to the document), the timers pending in the
    host, the [copyToClipboard] calls suspended at their [await], and the
    host calls made so far. *)
Record State : Type := mkState {
  world : World;
  _lastRightClickedElement : option Target;
  _hoverTimeout : option N;
  _previewPanel : option nat;
  _currentHoveredTextarea : option Target;
  _lastMouseMoveTime : Z;
  _debugMode : bool;
  panels : list PreviewPanel;
  timers : gmap N TimerCallback;
  next_timer : N;
  awaiting : list jsstring;
  trace : list HostCall
}.

Definition _hoverDelay : Z := 300.
Definition _mouseMoveThrottle : Z := 100.

(** Field updates. *)
Definition set_world (w : World) (st : State) : State :=
  mkState w (_lastRightClickedElement st) (_hoverTimeout st) (_previewPanel st)
    (_currentHoveredTextarea st) (_lastMouseMoveTime st) (_debugMode st)
    (panels st) (timers st) (next_timer st) (awaiting st) (trace st).
Definition set_lastRightClickedElement (v : option Target) (st : State) : State :=
  mkState (world st) v (_hoverTimeout st) (_previewPanel st)
    (_currentHoveredTextarea st) (_lastMouseMoveTime st) (_debugMode st)
    (panels st) (timers st) (next_timer st) (awaiting st) (trace st).
Definition set_hoverTimeout (v : option N) (st : State) : State :=
  mkState (world st) (_lastRightClickedElement st) v (_previewPanel st)
    (_currentHoveredTextarea st) (_lastMouseMoveTime st) (_debugMode st)
    (panels st) (timers st) (next_timer st) (awaiting st) (trace st).
Definition set_previewPanel (v : option nat) (st : State) : State :=
  mkState (world st) (_lastRightClickedElement st) (_hoverTimeout st) v
    (_currentHoveredTextarea st) (_lastMouseMoveTime st) (_debugMode st)
    (panels st) (timers st) (next_timer st) (awaiting st) (trace st).
Definition set_currentHoveredTextarea (v : option Target) (st : State) : State :=
  mkState (world st) (_lastRightClickedElement st) (_hoverTimeout st)
    (_previewPanel st) v (_lastMouseMoveTime st) (_debugMode st)
    (panels st) (timers st) (next_timer st) (awaiting st) (trace st).
Definition set_lastMouseMoveTime (v : Z) (st : State) : State :=
  mkState (world st) (_lastRightClickedElement st) (_hoverTimeout st)
    (_previewPanel st) (_currentHoveredTextarea st) v (_debugMode st)
    (panels st) (timers st) (next_timer st) (awaiting st) (trace st).
Definition set_debugMode (v : bool) (st : State) : State :=
  mkState (world st) (_lastRightClickedElement st) (_hoverTimeout st)
    (_previewPanel st) (_currentHoveredTextarea st) (_lastMouseMoveTime st) v
    (panels st) (timers st) (next_timer st) (awaiting st) (trace st).
Definition set_panels (v : list PreviewPanel) (st : State) : State :=
  mkState (world st) (_lastRightClickedElement st) (_hoverTimeout st)
    (_previewPanel st) (_currentHoveredTextarea st) (_lastMouseMoveTime st)
    (_debugMode st) v (timers st) (next_timer st) (awaiting st) (trace st).
Definition set_timers (v : gmap N TimerCallback) (n : N) (st : State) : State :=
  mkState (world st) (_lastRightClickedElement st) (_hoverTimeout st)
    (_previewPanel st) (_currentHoveredTextarea st) (_lastMouseMoveTime st)
    (_debugMode st) (panels st) v n (awaiting st) (trace st).
Definition set_awaiting (v : list jsstring) (st : State) : State :=
  mkState (world st) (_lastRightClickedElement st) (_hoverTimeout st)
    (_previewPanel st) (_currentHoveredTextarea st) (_lastMouseMoveTime st)
    (_debugMode st) (panels st) (timers st) (next_timer st) v (trace st).
Definition set_trace (v : list HostCall) (st : State) : State :=
  mkState (world st) (_lastRightClickedElement st) (_hoverTimeout st)
    (_previewPanel st) (_currentHoveredTextarea st) (_lastMouseMoveTime st)
    (_debugMode st) (panels st) (timers st) (next_timer st) (awaiting st) v.

(** The state of a page in which no script has run yet. *)
Definition initial_state (w : World) : State :=
  mkState w None None None None 0%Z false [] ∅ 1 [] [].

(** ** Methods as computations *)

(** A method: from the state to a completion and the state it leaves. *)
Definition M (A : Type) : Type := State -> completion A * State.

Definition ret {A} (a : A) : M A := fun st => (Returned a, st).
Definition throw {A} (e : exn) : M A := fun st => (Thrown e, st).
Definition bind {A B} (m : M A) (k : A -> M B) : M B :=
  fun st =>
    match m st with
    | (Returned a, st') => k a st'
    | (Thrown e, st') => (Thrown e, st')
    end.
(** [try { body } catch (e) { handler e }]. *)
Definition try_catch {A} (body : M A) (handler : exn -> M A) : M A :=
  fun st =>
    match body st with
    | (Returned a, st') => (Returned a, st')
    | (Thrown e, st') => handler e st'
    end.
Definition gets {A} (f : State -> A) : M A := fun st => (Returned (f st), st).
Definition modify (f : State -> State) : M unit := fun st => (Returned tt, f st).
Definition when (b : bool) (m : M unit) : M unit := if b then m else ret tt.

Notation "'let!' x ':=' m 'in' k" := (bind m (fun x => k))
  (at level 10, x name, m at level 100, k at level 200, only parsing).
Notation "m ;;; k" := (bind m (fun _ => k))
  (at level 100, k at level 200, right associativity, only parsing).

(** The completion and the state a computation ends with. *)
Definition outcome {A} (m : M A) (st : State) : completion A := fst (m st).
Definition exec {A} (m : M A) (st : State) : State := snd (m st).

Definition emit (c : HostCall) : M unit :=
  modify (fun st => set_trace (trace st ++ [c]) st).

(** ** Elements *)

Definition PanelPart_eqb (a b : PanelPart) : bool :=
  match a, b with
  | PanelRoot, PanelRoot | PanelHeader, PanelHeader | PanelTitle, PanelTitle
  | PanelCopyButton, PanelCopyButton | PanelContent, PanelContent => true
  | _, _ => false
  end.

(** [a === b] on element references. *)
Definition Target_eqb (a b : Target) : bool :=
  match a, b with
  | PageNode i, PageNode j => i =? j
  | PanelNode p x, PanelNode q y => Nat.eqb p q && PanelPart_eqb x y
  | _, _ => false
  end.

(** [a === b] on strings. *)
Fixpoint jsstring_eqb (a b : jsstring) : bool :=
  match a, b with
  | [], [] => true
  | x :: a', y :: b' => (x =? y) && jsstring_eqb a' b'
  | _, _ => false
  end.

(** [panel.element.contains(t)] for the panel with index [p]. *)
Definition panel_contains (p : nat) (t : Target) : bool :=
  match t with
  | PanelNode q _ => Nat.eqb p q
  | PageNode _ => false
  end.

(** ** Timers and the clipboard *)

(** [if (this._hoverTimeout)]: [null] and [0] are falsy. *)
Definition timeout_set (o : option N) : bool :=
  match o with
  | Some n => negb (n =? 0)
  | None => false
  end.

(** [setTimeout(cb, delay)]: the host keeps the callback under a fresh
    positive identifier and returns it.  When it fires is the host's choice. *)
Definition setTimeout (cb : TimerCallback) (delay : Z) : M N :=
  fun st =>
    let id := next_timer st in
    (Returned id, set_timers (<[id := cb]> (timers st)) (id + 1) st).

Definition clearTimeout (id : N) : M unit :=
  modify (fun st => set_timers (delete id (timers st)) (next_timer st) st).

(** The [catch] branch of [copyToClipboard]: a temporary textarea holding
    the text is appended, selected, copied with [execCommand] and removed. *)
Definition manualCopy (text : jsstring) : M unit :=
  emit (ExecCommandCopy text).

(** [async copyToClipboard(text)]: the body runs up to its [await].  Without
    [navigator.clipboard] the property access throws inside the [try] and the
    fallback runs at once; otherwise [writeText] is called and the call is
    suspended until the host settles the promise.  An [async] function
    returns a promise and never throws to its caller. *)
Definition copyToClipboard (text : jsstring) : M unit :=
  let! w := gets world in
  if clipboard_api w then
    emit (ClipboardWriteText text) ;;;
    modify (fun st => set_awaiting (awaiting st ++ [text]) st)
  else manualCopy text.

(** The host settles the oldest pending [writeText] promise: on rejection the
    suspended call resumes in its [catch] branch. *)
Definition clipboardSettled (fulfilled : bool) : M unit :=
  let! q := gets awaiting in
  match q with
  | [] => ret tt
  | text :: rest =>
      modify (set_awaiting rest) ;;;
      when (negb fulfilled) (manualCopy text)
  end.

(** ** The decode steps shared by both content scripts *)

Section Decode.
Variable P : Platform.

(** [decodeBase64]: every failure of [atob] is rethrown as an [Error];
    [bytes[i] = charCodeAt(i)] stores the code unit modulo 256. *)
Definition decodeBase64 (base64String : jsstring) : M (list N) :=
  try_catch
    (match Base64.atob base64String with
     | Some binaryString => ret (List.map (fun c => c mod 256) binaryString)
     | None => throw OtherThrown
     end)
    (fun _ => throw (ErrorObject (str "Invalid base64 encoding"))).

Definition decompressGzip (compressedData : list N) : M (list N) :=
  try_catch
    (match pako_inflate P compressedData with
     | Some bytes => ret bytes
     | None => throw OtherThrown
     end)
    (fun _ => throw (ErrorObject (str "Failed to decompress gzip data"))).

(** [JSON.parse(s)]. *)
Definition parseJson (jsonString : jsstring) : M (JSValue P) :=
  match JSON_parse P jsonString with
  | inr v => ret v
  | inl message => throw (ErrorObject message)
  end.
End Decode.

(** What a handler reads of a target.  The parts of a panel have fixed tags
    and no [value]. *)
Definition target_element (w : World) (t : Target) : PageElement :=
  match t with
  | PageNode id => page w id
  | PanelNode _ PanelTitle => mkPageElement (str "SPAN") [] 0 0 0
  | PanelNode _ PanelCopyButton => mkPageElement (str "BUTTON") [] 0 0 0
  | PanelNode _ _ => mkPageElement (str "DIV") [] 0 0 0
  end.

Definition is_textarea (w : World) (t : Target) : bool :=
  jsstring_eqb (tagName (target_element w t)) (str "TEXTAREA").

(** ** The content script of [src/content.ts] *)

Module Content.
Section WithPlatform.
Variable P : Platform.

Definition processPayload (base64Content : jsstring) : M FormatResult :=
  try_catch
    (let! binaryData := decodeBase64 base64Content in
     let! decompressedData := decompressGzip P binaryData in
     let jsonString := TextDecoder_decode P decompressedData in
     let! parsedJson := parseJson P jsonString in
     let formattedJson := JSON_stringify P parsedJson 2 in
     copyToClipboard formattedJson ;;;
     ret (mkFormatResult true (Some formattedJson) None))
    (fun error =>
       let errorMessage :=
         match error with
         | ErrorObject message => message
         | OtherThrown => str "Unknown error"
         end in
       ret (mkFormatResult false None
              (Some (str "Failed to process payload: " ++ errorMessage)))).

Definition formatCurrentElement : M FormatResult :=
  let! clicked := gets _lastRightClickedElement in
  match clicked with
  | None => ret (mkFormatResult false None (Some (str "No element selected")))
  | Some textarea =>
      let! w := gets world in
      if negb (is_textarea w textarea) then
        ret (mkFormatResult false None
               (Some (str "Selected element is not a textarea")))
      else
        let content := trim (value (target_element w textarea)) in
        if falsy content then
          ret (mkFormatResult false None (Some (str "Textarea is empty")))
        else processPayload content
  end.

(** The events the script listens to: [contextmenu] on the document, a
    runtime message, and the settling of a clipboard promise it awaits. *)
Inductive Event : Type :=
| ContextMenu (target : Target)
| Message (action : jsstring)
| ClipboardSettles (fulfilled : bool)
| WorldChanges (w : World).

Definition dispatch (ev : Event) : M unit :=
  match ev with
  | ContextMenu target => modify (set_lastRightClickedElement (Some target))
  | Message action =>
      if jsstring_eqb action (str "formatPayload") then
        let! result := formatCurrentElement in
        emit (SendResponse result)
      else ret tt
  | ClipboardSettles fulfilled => clipboardSettled fulfilled
  | WorldChanges w => modify (set_world w)
  end.

(** [new PayloadFormatter()]: both listeners are registered. *)
Definition construct (w : World) : State := initial_state w.
End WithPlatform.
End Content.

(** ** The content script with the hover preview *)

Module Preview.

Definition set_display_visible (d : jsstring) (v : bool) (p : PreviewPanel) : PreviewPanel :=
  mkPreviewPanel d (element_left p) (element_top p) (content_textContent p)
    (content_color p) (copyButton_textContent p) (copyButton_background p)
    (copyButton_display p) (copyButton_onclick p) (created_styles p) v.
Definition set_element_display (d : jsstring) (p : PreviewPanel) : PreviewPanel :=
  set_display_visible d (isVisible p) p.
Definition set_isVisible (v : bool) (p : PreviewPanel) : PreviewPanel :=
  set_display_visible (element_display p) v p.
Definition set_position (l t : Z) (p : PreviewPanel) : PreviewPanel :=
  mkPreviewPanel (element_display p) (Some l) (Some t) (content_textContent p)
    (content_color p) (copyButton_textContent p) (copyButton_background p)
    (copyButton_display p) (copyButton_onclick p) (created_styles p) (isVisible p).
Definition set_content (txt color : jsstring) (p : PreviewPanel) : PreviewPanel :=
  mkPreviewPanel (element_display p) (element_left p) (element_top p) txt
    color (copyButton_textContent p) (copyButton_background p)
    (copyButton_display p) (copyButton_onclick p) (created_styles p) (isVisible p).
Definition set_content_textContent (txt : jsstring) (p : PreviewPanel) : PreviewPanel :=
  set_content txt (content_color p) p.
Definition set_content_color (color : jsstring) (p : PreviewPanel) : PreviewPanel :=
  set_content (content_textContent p) color p.
Definition set_copyButton (txt bg disp : jsstring) (h : option jsstring)
    (p : PreviewPanel) : PreviewPanel :=
  mkPreviewPanel (element_display p) (element_left p) (element_top p)
    (content_textContent p) (content_color p) txt bg disp h
    (created_styles p) (isVisible p).
Definition set_copyButton_textContent (txt : jsstring) (p : PreviewPanel) :=
  set_copyButton txt (copyButton_background p) (copyButton_display p)
    (copyButton_onclick p) p.
Definition set_copyButton_background (bg : jsstring) (p : PreviewPanel) :=
  set_copyButton (copyButton_textContent p) bg (copyButton_display p)
    (copyButton_onclick p) p.
Definition set_copyButton_display (d : jsstring) (p : PreviewPanel) :=
  set_copyButton (copyButton_textContent p) (copyButton_background p) d
    (copyButton_onclick p) p.
Definition set_copyButton_onclick (h : option jsstring) (p : PreviewPanel) :=
  set_copyButton (copyButton_textContent p) (copyButton_background p)
    (copyButton_display p) h p.

(** The object [this._previewPanel] refers to. *)
Definition current_panel (st : State) : option PreviewPanel :=
  match _previewPanel st with
  | Some i => panels st !! i
  | None => None
  end.

(** [this._previewPanel?.isVisible] as a condition. *)
Definition panel_isVisible (st : State) : bool :=
  match current_panel st with
  | Some p => isVisible p
  | None => false
  end.

(** An assignment to a property of [this._previewPanel]: the object is
    changed in place. *)
Definition update_panel (f : PreviewPanel -> PreviewPanel) : M unit :=
  modify (fun st =>
    match _previewPanel st with
    | Some i => set_panels (alter f i (panels st)) st
    | None => st
    end).

Definition debug (message : jsstring) : M unit :=
  let! on := gets _debugMode in
  when on (emit (ConsoleDebug message)).

(** [detectAWSTheme]: the outcome of its probes of the document (theme
    attributes and classes, the background colour of the main element, the
    colour-scheme media query) is the [aws_theme] of the world. *)
Definition detectAWSTheme : M Theme := gets (fun st => aws_theme (world st)).

Definition getThemeStyles (theme : Theme) : ThemeStyles :=
  match theme with
  | dark =>
      mkThemeStyles (str "#2d3748") (str "#e2e8f0") (str "#cbd5e0")
        (str "#4a5568") (str "rgba(0, 0, 0, 0.3)") (str "#4299e1")
        (str "white") (str "#3182ce") (str "#4a5568") (str "#718096")
        (str "#fed7d7") (str "#48bb78")
  | light =>
      mkThemeStyles (str "#ffffff") (str "#2d3748") (str "#4a5568")
        (str "#e2e8f0") (str "rgba(0, 0, 0, 0.15)") (str "#3182ce")
        (str "white") (str "#2c5aa0") (str "#cbd5e0") (str "#a0aec0")
        (str "#e53e3e") (str "#38a169")
  end.

(** [createPreviewPanel]: a new panel object, its elements appended to the
    document, hidden; [this._previewPanel] refers to it from now on. *)
Definition createPreviewPanel : M unit :=
  let! theme := detectAWSTheme in
  let styles := getThemeStyles theme in
  let panel :=
    mkPreviewPanel (str "none") None None [] [] (str "Copy")
      (buttonBg styles) [] None styles false in
  modify (fun st =>
    set_previewPanel (Some (length (panels st)))
      (set_panels (panels st ++ [panel]) st)).

Definition isInDynamoDBConsole : M bool :=
  gets (fun st => includes (hostname (world st)) (str "console.aws.amazon.com")).

Definition clearHoverTimer : M unit :=
  let! t := gets _hoverTimeout in
  match t with
  | Some id =>
      when (timeout_set t)
        (debug (str "clearing hover timer") ;;;
         clearTimeout id ;;;
         modify (set_hoverTimeout None))
  | None => ret tt
  end.

Definition hidePreviewPanel : M unit :=
  let! pp := gets _previewPanel in
  let! visible := gets panel_isVisible in
  when (match pp with Some _ => visible | None => false end)
    (debug (str "hiding preview panel") ;;;
     update_panel (set_element_display (str "none")) ;;;
     update_panel (set_isVisible false)) ;;;
  clearHoverTimer.

Definition positionPanel (textarea : Target) : M unit :=
  let! pp := gets _previewPanel in
  match pp with
  | None => ret tt
  | Some _ =>
      let! w := gets world in
      let rect := target_element w textarea in
      let left := (rect_right rect + 10)%Z in
      let top := rect_top rect in
      let left := if (left + 500 >? innerWidth w)%Z then (rect_left rect - 510)%Z else left in
      let top := if (top + 400 >? innerHeight w)%Z then (innerHeight w - 400 - 10)%Z else top in
      let top := if (top <? 10)%Z then 10%Z else top in
      update_panel (set_position (Z.max 10 left) top)
  end.

Definition showPreviewPanel (content : jsstring) (textarea : Target) : M unit :=
  let! pp := gets _previewPanel in
  match pp with
  | None => ret tt
  | Some _ =>
      update_panel (set_content_textContent content) ;;;
      update_panel (set_isVisible true) ;;;
      update_panel (set_element_display (str "block")) ;;;
      positionPanel textarea
  end.

Definition showErrorPreview (error : jsstring) (textarea : Target) : M unit :=
  let! pp := gets _previewPanel in
  match pp with
  | None => ret tt
  | Some _ =>
      let! theme := detectAWSTheme in
      let styles := getThemeStyles theme in
      update_panel (set_content_textContent (str "Error: " ++ error)) ;;;
      update_panel (set_content_color (errorText styles)) ;;;
      update_panel (set_copyButton_display (str "none")) ;;;
      update_panel (set_isVisible true) ;;;
      update_panel (set_element_display (str "block")) ;;;
      positionPanel textarea ;;;
      let! _ := setTimeout ErrorPreviewReset 3000 in
      ret tt
  end.

Definition showCopyFeedback : M unit :=
  let! pp := gets current_panel in
  let! ref := gets _previewPanel in
  match ref, pp with
  | None, _ => ret tt
  | Some _, panel =>
      let! theme := detectAWSTheme in
      let styles := getThemeStyles theme in
      let originalText :=
        match panel with Some p => copyButton_textContent p | None => [] end in
      update_panel (set_copyButton_textContent (str "Copied!")) ;;;
      update_panel (set_copyButton_background (successBg styles)) ;;;
      let! _ := setTimeout (CopyFeedbackReset originalText styles) 1000 in
      ret tt
  end.

Section WithPlatform.
Variable P : Platform.

Definition processPayload (base64Content : jsstring) : M FormatResult :=
  try_catch
    (let! binaryData := decodeBase64 base64Content in
     let! decompressedData := decompressGzip P binaryData in
     let jsonString := TextDecoder_decode P decompressedData in
     let! parsedJson := parseJson P jsonString in
     let formattedJson := JSON_stringify P parsedJson 2 in
     ret (mkFormatResult true (Some formattedJson) None))
    (fun error => ret (mkFormatResult false None None)).

Definition formatCurrentElement : M FormatResult :=
  let! clicked := gets _lastRightClickedElement in
  match clicked with
  | None => ret (mkFormatResult false None (Some (str "No element selected")))
  | Some textarea =>
      let! w := gets world in
      if negb (is_textarea w textarea) then
        ret (mkFormatResult false None
               (Some (str "Selected element is not a textarea")))
      else
        let content := trim (value (target_element w textarea)) in
        if falsy content then
          ret (mkFormatResult false None (Some (str "Textarea is empty")))
        else
          let! result := processPayload content in
          when (success result && truthy (data result))
            (copyToClipboard (default [] (data result))) ;;;
          ret result
  end.

Definition showPreviewForTextarea (textarea : Target) : M unit :=
  let! pp := gets _previewPanel in
  let! w := gets world in
  let v := value (target_element w textarea) in
  if match pp with None => true | Some _ => falsy (trim v) end then ret tt
  else
    let! result := processPayload (trim v) in
    if success result && truthy (data result) then
      showPreviewPanel (default [] (data result)) textarea ;;;
      update_panel (set_copyButton_onclick (data result))
    else hidePreviewPanel.

Definition startHoverTimer (textarea : Target) : M unit :=
  clearHoverTimer ;;;
  modify (set_currentHoveredTextarea (Some textarea)) ;;;
  debug (str "starting hover timer") ;;;
  let! id := setTimeout (HoverTimerFired textarea) _hoverDelay in
  modify (set_hoverTimeout (Some id)).

(** [===] between [this._currentHoveredTextarea] and an element. *)
Definition hovered_is (st : State) (t : Target) : bool :=
  match _currentHoveredTextarea st with
  | Some c => Target_eqb c t
  | None => false
  end.

Definition handleMouseMove (target : Target) (now : Z) : M unit :=
  let! last := gets _lastMouseMoveTime in
  if (now - last <? _mouseMoveThrottle)%Z then ret tt
  else
    modify (set_lastMouseMoveTime now) ;;;
    let! w := gets world in
    let! inConsole := isInDynamoDBConsole in
    if is_textarea w target && inConsole then
      let! same := gets (fun st => hovered_is st target) in
      when (negb same) (startHoverTimer target)
    else
      let! cur := gets _currentHoveredTextarea in
      match cur with
      | Some _ =>
          modify (set_currentHoveredTextarea None) ;;;
          clearHoverTimer ;;;
          hidePreviewPanel
      | None => ret tt
      end.

(** [handleMouseLeave]; no listener of the script is bound to it. *)
Definition handleMouseLeave (target : Target) : M unit :=
  let! w := gets world in
  if is_textarea w target then
    debug (str "mouseleave on textarea") ;;;
    let! same := gets (fun st => hovered_is st target) in
    when same (modify (set_currentHoveredTextarea None)) ;;;
    clearHoverTimer ;;;
    let! _ := setTimeout MouseLeaveHide 100 in
    ret tt
  else ret tt.

(** The body of a timer callback. *)
Definition run_callback (cb : TimerCallback) : M unit :=
  match cb with
  | HoverTimerFired textarea =>
      debug (str "hover timer fired") ;;;
      let! same := gets (fun st => hovered_is st textarea) in
      when same (showPreviewForTextarea textarea)
  | MouseLeaveHide =>
      let! pp := gets _previewPanel in
      let! w := gets world in
      when (negb (match pp with Some _ => panel_hovered w | None => false end))
        hidePreviewPanel
  | ErrorPreviewReset =>
      let! pp := gets _previewPanel in
      match pp with
      | Some _ =>
          let! theme := detectAWSTheme in
          let currentStyles := getThemeStyles theme in
          update_panel (set_content_color (text currentStyles)) ;;;
          update_panel (set_copyButton_display (str "block"))
      | None => ret tt
      end
  | CopyFeedbackReset originalText styles =>
      let! pp := gets _previewPanel in
      match pp with
      | Some _ =>
          update_panel (set_copyButton_textContent originalText) ;;;
          update_panel (set_copyButton_background (buttonBg styles))
      | None => ret tt
      end
  end.

(** The two [click] listeners on the document have this same body. *)
Definition clickOutside (target : Target) : M unit :=
  let! pp := gets _previewPanel in
  let! visible := gets panel_isVisible in
  match pp with
  | Some i => when (visible && negb (panel_contains i target)) hidePreviewPanel
  | None => ret tt
  end.

(** The [mouseenter] listener of the panel element. *)
Definition panelMouseEnter : M unit :=
  let! t := gets _hoverTimeout in
  match t with
  | Some id =>
      when (timeout_set t) (clearTimeout id ;;; modify (set_hoverTimeout None))
  | None => ret tt
  end.

(** The [onclick] handler [showPreviewForTextarea] installs on the copy
    button, closed over the text shown. *)
Definition copyButtonClick (text : jsstring) : M unit :=
  copyToClipboard text ;;; showCopyFeedback.

Inductive Event : Type :=
| ContextMenu (target : Target)
| MouseMove (target : Target) (now : Z)
| Click (target : Target)
| PanelMouseEnter
| CopyButtonMouseEnter
| CopyButtonMouseLeave
| Message (action : jsstring)
| TimerFires (id : N)
| ClipboardSettles (fulfilled : bool)
| WorldChanges (w : World).

(** The listeners the constructor registers, run on the host's events.  A
    click on the copy button of the panel runs its [onclick] handler, if
    one is installed, before the event reaches the document. *)
Definition dispatch (ev : Event) : M unit :=
  match ev with
  | ContextMenu target => modify (set_lastRightClickedElement (Some target))
  | MouseMove target now => handleMouseMove target now
  | Click target =>
      let! pp := gets _previewPanel in
      let! panel := gets current_panel in
      match pp, panel, target with
      | Some i, Some p, PanelNode j PanelCopyButton =>
          match copyButton_onclick p with
          | Some text => when (Nat.eqb i j) (copyButtonClick text)
          | None => ret tt
          end
      | _, _, _ => ret tt
      end ;;;
      clickOutside target ;;;
      clickOutside target
  | PanelMouseEnter => panelMouseEnter
  | CopyButtonMouseEnter =>
      update_panel (fun p => set_copyButton_background (buttonHover (created_styles p)) p)
  | CopyButtonMouseLeave =>
      update_panel (fun p => set_copyButton_background (buttonBg (created_styles p)) p)
  | Message action =>
      if jsstring_eqb action (str "formatPayload") then
        let! result := formatCurrentElement in
        emit (SendResponse result)
      else ret tt
  | TimerFires id =>
      let! cb := gets (fun st => timers st !! id) in
      match cb with
      | Some cb =>
          modify (fun st => set_timers (delete id (timers st)) (next_timer st) st) ;;;
          run_callback cb
      | None => ret tt
      end
  | ClipboardSettles fulfilled => clipboardSettled fulfilled
  | WorldChanges w => modify (set_world w)
  end.

(** [constructor()]: the listeners are registered, the panel is created,
    and debug mode is read from the page. *)
Definition constructor : M unit :=
  createPreviewPanel ;;;
  let! w := gets world in
  when (dynamoDBFormatterDebug w) (modify (set_debugMode true)).

(** The state after [new PayloadFormatter()] at script load. *)
Definition construct (w : World) : State := exec constructor (initial_state w).

(** The state after the host delivered the events in order.  A handler
    that throws leaves the state it reached. *)
Definition run (evs : list Event) (st : State) : State :=
  fold_left (fun s ev => exec (dispatch ev) s) evs st.
End WithPlatform.
End Preview.

(** ** The background script *)

Module Background.

(** [chrome.contextMenus.onClicked] listener: the message of the
    notification it creates, if any.  [reply] is how the awaited
    [chrome.tabs.sendMessage] ends: rejected, or resolved with the
    response, which is [undefined] when no listener answered. *)
Definition onClicked (menuItemId : jsstring) (tab_id : option N)
    (reply : completion (option FormatResult)) : option jsstring :=
  if jsstring_eqb menuItemId (str "formatDynamoDBPayload")
     && match tab_id with Some id => negb (id =? 0) | None => false end
  then
    match reply with
    | Returned (Some response) =>
        if success response then
          Some (str "Formatted JSON copied to clipboard!")
        else
          Some (str "Error: " ++
                match error response with
                | Some e => e
                | None => str "undefined"
                end)
    | Returned None | Thrown _ =>
        Some (str "Failed to format payload. Make sure you're right-clicking on a textarea.")
    end
  else None.

End Background.

(** ** A reference platform

    An executable instance of [Platform], to run the scripts on concrete
    payloads.  It follows the host on the inputs it accepts: gzip members
    without optional header fields whose blocks are stored, checked against
    their CRC-32 and length, and zlib streams without a preset dictionary
    whose blocks are stored, checked against their Adler-32; UTF-8 with
    replacement of ill-formed sequences
    and removal of a leading byte order mark; JSON texts whose numbers are
    integers of magnitude at most 2^53 and whose objects have distinct keys,
    none of them an array index.  It reports a failure on everything else. *)

Module Reference.

(** *** UTF-8 *)

Definition replacement : N := 65533.

Definition code_units (cp : N) : list N :=
  if cp <? 65536 then [cp]
  else [55296 + (cp - 65536) / 1024; 56320 + (cp - 65536) mod 1024].

(** A byte read with no sequence open: the code units to output, then the
    code point so far, the continuation bytes needed and the range allowed
    for the next byte. *)
Definition lead (b : N) : list N * (N * N * N * N) :=
  if b <=? 127 then ([b], (0, 0, 128, 191))
  else if (194 <=? b) && (b <=? 223) then ([], (b - 192, 1, 128, 191))
  else if (224 <=? b) && (b <=? 239) then
    ([], (b - 224, 2, if b =? 224 then 160 else 128, if b =? 237 then 159 else 191))
  else if (240 <=? b) && (b <=? 244) then
    ([], (b - 240, 3, if b =? 240 then 144 else 128, if b =? 244 then 143 else 191))
  else ([replacement], (0, 0, 128, 191)).

Fixpoint utf8_go (bs : list N) (cp needed lower upper : N) : list N :=
  match bs with
  | [] => if needed =? 0 then [] else [replacement]
  | b :: rest =>
      if needed =? 0 then
        let '(out, (cp', n', lo', hi')) := lead b in
        out ++ utf8_go rest cp' n' lo' hi'
      else if (lower <=? b) && (b <=? upper) then
        if needed =? 1 then code_units (cp * 64 + (b - 128)) ++ utf8_go rest 0 0 128 191
        else utf8_go rest (cp * 64 + (b - 128)) (needed - 1) 128 191
      else
        let '(out, (cp', n', lo', hi')) := lead b in
        replacement :: out ++ utf8_go rest cp' n' lo' hi'
  end.

Definition utf8_decode (bs : list N) : jsstring :=
  match bs with
  | 239 :: 187 :: 191 :: rest => utf8_go rest 0 0 128 191
  | _ => utf8_go bs 0 0 128 191
  end.

(** *** gzip and zlib with stored blocks *)

Fixpoint crc_shift (n : nat) (c : N) : N :=
  match n with
  | O => c
  | S k => crc_shift k (if N.odd c then N.lxor (c / 2) 3988292384 else c / 2)
  end.

Definition crc32 (bs : list N) : N :=
  N.lxor (fold_left (fun c b => crc_shift 8 (N.lxor c b)) bs 4294967295) 4294967295.

Definition le16 (a b : N) : N := a + 256 * b.
Definition le32 (a b c d : N) : N := a + 256 * (b + 256 * (c + 256 * d)).

(** The stored blocks of a deflate stream: the data and what follows the
    last block. *)
Fixpoint stored_blocks (fuel : nat) (bs : list N) : option (list N * list N) :=
  match fuel with
  | O => None
  | S f =>
      match bs with
      | hdr :: l0 :: l1 :: n0 :: n1 :: rest =>
          let len := le16 l0 l1 in
          if negb ((hdr / 2) mod 4 =? 0) then None
          else if negb (len + le16 n0 n1 =? 65535) then None
          else if (N.of_nat (length rest) <? len) then None
          else
            let block := firstn (N.to_nat len) rest in
            let after := skipn (N.to_nat len) rest in
            if N.odd hdr then Some (block, after)
            else
              match stored_blocks f after with
              | Some (more, tail) => Some (block ++ more, tail)
              | None => None
              end
      | _ => None
      end
  end.

Definition adler32 (bs : list N) : N :=
  let sums :=
    fold_left (fun ab x =>
                 let a := (fst ab + x) mod 65521 in (a, (snd ab + a) mod 65521))
      bs (1, 0) in
  snd sums * 65536 + fst sums.

Definition be32 (a b c d : N) : N := d + 256 * (c + 256 * (b + 256 * a)).

(** A gzip member: the magic number, the deflate method, no flags, six
    bytes of time, extra flags and system, the blocks, the CRC-32 and the
    length of the data. *)
Definition gunzip (bs : list N) : option (list N) :=
  match bs with
  | 31 :: 139 :: 8 :: 0 :: _ :: _ :: _ :: _ :: _ :: _ :: body =>
      match stored_blocks (length body) body with
      | Some (out, [c0; c1; c2; c3; s0; s1; s2; s3]) =>
          if (le32 c0 c1 c2 c3 =? crc32 out)
             && (le32 s0 s1 s2 s3 =? N.of_nat (length out) mod 4294967296)
          then Some out else None
      | _ => None
      end
  | _ => None
  end.

(** A zlib stream: a header of two bytes that is a multiple of 31 as a
    big-endian number, names the deflate method with a window of at most
    32K and asks for no preset dictionary; the blocks; the Adler-32 of the
    data. *)
Definition zlib_inflate (bs : list N) : option (list N) :=
  match bs with
  | cmf :: flg :: body =>
      if ((256 * cmf + flg) mod 31 =? 0) && (cmf mod 16 =? 8) && (cmf / 16 <=? 7)
         && ((flg / 32) mod 2 =? 0)
      then
        match stored_blocks (length body) body with
        | Some (out, [a0; a1; a2; a3]) =>
            if be32 a0 a1 a2 a3 =? adler32 out then Some out else None
        | _ => None
        end
      else None
  | _ => None
  end.

(** [pako.inflate(data)] without options: the wrapper is detected from the
    first two bytes, the gzip magic number or else a zlib header. *)
Definition inflate (bs : list N) : option (list N) :=
  match bs with
  | id1 :: id2 :: _ =>
      if (id1 =? 31) && (id2 =? 139) then gunzip bs else zlib_inflate bs
  | _ => None
  end.

(** *** JSON *)

#[warnings="-register-all"] Inductive json : Type :=
| JNull
| JBool (b : bool)
| JNumber (z : Z)
| JString (s : jsstring)
| JArray (l : list json)
| JObject (l : list (jsstring * json)).

Definition is_ws (c : N) : bool :=
  (c =? 32) || (c =? 9) || (c =? 10) || (c =? 13).

Fixpoint skip_ws (s : jsstring) : jsstring :=
  match s with
  | c :: r => if is_ws c then skip_ws r else s
  | [] => []
  end.

Definition is_digit (c : N) : bool := (48 <=? c) && (c <=? 57).

Definition hex_value (c : N) : option N :=
  if is_digit c then Some (c - 48)
  else if (97 <=? c) && (c <=? 102) then Some (c - 87)
  else if (65 <=? c) && (c <=? 70) then Some (c - 55)
  else None.

(** The characters of a string literal after its opening quote. *)
Fixpoint parse_string (fuel : nat) (s : jsstring) : option (jsstring * jsstring) :=
  match fuel with
  | O => None
  | S f =>
      match s with
      | 34 :: r => Some ([], r)
      | 92 :: 117 :: h1 :: h2 :: h3 :: h4 :: r =>
          match hex_value h1, hex_value h2, hex_value h3, hex_value h4, parse_string f r with
          | Some a, Some b, Some c, Some d, Some (cs, r') =>
              Some (((a * 16 + b) * 16 + c) * 16 + d :: cs, r')
          | _, _, _, _, _ => None
          end
      | 92 :: e :: r =>
          let c :=
            if e =? 34 then Some 34 else if e =? 92 then Some 92
            else if e =? 47 then Some 47 else if e =? 98 then Some 8
            else if e =? 102 then Some 12 else if e =? 110 then Some 10
            else if e =? 114 then Some 13 else if e =? 116 then Some 9
            else None in
          match c, parse_string f r with
          | Some c, Some (cs, r') => Some (c :: cs, r')
          | _, _ => None
          end
      | c :: r =>
          if (c <? 32) || (c =? 92) then None
          else
            match parse_string f r with
            | Some (cs, r') => Some (c :: cs, r')
            | None => None
            end
      | [] => None
      end
  end.

Fixpoint take_digits (s : jsstring) : list N * jsstring :=
  match s with
  | c :: r =>
      if is_digit c then let '(ds, r') := take_digits r in (c :: ds, r')
      else ([], s)
  | [] => ([], [])
  end.

Definition digits_value (ds : list N) : N :=
  fold_left (fun acc d => acc * 10 + (d - 48)) ds 0.

(** An integer literal: no leading zero, no fraction, no exponent. *)
Definition parse_number (s : jsstring) : option (Z * jsstring) :=
  let '(neg, s') := match s with 45 :: r => (true, r) | _ => (false, s) end in
  let '(ds, r) := take_digits s' in
  match ds with
  | [] => None
  | d :: more =>
      if (d =? 48) && negb (falsy more) then None
      else if match r with c :: _ => (c =? 46) || (c =? 101) || (c =? 69) | [] => false end
      then None
      else
        let n := digits_value ds in
        if 9007199254740992 <? n then None
        else Some (if neg then (- Z.of_N n)%Z else Z.of_N n, r)
  end.

(** A canonical numeric string below 2^32 - 1: such keys are enumerated
    first and in numeric order by the host. *)
Definition is_array_index (k : jsstring) : bool :=
  match k with
  | [] => false
  | d :: more =>
      forallb is_digit k && implb (d =? 48) (falsy more)
      && (digits_value k <? 4294967295)
  end.

Fixpoint parse_value (fuel : nat) (s : jsstring) : option (json * jsstring) :=
  match fuel with
  | O => None
  | S f =>
      match skip_ws s with
      | 110 :: 117 :: 108 :: 108 :: r => Some (JNull, r)
      | 116 :: 114 :: 117 :: 101 :: r => Some (JBool true, r)
      | 102 :: 97 :: 108 :: 115 :: 101 :: r => Some (JBool false, r)
      | 34 :: r =>
          match parse_string (S (length r)) r with
          | Some (cs, r') => Some (JString cs, r')
          | None => None
          end
      | 91 :: r =>
          match skip_ws r with
          | 93 :: r' => Some (JArray [], r')
          | _ =>
              match parse_elements f r with
              | Some (vs, r') => Some (JArray vs, r')
              | None => None
              end
          end
      | 123 :: r =>
          match skip_ws r with
          | 125 :: r' => Some (JObject [], r')
          | _ =>
              match parse_members f r with
              | Some (kvs, r') => Some (JObject kvs, r')
              | None => None
              end
          end
      | s' =>
          match parse_number s' with
          | Some (z, r) => Some (JNumber z, r)
          | None => None
          end
      end
  end
with parse_elements (fuel : nat) (s : jsstring) : option (list json * jsstring) :=
  match fuel with
  | O => None
  | S f =>
      match parse_value f s with
      | Some (v, r) =>
          match skip_ws r with
          | 44 :: r' =>
              match parse_elements f r' with
              | Some (vs, r'') => Some (v :: vs, r'')
              | None => None
              end
          | 93 :: r' => Some ([v], r')
          | _ => None
          end
      | None => None
      end
  end
with parse_members (fuel : nat) (s : jsstring)
    : option (list (jsstring * json) * jsstring) :=
  match fuel with
  | O => None
  | S f =>
      match skip_ws s with
      | 34 :: r =>
          match parse_string (S (length r)) r with
          | Some (k, r1) =>
              match skip_ws r1 with
              | 58 :: r2 =>
                  match parse_value f r2 with
                  | Some (v, r3) =>
                      match skip_ws r3 with
                      | 44 :: r4 =>
                          match parse_members f r4 with
                          | Some (kvs, r5) =>
                              if is_array_index k
                                 || existsb (fun kv => jsstring_eqb (fst kv) k) kvs
                              then None
                              else Some ((k, v) :: kvs, r5)
                          | None => None
                          end
                      | 125 :: r4 =>
                          if is_array_index k then None else Some ([(k, v)], r4)
                      | _ => None
                      end
                  | None => None
                  end
              | _ => None
              end
          | None => None
          end
      | _ => None
      end
  end.

Definition parse (s : jsstring) : jsstring + json :=
  match parse_value (2 * length s + 2) s with
  | Some (v, r) =>
      match skip_ws r with
      | [] => inr v
      | _ => inl (str "Unexpected non-whitespace character after JSON")
      end
  | None => inl (str "Unexpected token in JSON")
  end.

Definition hex_digit (v : N) : N := if v <? 10 then 48 + v else 87 + v.

Definition hex4 (c : N) : jsstring :=
  [92; 117; hex_digit (c / 4096); hex_digit ((c / 256) mod 16);
   hex_digit ((c / 16) mod 16); hex_digit (c mod 16)].

Definition is_high (c : N) : bool := (55296 <=? c) && (c <=? 56319).
Definition is_low (c : N) : bool := (56320 <=? c) && (c <=? 57343).

(** The body of [QuoteJSONString]: short escapes, [\u00xx] for the other
    control characters, [\udxxx] for unpaired surrogates. *)
Fixpoint quote_chars (s : jsstring) : jsstring :=
  match s with
  | [] => []
  | c :: r =>
      if c =? 34 then 92 :: 34 :: quote_chars r
      else if c =? 92 then 92 :: 92 :: quote_chars r
      else if c =? 8 then 92 :: 98 :: quote_chars r
      else if c =? 9 then 92 :: 116 :: quote_chars r
      else if c =? 10 then 92 :: 110 :: quote_chars r
      else if c =? 12 then 92 :: 102 :: quote_chars r
      else if c =? 13 then 92 :: 114 :: quote_chars r
      else if c <? 32 then hex4 c ++ quote_chars r
      else if is_high c then
        match r with
        | d :: r' =>
            if is_low d then c :: d :: quote_chars r'
            else hex4 c ++ quote_chars r
        | [] => hex4 c
        end
      else if is_low c then hex4 c ++ quote_chars r
      else c :: quote_chars r
  end.

Definition quote (s : jsstring) : jsstring := 34 :: quote_chars s ++ [34].

Fixpoint decimal_pos (fuel : nat) (n : N) (acc : jsstring) : jsstring :=
  match fuel with
  | O => acc
  | S f =>
      if n <? 10 then 48 + n :: acc
      else decimal_pos f (n / 10) (48 + n mod 10 :: acc)
  end.

Definition decimal (z : Z) : jsstring :=
  let digits n := decimal_pos (S (N.to_nat (N.log2 n))) n [] in
  if (z <? 0)%Z then 45 :: digits (Z.to_N (- z)) else digits (Z.to_N z).

Fixpoint join (sep : jsstring) (parts : list jsstring) : jsstring :=
  match parts with
  | [] => []
  | [p] => p
  | p :: ps => p ++ sep ++ join sep ps
  end.

(** [SerializeJSONProperty] with the current indentation [indent] and the
    unit of indentation [gap]. *)
Fixpoint serialize (gap indent : jsstring) (v : json) : jsstring :=
  let stepback := indent in
  let indent' := indent ++ gap in
  let sep := if falsy gap then [44] else 44 :: 10 :: indent' in
  let wrap (opening closing : N) (parts : list jsstring) :=
    match parts with
    | [] => [opening; closing]
    | _ =>
        if falsy gap then opening :: join sep parts ++ [closing]
        else opening :: 10 :: indent' ++ join sep parts ++ 10 :: stepback ++ [closing]
    end in
  match v with
  | JNull => str "null"
  | JBool true => str "true"
  | JBool false => str "false"
  | JNumber z => decimal z
  | JString s => quote s
  | JArray l => wrap 91 93 (List.map (serialize gap indent') l)
  | JObject l =>
      wrap 123 125
        (List.map (fun kv =>
           quote (fst kv) ++ (if falsy gap then [58] else [58; 32])
           ++ serialize gap indent' (snd kv)) l)
  end.

(** [JSON.stringify(v, null, n)]: the gap is [n] spaces, at most ten. *)
Definition stringify (v : json) (n : N) : jsstring :=
  serialize (repeat 32 (N.to_nat (N.min n 10))) [] v.

End Reference.

(** The reference platform as an instance: what it serializes is never the
    empty string. *)
Definition reference_platform : Platform.
Proof.
  refine (mkPlatform Reference.json Reference.inflate Reference.utf8_decode
            Reference.parse Reference.stringify _).
  assert (Hdec : forall f n acc, Reference.decimal_pos (S f) n acc <> []).
  { induction f as [|f IH]; intros n acc; simpl.
    - destruct (n <? 10); discriminate.
    - destruct (n <? 10); [discriminate|]. apply IH. }
  intros v n. unfold Reference.stringify.
  generalize (repeat 32 (N.to_nat (N.min n 10))). intros gap.
  destruct v as [|[|]|z|s|l|l]; simpl; try discriminate.
  - unfold Reference.decimal. destruct (z <? 0)%Z; [discriminate|apply Hdec].
  - destruct (List.map _ l); [discriminate|]. destruct (falsy gap); discriminate.
  - destruct (List.map _ l); [discriminate|]. destruct (falsy gap); discriminate.
Defined.

(** ** Notions used in the statements *)

(** A step of the pipeline rejects the input: [atob] rejects it, or
    [pako.inflate] rejects the bytes, or [JSON.parse] rejects the decoded
    text. *)
Definition undecodable (P : Platform) (s : jsstring) : Prop :=
  Base64.atob s = None
  \/ (exists b, Base64.atob s = Some b /\ pako_inflate P b = None)
  \/ (exists b raw message,
        Base64.atob s = Some b /\ pako_inflate P b = Some raw
        /\ JSON_parse P (TextDecoder_decode P raw) = inl message).

(** What [formatCurrentElement] has to return in a state, given the decode
    pipeline it runs. *)
Definition validation_order (format : M FormatResult)
    (pipeline : jsstring -> M FormatResult) (st : State) : Prop :=
  (_lastRightClickedElement st = None ->
   outcome format st
   = Returned (mkFormatResult false None (Some (str "No element selected"))))
  /\ (forall el,
        _lastRightClickedElement st = Some el ->
        tagName (target_element (world st) el) <> str "TEXTAREA" ->
        outcome format st
        = Returned (mkFormatResult false None
                      (Some (str "Selected element is not a textarea"))))
  /\ (forall el,
        _lastRightClickedElement st = Some el ->
        tagName (target_element (world st) el) = str "TEXTAREA" ->
        trim (value (target_element (world st) el)) = [] ->
        outcome format st
        = Returned (mkFormatResult false None (Some (str "Textarea is empty"))))
  /\ (forall el,
        _lastRightClickedElement st = Some el ->
        tagName (target_element (world st) el) = str "TEXTAREA" ->
        trim (value (target_element (world st) el)) <> [] ->
        outcome format st
        = outcome (pipeline (trim (value (target_element (world st) el)))) st).

(** An explicit invocation from the context menu: the background script
    sends [{action: "formatPayload"}] to the tab, the content script answers
    with the result of [formatCurrentElement], and the background script
    shows a notification with the message returned here. *)
Definition explicit_invocation (P : Platform) (st : State) : option jsstring :=
  Background.onClicked (str "formatDynamoDBPayload") (Some 1)
    (match outcome (Preview.formatCurrentElement P) st with
     | Returned r => Returned (Some r)
     | Thrown e => Thrown e
     end).

(** A page of the console: element 1 is a textarea holding [v], element 3
    an empty textarea, every other element a [div]. *)
Definition sample_world (v : jsstring) (clipboard : bool) : World :=
  mkWorld
    (fun id =>
       if id =? 1 then mkPageElement (str "TEXTAREA") v 100 400 50
       else if id =? 3 then mkPageElement (str "TEXTAREA") [] 100 400 300
       else mkPageElement (str "DIV") [] 0 1280 0)
    (str "eu-west-1.console.aws.amazon.com") 1280 800 light false clipboard false.

(** The JSON text [{"a":1}], its bytes in UTF-8, a gzip member storing them,
    that member in base64, and the text pretty-printed with two spaces. *)
Definition sample_text : jsstring := [123; 34; 97; 34; 58; 49; 125].
Definition sample_gzip : list N :=
  [31; 139; 8; 0; 0; 0; 0; 0; 4; 3; 1; 7; 0; 248; 255;
   123; 34; 97; 34; 58; 49; 125; 175; 172; 27; 86; 7; 0; 0; 0].
Definition sample_payload : jsstring :=
  str "H4sIAAAAAAAEAwEHAPj/eyJhIjoxfa+sG1YHAAAA".
Definition sample_value : Reference.json :=
  Reference.JObject [(str "a", Reference.JNumber 1)].
Definition sample_formatted : jsstring :=
  [123; 10; 32; 32; 34; 97; 34; 58; 32; 49; 10; 125].


(** The host settles the pending [writeText] promises, oldest first, with
    the given outcomes. *)
Definition settle (outcomes : list bool) (st : State) : State :=
  fold_left (fun s fulfilled => exec (clipboardSettled fulfilled) s) outcomes st.

(** The manual copies made for those of the writes that were rejected. *)
Fixpoint fallback_copies (texts : list jsstring) (outcomes : list bool)
    : list HostCall :=
  match texts, outcomes with
  | text :: texts', fulfilled :: outcomes' =>
      (if fulfilled then [] else [ExecCommandCopy text])
      ++ fallback_copies texts' outcomes'
  | _, _ => []
  end.


(** The value the pipeline parses out of an input, if every step succeeds. *)
Definition decoded_value (P : Platform) (s : jsstring) : option (JSValue P) :=
  match Base64.atob s with
  | Some b =>
      match pako_inflate P b with
      | Some raw =>
          match JSON_parse P (TextDecoder_decode P raw) with
          | inr v => Some v
          | inl _ => None
          end
      | None => None
      end
  | None => None
  end.


(** The sample page with the pointer over the preview panel. *)
Definition sample_world_over_panel (v : jsstring) : World :=
  let w := sample_world v true in
  mkWorld (page w) (hostname w) (innerWidth w) (innerHeight w) (aws_theme w)
    true (clipboard_api w) (dynamoDBFormatterDebug w).

(** The visibility flag of a panel agrees with the display style of its
    element. *)
Definition consistent (p : PreviewPanel) : Prop :=
  (isVisible p = true <-> element_display p = str "block")
  /\ (isVisible p = false <-> element_display p = str "none").

(** What can happen to the hover-preview script after its construction: the
    host delivers an event to one of its listeners, or one of the three
    panel operations is called. *)
Inductive Action : Type :=
| HostEvent (ev : Preview.Event)
| CallShowPreviewPanel (content : jsstring) (textarea : Target)
| CallShowErrorPreview (error : jsstring) (textarea : Target)
| CallHidePreviewPanel.

Definition perform (P : Platform) (a : Action) : M unit :=
  match a with
  | HostEvent ev => Preview.dispatch P ev
  | CallShowPreviewPanel content textarea => Preview.showPreviewPanel content textarea
  | CallShowErrorPreview error textarea => Preview.showErrorPreview error textarea
  | CallHidePreviewPanel => Preview.hidePreviewPanel
  end.

(** The state after the script was loaded in the world [w] and the actions
    happened in order. *)
Definition history (P : Platform) (w : World) (acts : list Action) : State :=
  fold_left (fun st a => exec (perform P a) st) acts (Preview.construct w).

(** One panel object exists, [this._previewPanel] refers to it, and its flag
    agrees with its display style. *)
Definition panel_invariant (st : State) : Prop :=
  _previewPanel st = Some 0%nat
  /\ exists p, panels st = [p] /\ consistent p.

(** A computation keeps a property of the state. *)
Definition preserves {A} (I : State -> Prop) (m : M A) : Prop :=
  forall st, I st -> I (snd (m st)).


(** ** Notions used in the further statements *)



(** The panel object [createPreviewPanel] builds with the styles of a
    theme: hidden, empty, with a [Copy] button and no click handler. *)
Definition fresh_panel (styles : ThemeStyles) : PreviewPanel :=
  mkPreviewPanel (str "none") None None [] [] (str "Copy") (buttonBg styles) []
    None styles false.

(** Debug mode is off and nothing was written to the console. *)
Definition console_silent (st : State) : Prop :=
  _debugMode st = false /\ forall message, ~ In (ConsoleDebug message) (trace st).

(** No hover timer is pending. *)
Definition no_hover_timer (st : State) : Prop :=
  1 <= next_timer st
  /\ forall id textarea, timers st !! id <> Some (HoverTimerFired textarea).

(** A pending hover timer is the one [this._hoverTimeout] names. *)
Definition hover_timer_named (st : State) : Prop :=
  1 <= next_timer st
  /\ forall id textarea,
       timers st !! id = Some (HoverTimerFired textarea) ->
       _hoverTimeout st = Some id /\ id <> 0.

(** A pending hover timer is the one [this._hoverTimeout] names, and it was
    started for the textarea [this._currentHoveredTextarea] refers to. *)
Definition hover_timer_invariant (st : State) : Prop :=
  hover_timer_named st
  /\ forall id textarea,
       timers st !! id = Some (HoverTimerFired textarea) ->
       _currentHoveredTextarea st = Some textarea.

(** When the panel is visible, the click handler of its copy button holds
    the text the panel shows. *)
Definition shown_is_copied (st : State) : Prop :=
  forall p,
    Preview.current_panel st = Some p -> isVisible p = true ->
    copyButton_onclick p = Some (content_textContent p).

(** The page is not one of the console. *)
Definition outside_console (w : World) : Prop :=
  includes (hostname w) (str "console.aws.amazon.com") = false.

(** An event that does not take the page into the console. *)
Definition stays_outside (ev : Preview.Event) : Prop :=
  match ev with
  | Preview.WorldChanges w => outside_console w
  | _ => True
  end.

(** Outside the console nothing is hovered, no hover timer is pending and
    the panel is hidden. *)
Definition idle_outside (st : State) : Prop :=
  outside_console (world st)
  /\ _currentHoveredTextarea st = None
  /\ no_hover_timer st
  /\ Preview.panel_isVisible st = false.

(** A page like the sample page, but not of the console. *)
Definition sample_world_elsewhere (v : jsstring) : World :=
  let w := sample_world v true in
  mkWorld (page w) (str "example.com") (innerWidth w) (innerHeight w)
    (aws_theme w) false true false.

(** The input without its ASCII white space. *)
Definition without_whitespace (s : jsstring) : jsstring :=
  List.filter (fun c => negb (Base64.is_ascii_whitespace c)) s.

(** The panel is not in its error form and no timer would end or start
    one: the only timers pending are hover timers and resets of the copy
    feedback, and the inline colour of the text and the inline display of the
    copy button are unset, as [createPreviewPanel] left them. *)
Definition no_error_form (st : State) : Prop :=
  (forall id cb,
     timers st !! id = Some cb ->
     (exists textarea, cb = HoverTimerFired textarea)
     \/ (exists originalText styles, cb = CopyFeedbackReset originalText styles))
  /\ (forall p,
        Preview.current_panel st = Some p ->
        copyButton_display p = [] /\ content_color p = []).

(** * Properties *)

(** ** Strings *)

Lemma jsstring_eqb_eq (a b : jsstring) : jsstring_eqb a b = true <-> a = b.
Proof.
  revert b. induction a as [|x a IH]; intros [|y b]; simpl; split;
    try discriminate; try reflexivity.
  - intros H. apply andb_prop in H as [Hx Hr]. apply N.eqb_eq in Hx.
    apply IH in Hr. congruence.
  - intros H. injection H as -> ->. rewrite N.eqb_refl. simpl. now apply IH.
Qed.

Lemma jsstring_eqb_neq (a b : jsstring) : jsstring_eqb a b = false <-> a <> b.
Proof.
  rewrite <- jsstring_eqb_eq. destruct (jsstring_eqb a b); split; congruence.
Qed.

Lemma falsy_nil (s : jsstring) : falsy s = true <-> s = [].
Proof. destruct s; simpl; split; congruence. Qed.

Lemma truthy_cons (s : jsstring) : s <> [] -> truthy (Some s) = true.
Proof. destruct s; [congruence|reflexivity]. Qed.

(** ** Base64 round trip *)

Module Base64Facts.
Import Base64.

Lemma b64_char_value (v : N) : v < 64 -> b64_value (b64_char v) = Some v.
Proof.
  intros Hv. unfold b64_char.
  destruct (N.ltb_spec v 26).
  { unfold b64_value.
    replace ((65 <=? 65 + v) && (65 + v <=? 90)) with true
      by (symmetry; apply andb_true_intro; split; apply N.leb_le; lia).
    f_equal. lia. }
  destruct (N.ltb_spec v 52).
  { unfold b64_value.
    replace ((65 <=? 97 + (v - 26)) && (97 + (v - 26) <=? 90)) with false
      by (symmetry; apply andb_false_intro2; apply N.leb_gt; lia).
    replace ((97 <=? 97 + (v - 26)) && (97 + (v - 26) <=? 122)) with true
      by (symmetry; apply andb_true_intro; split; apply N.leb_le; lia).
    f_equal. lia. }
  destruct (N.ltb_spec v 62).
  { unfold b64_value.
    replace ((65 <=? 48 + (v - 52)) && (48 + (v - 52) <=? 90)) with false
      by (symmetry; apply andb_false_intro1; apply N.leb_gt; lia).
    replace ((97 <=? 48 + (v - 52)) && (48 + (v - 52) <=? 122)) with false
      by (symmetry; apply andb_false_intro1; apply N.leb_gt; lia).
    replace ((48 <=? 48 + (v - 52)) && (48 + (v - 52) <=? 57)) with true
      by (symmetry; apply andb_true_intro; split; apply N.leb_le; lia).
    f_equal. lia. }
  destruct (N.eqb_spec v 62) as [Heq|Hne].
  - subst v. reflexivity.
  - assert (Hv63 : v = 63) by lia. subst v. reflexivity.
Qed.

(** A character of the alphabet is neither padding nor white space. *)
Lemma b64_value_plain (c v : N) :
  b64_value c = Some v -> (c =? pad) = false /\ is_ascii_whitespace c = false.
Proof.
  intros H. split.
  - destruct (N.eqb_spec c pad) as [->|]; [discriminate H|reflexivity].
  - unfold is_ascii_whitespace.
    destruct (N.eqb_spec c 9) as [->|]; [discriminate H|].
    destruct (N.eqb_spec c 10) as [->|]; [discriminate H|].
    destruct (N.eqb_spec c 12) as [->|]; [discriminate H|].
    destruct (N.eqb_spec c 13) as [->|]; [discriminate H|].
    destruct (N.eqb_spec c 32) as [->|]; [discriminate H|].
    reflexivity.
Qed.

Lemma b64_char_plain (v : N) :
  v < 64 -> (b64_char v =? pad) = false /\ is_ascii_whitespace (b64_char v) = false.
Proof. intros Hv. eapply b64_value_plain, b64_char_value, Hv. Qed.

(** Induction on a list three elements at a time. *)
Lemma list_ind3 (A : Type) (Q : list A -> Prop) :
  Q [] -> (forall a, Q [a]) -> (forall a b, Q [a; b]) ->
  (forall a b c r, Q r -> Q (a :: b :: c :: r)) ->
  forall l, Q l.
Proof.
  intros H0 H1 H2 H3 l.
  assert (H : Q l /\ (forall a, Q (a :: l)) /\ (forall a b, Q (a :: b :: l))).
  { induction l as [|x l [IH0 [IH1 IH2]]].
    - repeat split; auto.
    - repeat split; auto. }
  apply H.
Qed.

Ltac euclid := Z.to_euclidean_division_equations; lia.

Lemma sextets_bound (a b c : N) :
  a < 256 -> b < 256 -> c < 256 ->
  a / 4 < 64 /\ (a mod 4) * 16 + b / 16 < 64
  /\ (b mod 16) * 4 + c / 64 < 64 /\ c mod 64 < 64
  /\ (a mod 4) * 16 < 64 /\ (b mod 16) * 4 < 64.
Proof. intros. zify. euclid. Qed.

(** A byte split at a power of two. *)
Ltac split_byte a d q r :=
  let Hq := fresh "Hdiv" in
  let Hr := fresh "Hmod" in
  pose proof (N.div_mod a d ltac:(discriminate)) as Hq;
  pose proof (N.mod_lt a d ltac:(discriminate)) as Hr;
  set (q := a / d) in *; set (r := a mod d) in *;
  clearbody q r.

Lemma bytes_of_sextets (a b c : N) :
  a < 256 -> b < 256 -> c < 256 ->
  let n := ((a / 4 * 64 + ((a mod 4) * 16 + b / 16)) * 64
            + ((b mod 16) * 4 + c / 64)) * 64 + c mod 64 in
  n / 65536 = a /\ (n / 256) mod 256 = b /\ n mod 256 = c.
Proof.
  intros Ha Hb Hc n.
  assert (Hn : n = a * 65536 + b * 256 + c).
  { subst n. split_byte a 4 qa ra. split_byte b 16 qb rb. split_byte c 64 qc rc. lia. }
  clearbody n. subst n.
  assert (H1 : (a * 65536 + b * 256 + c) / 256 = a * 256 + b).
  { symmetry. apply N.div_unique with (r := c); lia. }
  repeat split.
  - symmetry. apply N.div_unique with (r := b * 256 + c); lia.
  - rewrite H1. symmetry. apply N.mod_unique with (q := a); lia.
  - symmetry. apply N.mod_unique with (q := a * 256 + b); lia.
Qed.

Lemma bytes_of_sextets2 (a b : N) :
  a < 256 -> b < 256 ->
  let n := (a / 4 * 64 + ((a mod 4) * 16 + b / 16)) * 64 + (b mod 16) * 4 in
  n / 1024 = a /\ (n / 4) mod 256 = b.
Proof.
  intros Ha Hb n.
  assert (Hn : n = a * 1024 + b * 4).
  { subst n. split_byte a 4 qa ra. split_byte b 16 qb rb. lia. }
  clearbody n. subst n.
  assert (H1 : (a * 1024 + b * 4) / 4 = a * 256 + b).
  { symmetry. apply N.div_unique with (r := 0); lia. }
  split.
  - symmetry. apply N.div_unique with (r := b * 4); lia.
  - rewrite H1. symmetry. apply N.mod_unique with (q := a); lia.
Qed.

Lemma bytes_of_sextets1 (a : N) :
  a < 256 -> (a / 4 * 64 + (a mod 4) * 16) / 16 = a.
Proof.
  intros Ha.
  assert (Hn : a / 4 * 64 + (a mod 4) * 16 = a * 16).
  { split_byte a 4 qa ra. lia. }
  rewrite Hn. symmetry. apply N.div_unique with (r := 0); lia.
Qed.

Lemma drop_trailing_pad_cons (x : N) (l : jsstring) :
  (x =? pad) = false ->
  drop_trailing_pad (x :: l) = x :: drop_trailing_pad l.
Proof.
  intros Hx. destruct l as [|y [|z l]]; simpl; rewrite ?Hx; try reflexivity.
  destruct (y =? pad); reflexivity.
Qed.

Lemma mod4_step (n : nat) : ((4 + n) mod 4 = n mod 4)%nat.
Proof.
  replace (4 + n)%nat with (n + 1 * 4)%nat by lia. apply Nat.Div0.mod_add.
Qed.

(** The facts used of the character [c] of a 6-bit value [v]. *)
Ltac name_char v c :=
  let Hb := fresh "Hb" in
  assert (Hb : v < 64) by tauto;
  let Hval := fresh "Hval" in
  let Hpad := fresh "Hpad" in
  let Hws := fresh "Hws" in
  pose proof (b64_char_value v Hb) as Hval;
  pose proof (b64_char_plain v Hb) as [Hpad Hws];
  set (c := b64_char v) in *; clearbody c; clear Hb.

Lemma btoa_decodes (bs : list N) :
  Forall (fun b => b < 256) bs ->
  List.filter (fun c => negb (is_ascii_whitespace c)) (btoa bs) = btoa bs
  /\ (length (btoa bs) mod 4 = 0)%nat
  /\ (length (drop_trailing_pad (btoa bs)) mod 4 <> 1)%nat
  /\ option_map b64_bytes (b64_values (drop_trailing_pad (btoa bs))) = Some bs.
Proof.
  induction bs as [|a|a b|a b c r IH] using list_ind3; intros HF.
  - repeat split; try reflexivity. simpl. discriminate.
  - inversion HF as [|? ? Ha _]; subst.
    pose proof (sextets_bound a 0 0 Ha eq_refl eq_refl) as Hs.
    pose proof (bytes_of_sextets1 a Ha) as Hbytes.
    unfold btoa.
    name_char (a / 4) c1. name_char ((a mod 4) * 16) c2.
    repeat split.
    + simpl. rewrite Hws, Hws0. reflexivity.
    + simpl. discriminate.
    + simpl. rewrite Hval, Hval0. simpl. now rewrite Hbytes.
  - inversion HF as [|? ? Ha HF']; subst. inversion HF' as [|? ? Hb _]; subst.
    pose proof (sextets_bound a b 0 Ha Hb eq_refl) as Hs.
    pose proof (bytes_of_sextets2 a b Ha Hb) as [Hb1 Hb2].
    unfold btoa.
    name_char (a / 4) c1. name_char ((a mod 4) * 16 + b / 16) c2.
    name_char ((b mod 16) * 4) c3.
    repeat split.
    + simpl. rewrite Hws, Hws0, Hws1. reflexivity.
    + simpl. rewrite Hpad1. simpl. discriminate.
    + simpl. rewrite Hpad1. simpl. rewrite Hval, Hval0, Hval1. simpl.
      now rewrite Hb1, Hb2.
  - inversion HF as [|? ? Ha HF1]; subst. inversion HF1 as [|? ? Hb HF2]; subst.
    inversion HF2 as [|? ? Hc HF3]; subst.
    destruct (IH HF3) as (IH1 & IH2 & IH3 & IH4).
    pose proof (sextets_bound a b c Ha Hb Hc) as Hs.
    pose proof (bytes_of_sextets a b c Ha Hb Hc) as (Hb1 & Hb2 & Hb3).
    change (btoa (a :: b :: c :: r)) with
      (b64_char (a / 4) :: b64_char ((a mod 4) * 16 + b / 16)
       :: b64_char ((b mod 16) * 4 + c / 64) :: b64_char (c mod 64) :: btoa r).
    name_char (a / 4) c1. name_char ((a mod 4) * 16 + b / 16) c2.
    name_char ((b mod 16) * 4 + c / 64) c3. name_char (c mod 64) c4.
    rewrite !drop_trailing_pad_cons by assumption.
    repeat split.
    + simpl. rewrite Hws, Hws0, Hws1, Hws2. simpl. now rewrite IH1.
    + change (length (c1 :: c2 :: c3 :: c4 :: btoa r)) with (4 + length (btoa r))%nat.
      now rewrite mod4_step.
    + change (length (c1 :: c2 :: c3 :: c4 :: drop_trailing_pad (btoa r)))
        with (4 + length (drop_trailing_pad (btoa r)))%nat.
      now rewrite mod4_step.
    + simpl b64_values. rewrite Hval, Hval0, Hval1, Hval2.
      destruct (b64_values (drop_trailing_pad (btoa r))) as [vs|]; [|discriminate IH4].
      simpl in IH4. injection IH4 as IH4.
      simpl. now rewrite Hb1, Hb2, Hb3, IH4.
Qed.

(** [atob] undoes [btoa] on every byte sequence. *)
Lemma atob_btoa (bs : list N) :
  Forall (fun b => b < 256) bs -> atob (btoa bs) = Some bs.
Proof.
  intros HF. destruct (btoa_decodes bs HF) as (H1 & H2 & H3 & H4).
  unfold atob, strip_padding. rewrite H1.
  apply Nat.eqb_eq in H2. rewrite H2.
  apply Nat.eqb_neq in H3. rewrite H3. exact H4.
Qed.

Lemma bytes_mod_256 (bs : list N) :
  Forall (fun b => b < 256) bs -> List.map (fun c => c mod 256) bs = bs.
Proof.
  induction 1 as [|b bs Hb _ IH]; simpl; [reflexivity|].
  rewrite IH. f_equal. now apply N.mod_small.
Qed.

End Base64Facts.

(** [atob] returns a binary string: every code unit is a byte. *)
Lemma in_range_cases (lo hi c : N) :
  ((lo <=? c) && (c <=? hi) = true /\ lo <= c <= hi)
  \/ (lo <=? c) && (c <=? hi) = false.
Proof.
  destruct (N.leb_spec lo c), (N.leb_spec c hi); simpl; auto.
Qed.

Lemma b64_value_bound (c v : N) : Base64.b64_value c = Some v -> v < 64.
Proof.
  unfold Base64.b64_value. intros H.
  destruct (in_range_cases 65 90 c) as [[E R]|E]; rewrite E in H;
    [injection H as <-; lia|].
  destruct (in_range_cases 97 122 c) as [[E1 R]|E1]; rewrite E1 in H;
    [injection H as <-; lia|].
  destruct (in_range_cases 48 57 c) as [[E2 R]|E2]; rewrite E2 in H;
    [injection H as <-; lia|].
  destruct (c =? 43); [injection H as <-; lia|].
  destruct (c =? 47); [injection H as <-; lia|discriminate].
Qed.

Lemma b64_values_bound (d : jsstring) (vs : list N) :
  Base64.b64_values d = Some vs -> Forall (fun v => v < 64) vs.
Proof.
  revert vs. induction d as [|c d IH]; simpl; intros vs H.
  - injection H as <-. constructor.
  - destruct (Base64.b64_value c) as [v|] eqn:Hv; [|discriminate].
    destruct (Base64.b64_values d) as [vs'|]; [|discriminate].
    injection H as <-. constructor; [eapply b64_value_bound, Hv|now apply IH].
Qed.

Lemma b64_bytes_bound (vs : list N) :
  Forall (fun v => v < 64) vs -> Forall (fun b => b < 256) (Base64.b64_bytes vs).
Proof.
  assert (H : forall n vs, (length vs <= n)%nat -> Forall (fun v => v < 64) vs ->
              Forall (fun b => b < 256) (Base64.b64_bytes vs)).
  { induction n as [|n IH]; intros l Hlen HF.
    - destruct l; [constructor|simpl in Hlen; lia].
    - destruct l as [|v1 [|v2 [|v3 [|v4 rest]]]]; simpl; try constructor.
      + inversion HF as [|? ? H1 HF1]; subst. inversion HF1 as [|? ? H2 _]; subst.
        apply N.Div0.div_lt_upper_bound. lia.
      + constructor.
      + inversion HF as [|? ? H1 HF1]; subst. inversion HF1 as [|? ? H2 HF2]; subst.
        inversion HF2 as [|? ? H3 _]; subst.
        apply N.Div0.div_lt_upper_bound. lia.
      + constructor; [apply N.mod_lt; discriminate|constructor].
      + inversion HF as [|? ? H1 HF1]; subst. inversion HF1 as [|? ? H2 HF2]; subst.
        inversion HF2 as [|? ? H3 HF3]; subst. inversion HF3 as [|? ? H4 _]; subst.
        apply N.Div0.div_lt_upper_bound. lia.
      + constructor; [apply N.mod_lt; discriminate|].
        constructor; [apply N.mod_lt; discriminate|].
        apply IH.
        * simpl in Hlen. lia.
        * inversion HF as [|? ? _ HF1]; subst. inversion HF1 as [|? ? _ HF2]; subst.
          inversion HF2 as [|? ? _ HF3]; subst. now inversion HF3. }
  intros HF. apply (H (length vs)); auto.
Qed.

Lemma atob_bytes (s : jsstring) (b : jsstring) :
  Base64.atob s = Some b -> Forall (fun c => c < 256) b.
Proof.
  unfold Base64.atob. destruct (_ =? 1)%nat; [discriminate|].
  destruct (Base64.b64_values _) as [vs|] eqn:Hvs; [|discriminate].
  simpl. intros H. injection H as <-.
  eapply b64_bytes_bound, b64_values_bound, Hvs.
Qed.

(** ** The decode pipeline *)

Lemma undecodable_decoded_value (P : Platform) (s : jsstring) :
  undecodable P s <-> decoded_value P s = None.
Proof.
  unfold undecodable, decoded_value. split.
  - intros [H|[(b & H1 & H2)|(b & raw & m & H1 & H2 & H3)]].
    + now rewrite H.
    + now rewrite H1, H2.
    + now rewrite H1, H2, H3.
  - destruct (Base64.atob s) as [b|]; [|now left].
    destruct (pako_inflate P b) as [raw|] eqn:Hi; [|right; left; eauto].
    destruct (JSON_parse P (TextDecoder_decode P raw)) as [m|v] eqn:Hp;
      [|discriminate].
    intros _. right. right. exists b, raw, m. auto.
Qed.

(** The hover-preview pipeline as a function of its input alone. *)
Lemma preview_processPayload_run (P : Platform) (s : jsstring) (st : State) :
  Preview.processPayload P s st
  = (Returned
       match decoded_value P s with
       | Some v => mkFormatResult true (Some (JSON_stringify P v 2)) None
       | None => mkFormatResult false None None
       end, st).
Proof.
  unfold Preview.processPayload, decoded_value, try_catch, bind, decodeBase64,
    decompressGzip, parseJson, try_catch, ret, throw.
  destruct (Base64.atob s) as [b|] eqn:Hb; [|reflexivity].
  rewrite (Base64Facts.bytes_mod_256 b (atob_bytes s b Hb)).
  destruct (pako_inflate P b) as [raw|]; [|reflexivity].
  destruct (JSON_parse P (TextDecoder_decode P raw)); reflexivity.
Qed.

(** The pipeline of [src/content.ts]: on success it also calls
    [copyToClipboard]; on failure it reports a message. *)
Lemma content_processPayload_run (P : Platform) (s : jsstring) :
  match decoded_value P s with
  | Some v =>
      forall st,
        Content.processPayload P s st
        = (Returned (mkFormatResult true (Some (JSON_stringify P v 2)) None),
           exec (copyToClipboard (JSON_stringify P v 2)) st)
  | None =>
      exists message, forall st,
        Content.processPayload P s st
        = (Returned (mkFormatResult false None
                       (Some (str "Failed to process payload: " ++ message))), st)
  end.
Proof.
  unfold Content.processPayload, decoded_value, try_catch, bind, decodeBase64,
    decompressGzip, parseJson, try_catch, ret, throw.
  destruct (Base64.atob s) as [b|] eqn:Hb; [|eexists; reflexivity].
  rewrite (Base64Facts.bytes_mod_256 b (atob_bytes s b Hb)).
  destruct (pako_inflate P b) as [raw|]; [|eexists; reflexivity].
  destruct (JSON_parse P (TextDecoder_decode P raw)) as [m|v];
    [eexists; reflexivity|].
  intros st. unfold exec, copyToClipboard, bind, gets, emit, modify, manualCopy.
  destruct (clipboard_api (world st)); reflexivity.
Qed.

(** C1. A valid payload round-trips: for a JSON value [v], a JSON text
    [text] of it, the UTF-8 bytes [raw] of the text and a gzip compression
    [gz] of them, running the decode pipeline of either content script on
    the base64 encoding of [gz] returns a success whose data is
    [JSON.stringify(v, null, 2)]. *)
Theorem valid_payload_round_trips (P : Platform) (v : JSValue P)
    (text : jsstring) (raw gz : list N) (st : State) :
  JSON_parse P text = inr v ->
  TextDecoder_decode P raw = text ->
  pako_inflate P gz = Some raw ->
  Forall (fun b => b < 256) gz ->
  outcome (Preview.processPayload P (Base64.btoa gz)) st
  = Returned (mkFormatResult true (Some (JSON_stringify P v 2)) None)
  /\ outcome (Content.processPayload P (Base64.btoa gz)) st
     = Returned (mkFormatResult true (Some (JSON_stringify P v 2)) None).
Proof.
  intros Hparse Hutf Hgz Hbytes.
  assert (Hd : decoded_value P (Base64.btoa gz) = Some v).
  { unfold decoded_value. rewrite (Base64Facts.atob_btoa gz Hbytes), Hgz, Hutf, Hparse.
    reflexivity. }
  unfold outcome. split.
  - rewrite preview_processPayload_run, Hd. reflexivity.
  - pose proof (content_processPayload_run P (Base64.btoa gz)) as H.
    rewrite Hd in H. now rewrite H.
Qed.

Lemma valid_payload_round_trips_witness :
  let st := initial_state (sample_world sample_payload true) in
  outcome (Preview.processPayload reference_platform (Base64.btoa sample_gzip)) st
  = Returned (mkFormatResult true (Some sample_formatted) None)
  /\ outcome (Content.processPayload reference_platform (Base64.btoa sample_gzip)) st
     = Returned (mkFormatResult true (Some sample_formatted) None).
Proof.
  intros st.
  apply (valid_payload_round_trips reference_platform sample_value sample_text
           sample_text sample_gzip st).
  - vm_compute. reflexivity.
  - vm_compute. reflexivity.
  - vm_compute. reflexivity.
  - unfold sample_gzip. repeat constructor.
Defined.

Example sample_payload_is_btoa : Base64.btoa sample_gzip = sample_payload.
Proof. reflexivity. Qed.




(** C3 (amended). The pipeline of the hover-preview content script is a
    pure function of its input: it returns the same completion in every
    state and leaves the state as it found it.  The pipeline of
    [src/content.ts] also returns the same completion in every state, and
    changes the state only by the call of [copyToClipboard] it makes on the
    formatted text when decoding succeeds. *)
Theorem processPayload_effects (P : Platform) (s : jsstring) (st st' : State) :
  Preview.processPayload P s st = (outcome (Preview.processPayload P s) st', st)
  /\ outcome (Content.processPayload P s) st = outcome (Content.processPayload P s) st'
  /\ exec (Content.processPayload P s) st
     = match decoded_value P s with
       | Some v => exec (copyToClipboard (JSON_stringify P v 2)) st
       | None => st
       end.
Proof.
  unfold outcome, exec. rewrite !preview_processPayload_run.
  pose proof (content_processPayload_run P s) as H.
  destruct (decoded_value P s) as [v|].
  - rewrite !H. auto.
  - destruct H as [m H]. rewrite !H. auto.
Qed.

(** C3, as stated, fails on [src/content.ts]: decoding the sample payload
    there calls [navigator.clipboard.writeText] with the formatted text and
    leaves a pending write. *)
Lemma content_processPayload_writes_clipboard :
  let st := Content.construct (sample_world sample_payload true) in
  let st' := exec (Content.processPayload reference_platform sample_payload) st in
  trace st = [] /\ trace st' = [ClipboardWriteText sample_formatted]
  /\ awaiting st' = [sample_formatted] /\ st' <> st.
Proof.
  intros st st'.
  assert (Ht : trace st' = [ClipboardWriteText sample_formatted])
    by (vm_compute; reflexivity).
  repeat split; try assumption; try (vm_compute; reflexivity).
  intros Heq. rewrite Heq in Ht. discriminate Ht.
Qed.

(** ** The context-menu formatter *)

Lemma copyToClipboard_returns (text : jsstring) (st : State) :
  outcome (copyToClipboard text) st = Returned tt.
Proof.
  unfold outcome, copyToClipboard, bind, gets, emit, modify, manualCopy.
  destruct (clipboard_api (world st)); reflexivity.
Qed.

Lemma is_textarea_true (w : World) (t : Target) :
  is_textarea w t = true <-> tagName (target_element w t) = str "TEXTAREA".
Proof. apply jsstring_eqb_eq. Qed.

Lemma is_textarea_false (w : World) (t : Target) :
  is_textarea w t = false <-> tagName (target_element w t) <> str "TEXTAREA".
Proof. apply jsstring_eqb_neq. Qed.

(** The completion of the hover-preview [formatCurrentElement] once its
    three checks have passed. *)
Lemma preview_format_outcome (P : Platform) (st : State) (el : Target) :
  _lastRightClickedElement st = Some el ->
  is_textarea (world st) el = true ->
  falsy (trim (value (target_element (world st) el))) = false ->
  outcome (Preview.formatCurrentElement P) st
  = outcome (Preview.processPayload P (trim (value (target_element (world st) el)))) st.
Proof.
  intros Hel Htag Hval.
  unfold outcome, Preview.formatCurrentElement, bind, gets. simpl.
  rewrite Hel. simpl. rewrite Htag, Hval. simpl.
  rewrite preview_processPayload_run.
  unfold when.
  match goal with |- context [if ?c then _ else _] => destruct c end.
  - pose proof (copyToClipboard_returns
                  (default [] (data match decoded_value P (trim (value (target_element (world st) el))) with
                             | Some v => mkFormatResult true (Some (JSON_stringify P v 2)) None
                             | None => mkFormatResult false None None
                             end)) st) as Hc.
    unfold outcome in Hc. destruct (copyToClipboard _ st) as [c st'].
    simpl in Hc. subst c. reflexivity.
  - reflexivity.
Qed.

(** C4. [formatCurrentElement] of either content script answers
    [No element selected] when nothing was right-clicked, then
    [Selected element is not a textarea] when the element's tag is not
    [TEXTAREA], then [Textarea is empty] when its trimmed value is empty, and
    otherwise what the decode pipeline returns on the trimmed value. *)
Theorem formatCurrentElement_validation (P : Platform) (st : State) :
  validation_order (Preview.formatCurrentElement P) (Preview.processPayload P) st
  /\ validation_order (Content.formatCurrentElement P) (Content.processPayload P) st.
Proof.
  split; unfold validation_order.
  - split; [|split; [|split]].
    + intros H. unfold outcome, Preview.formatCurrentElement, bind, gets. simpl.
      now rewrite H.
    + intros el H Htag. apply is_textarea_false in Htag.
      unfold outcome, Preview.formatCurrentElement, bind, gets. simpl.
      rewrite H. simpl. now rewrite Htag.
    + intros el H Htag Hval. apply is_textarea_true in Htag.
      unfold outcome, Preview.formatCurrentElement, bind, gets. simpl.
      rewrite H. simpl. now rewrite Htag, Hval.
    + intros el H Htag Hval. apply is_textarea_true in Htag.
      apply preview_format_outcome; [assumption|assumption|].
      destruct (trim _); [congruence|reflexivity].
  - split; [|split; [|split]].
    + intros H. unfold outcome, Content.formatCurrentElement, bind, gets. simpl.
      now rewrite H.
    + intros el H Htag. apply is_textarea_false in Htag.
      unfold outcome, Content.formatCurrentElement, bind, gets. simpl.
      rewrite H. simpl. now rewrite Htag.
    + intros el H Htag Hval. apply is_textarea_true in Htag.
      unfold outcome, Content.formatCurrentElement, bind, gets. simpl.
      rewrite H. simpl. now rewrite Htag, Hval.
    + intros el H Htag Hval. apply is_textarea_true in Htag.
      unfold outcome, Content.formatCurrentElement, bind, gets. simpl.
      rewrite H. simpl. rewrite Htag. simpl.
      destruct (trim _); [congruence|reflexivity].
Qed.

Lemma formatCurrentElement_validation_witness :
  let w := sample_world sample_payload true in
  let P := reference_platform in
  outcome (Preview.formatCurrentElement P) (Preview.construct w)
  = Returned (mkFormatResult false None (Some (str "No element selected")))
  /\ outcome (Preview.formatCurrentElement P)
       (Preview.run P [Preview.ContextMenu (PageNode 2)] (Preview.construct w))
     = Returned (mkFormatResult false None
                   (Some (str "Selected element is not a textarea")))
  /\ outcome (Preview.formatCurrentElement P)
       (Preview.run P [Preview.ContextMenu (PageNode 1)]
          (Preview.construct (sample_world (str "  ") true)))
     = Returned (mkFormatResult false None (Some (str "Textarea is empty")))
  /\ outcome (Preview.formatCurrentElement P)
       (Preview.run P [Preview.ContextMenu (PageNode 1)] (Preview.construct w))
     = Returned (mkFormatResult true (Some sample_formatted) None).
Proof.
  intros w P. split; [|split; [|split]].
  - apply (formatCurrentElement_validation P (Preview.construct w)). reflexivity.
  - apply (formatCurrentElement_validation P
             (Preview.run P [Preview.ContextMenu (PageNode 2)] (Preview.construct w)))
      with (el := PageNode 2); [reflexivity|vm_compute; discriminate].
  - apply (formatCurrentElement_validation P
             (Preview.run P [Preview.ContextMenu (PageNode 1)]
                (Preview.construct (sample_world (str "  ") true))))
      with (el := PageNode 1); reflexivity.
  - pose proof (formatCurrentElement_validation P
             (Preview.run P [Preview.ContextMenu (PageNode 1)] (Preview.construct w)))
      as [(_ & _ & _ & H) _].
    rewrite (H (PageNode 1)); [vm_compute; reflexivity|reflexivity|reflexivity|].
    vm_compute. discriminate.
Defined.

(** C5 (the code departs from it).  On an explicit invocation of the
    hover-preview content script on a textarea whose content does not decode,
    the response is [{success: false}] with no [error] field, and the
    notification of the background script reads [Error: undefined]. *)
Theorem decode_failure_response_has_no_message (P : Platform) (st : State)
    (el : Target) :
  _lastRightClickedElement st = Some el ->
  tagName (target_element (world st) el) = str "TEXTAREA" ->
  trim (value (target_element (world st) el)) <> [] ->
  undecodable P (trim (value (target_element (world st) el))) ->
  outcome (Preview.formatCurrentElement P) st
  = Returned (mkFormatResult false None None)
  /\ explicit_invocation P st = Some (str "Error: undefined").
Proof.
  intros Hel Htag Hval Hu.
  assert (Ho : outcome (Preview.formatCurrentElement P) st
               = Returned (mkFormatResult false None None)).
  { rewrite (preview_format_outcome P st el Hel).
    2: now apply is_textarea_true.
    2: destruct (trim _); [congruence|reflexivity].
    unfold outcome.
    rewrite preview_processPayload_run.
    apply undecodable_decoded_value in Hu. now rewrite Hu. }
  split; [exact Ho|]. unfold explicit_invocation. now rewrite Ho.
Qed.

Lemma decode_failure_response_has_no_message_witness :
  let st := Preview.run reference_platform [Preview.ContextMenu (PageNode 1)]
              (Preview.construct (sample_world (str "aGVsbG8gd29ybGQ=") true)) in
  outcome (Preview.formatCurrentElement reference_platform) st
  = Returned (mkFormatResult false None None)
  /\ explicit_invocation reference_platform st = Some (str "Error: undefined").
Proof.
  intros st.
  apply (decode_failure_response_has_no_message reference_platform st (PageNode 1)).
  - reflexivity.
  - reflexivity.
  - vm_compute. discriminate.
  - right. left. exists (str "hello world"). split; reflexivity.
Defined.

(** On the same textarea the script of [src/content.ts] does report a
    message. *)
Example content_decode_failure_message :
  outcome (Content.formatCurrentElement reference_platform)
    (exec (Content.dispatch reference_platform (Content.ContextMenu (PageNode 1)))
       (Content.construct (sample_world (str "aGVsbG8gd29ybGQ=") true)))
  = Returned (mkFormatResult false None
      (Some (str "Failed to process payload: Failed to decompress gzip data"))).
Proof. reflexivity. Qed.

(** ** The hover preview on an empty textarea *)

Lemma showPreviewForTextarea_empty (P : Platform) (textarea : Target)
    (st : State) :
  trim (value (target_element (world st) textarea)) = [] ->
  Preview.showPreviewForTextarea P textarea st = (Returned tt, st).
Proof.
  intros Hval.
  unfold Preview.showPreviewForTextarea, bind, gets. simpl. rewrite Hval. simpl.
  destruct (_previewPanel st); reflexivity.
Qed.

(** C9. When the value of the textarea trims to the empty string,
    [showPreviewForTextarea] returns and leaves the whole state, and so the
    panel, as it was; and a hover timer firing on such a textarea changes
    neither the panel objects nor the reference to the panel. *)
Theorem empty_textarea_leaves_panel (P : Platform) (textarea : Target)
    (st : State) :
  trim (value (target_element (world st) textarea)) = [] ->
  Preview.showPreviewForTextarea P textarea st = (Returned tt, st)
  /\ forall id,
       timers st !! id = Some (HoverTimerFired textarea) ->
       let st' := exec (Preview.dispatch P (Preview.TimerFires id)) st in
       panels st' = panels st /\ _previewPanel st' = _previewPanel st.
Proof.
  intros Hval.
  split; [now apply showPreviewForTextarea_empty|].
  intros id Hid st'. subst st'.
  unfold exec, Preview.dispatch, bind, gets. simpl. rewrite Hid.
  unfold modify. simpl.
  unfold Preview.debug, bind, gets, when, emit, modify, ret. simpl.
  destruct (_debugMode st); simpl;
    match goal with |- context [if ?c then _ else _] => destruct c end; simpl;
    rewrite ?showPreviewForTextarea_empty by exact Hval; auto.
Qed.

Lemma empty_textarea_leaves_panel_witness :
  let P := reference_platform in
  let st := Preview.run P
              [Preview.MouseMove (PageNode 1) 1000; Preview.TimerFires 1;
               Preview.MouseMove (PageNode 3) 2000]
              (Preview.construct (sample_world sample_payload true)) in
  Preview.panel_isVisible st = true
  /\ timers st !! 2 = Some (HoverTimerFired (PageNode 3))
  /\ Preview.showPreviewForTextarea P (PageNode 3) st = (Returned tt, st)
  /\ panels (exec (Preview.dispatch P (Preview.TimerFires 2)) st) = panels st.
Proof.
  intros P st.
  assert (Ht : timers st !! 2 = Some (HoverTimerFired (PageNode 3)))
    by (vm_compute; reflexivity).
  destruct (empty_textarea_leaves_panel P (PageNode 3) st) as [H1 H2].
  - vm_compute. reflexivity.
  - split; [vm_compute; reflexivity|].
    split; [exact Ht|]. split; [exact H1|]. apply (H2 2 Ht).
Defined.

(** ** Invariants of the hover-preview script *)

Section Preserves.
Context {I : State -> Prop}.

Lemma preserves_ret {A} (a : A) : preserves I (ret a).
Proof. intros st H. exact H. Qed.

Lemma preserves_throw {A} (e : exn) : preserves I (@throw A e).
Proof. intros st H. exact H. Qed.

Lemma preserves_gets {A} (f : State -> A) : preserves I (gets f).
Proof. intros st H. exact H. Qed.

Lemma preserves_bind {A B} (m : M A) (k : A -> M B) :
  preserves I m -> (forall a, preserves I (k a)) -> preserves I (bind m k).
Proof.
  intros Hm Hk st H. unfold bind. specialize (Hm st H).
  destruct (m st) as [[a|e] st']; simpl in *; [now apply Hk|exact Hm].
Qed.

Lemma preserves_try_catch {A} (m : M A) (h : exn -> M A) :
  preserves I m -> (forall e, preserves I (h e)) -> preserves I (try_catch m h).
Proof.
  intros Hm Hh st H. unfold try_catch. specialize (Hm st H).
  destruct (m st) as [[a|e] st']; simpl in *; [exact Hm|now apply Hh].
Qed.

Lemma preserves_when (b : bool) (m : M unit) :
  preserves I m -> preserves I (when b m).
Proof. intros Hm. destruct b; [exact Hm|apply preserves_ret]. Qed.

Lemma preserves_modify (f : State -> State) :
  (forall st, I st -> I (f st)) -> preserves I (modify f).
Proof. intros Hf st H. now apply Hf. Qed.
End Preserves.

(** Steps of a proof that a method keeps a property: through sequencing and
    branching down to the state updates. *)
Ltac preserves_step :=
  first
    [ apply preserves_ret
    | apply preserves_throw
    | apply preserves_gets
    | apply preserves_bind; [|intros ?]
    | apply preserves_try_catch; [|intros ?]
    | apply preserves_when
    | match goal with
      | |- preserves _ (match ?x with _ => _ end) => destruct x
      end ].

(** State updates that touch neither the panel objects nor the reference to
    them. *)
Lemma panel_invariant_frame (st st' : State) :
  panels st' = panels st -> _previewPanel st' = _previewPanel st ->
  panel_invariant st -> panel_invariant st'.
Proof. unfold panel_invariant. intros -> ->. auto. Qed.

Lemma preserves_frame (f : State -> State) :
  (forall st, panels (f st) = panels st) ->
  (forall st, _previewPanel (f st) = _previewPanel st) ->
  preserves panel_invariant (modify f).
Proof.
  intros Hp Hr. apply preserves_modify. intros st.
  apply panel_invariant_frame; auto.
Qed.

Ltac frame := apply preserves_frame; intros; reflexivity.

Create HintDb preserves.

(** A method keeps the panel invariant: by the methods already shown to,
    through the control structure, down to updates of other fields. *)
Ltac keeps :=
  repeat first [ solve [auto with preserves] | preserves_step | frame ].

Lemma preserves_emit (c : HostCall) : preserves panel_invariant (emit c).
Proof. unfold emit. frame. Qed.
#[local] Hint Resolve preserves_emit : preserves.

Lemma preserves_debug (message : jsstring) :
  preserves panel_invariant (Preview.debug message).
Proof. unfold Preview.debug. keeps. Qed.
#[local] Hint Resolve preserves_debug : preserves.

Lemma preserves_setTimeout (cb : TimerCallback) (delay : Z) :
  preserves panel_invariant (setTimeout cb delay).
Proof. intros st. apply panel_invariant_frame; reflexivity. Qed.
#[local] Hint Resolve preserves_setTimeout : preserves.

Lemma preserves_clearTimeout (id : N) :
  preserves panel_invariant (clearTimeout id).
Proof. unfold clearTimeout. frame. Qed.
#[local] Hint Resolve preserves_clearTimeout : preserves.

Lemma preserves_copyToClipboard (text : jsstring) :
  preserves panel_invariant (copyToClipboard text).
Proof. unfold copyToClipboard, manualCopy. keeps. Qed.
#[local] Hint Resolve preserves_copyToClipboard : preserves.

Lemma preserves_clipboardSettled (fulfilled : bool) :
  preserves panel_invariant (clipboardSettled fulfilled).
Proof. unfold clipboardSettled, manualCopy. keeps. Qed.
#[local] Hint Resolve preserves_clipboardSettled : preserves.

Lemma preserves_clearHoverTimer :
  preserves panel_invariant Preview.clearHoverTimer.
Proof. unfold Preview.clearHoverTimer. keeps. Qed.
#[local] Hint Resolve preserves_clearHoverTimer : preserves.

(** An assignment to a property of the panel that leaves flag and display
    style in agreement. *)
Lemma preserves_update_panel (f : PreviewPanel -> PreviewPanel) :
  (forall p, consistent p -> consistent (f p)) ->
  preserves panel_invariant (Preview.update_panel f).
Proof.
  intros Hf st (Href & p & Hp & Hc). unfold Preview.update_panel, modify; simpl.
  rewrite Href. split; [exact Href|]. exists (f p). simpl. rewrite Hp. auto.
Qed.

(** Two assignments to properties of the panel in a row. *)
Lemma update_panel_twice (f g : PreviewPanel -> PreviewPanel) (st : State) :
  panel_invariant st ->
  snd ((Preview.update_panel f ;;; Preview.update_panel g) st)
  = snd (Preview.update_panel (fun p => g (f p)) st).
Proof.
  intros (Href & p & Hp & _). unfold Preview.update_panel, bind, modify.
  destruct st; simpl in *. subst. reflexivity.
Qed.

Lemma consistent_shown (p : PreviewPanel) :
  consistent (Preview.set_element_display (str "block") (Preview.set_isVisible true p)).
Proof. split; split; intros H; try reflexivity; discriminate H. Qed.

Lemma consistent_hidden (p : PreviewPanel) :
  consistent (Preview.set_isVisible false (Preview.set_element_display (str "none") p)).
Proof. split; split; intros H; try reflexivity; discriminate H. Qed.

Lemma preserves_show :
  preserves panel_invariant
    (Preview.update_panel (Preview.set_isVisible true) ;;;
     Preview.update_panel (Preview.set_element_display (str "block"))).
Proof.
  intros st H. rewrite update_panel_twice by exact H.
  revert st H. apply preserves_update_panel. intros p _. apply consistent_shown.
Qed.

Lemma preserves_hide :
  preserves panel_invariant
    (Preview.update_panel (Preview.set_element_display (str "none")) ;;;
     Preview.update_panel (Preview.set_isVisible false)).
Proof.
  intros st H. rewrite update_panel_twice by exact H.
  revert st H. apply preserves_update_panel. intros p _. apply consistent_hidden.
Qed.
#[local] Hint Resolve preserves_show preserves_hide : preserves.

(** A pair of steps known to keep the property, followed by more steps. *)
Lemma preserves_pair {I : State -> Prop} {B} (m1 m2 : M unit) (k : unit -> M B) :
  preserves I (m1 ;;; m2) -> (forall u, preserves I (k u)) ->
  preserves I (m1 ;;; (let! u := m2 in k u)).
Proof.
  intros H12 Hk st H. specialize (H12 st H). revert H12. unfold bind.
  destruct (m1 st) as [[[]|e] st1]; simpl; [|auto].
  destruct (m2 st1) as [[u|e] st2]; simpl; [|auto].
  intros H2. now apply Hk.
Qed.

(** An assignment to a property of the panel other than the flag and the
    display style. *)
Ltac other_property :=
  apply preserves_update_panel; intros ? Hcons; exact Hcons.

Ltac keeps ::=
  repeat first
    [ solve [auto with preserves]
    | apply preserves_pair; [solve [auto with preserves]|intros ?]
    | other_property
    | preserves_step
    | frame ].

Lemma preserves_hidePreviewPanel :
  preserves panel_invariant Preview.hidePreviewPanel.
Proof. unfold Preview.hidePreviewPanel. keeps. Qed.
#[local] Hint Resolve preserves_hidePreviewPanel : preserves.

Lemma preserves_positionPanel (textarea : Target) :
  preserves panel_invariant (Preview.positionPanel textarea).
Proof. unfold Preview.positionPanel. keeps. Qed.
#[local] Hint Resolve preserves_positionPanel : preserves.

Lemma preserves_showPreviewPanel (content : jsstring) (textarea : Target) :
  preserves panel_invariant (Preview.showPreviewPanel content textarea).
Proof. unfold Preview.showPreviewPanel. keeps. Qed.
#[local] Hint Resolve preserves_showPreviewPanel : preserves.

Lemma preserves_showErrorPreview (error : jsstring) (textarea : Target) :
  preserves panel_invariant (Preview.showErrorPreview error textarea).
Proof. unfold Preview.showErrorPreview, Preview.detectAWSTheme. keeps. Qed.
#[local] Hint Resolve preserves_showErrorPreview : preserves.

Lemma preserves_showCopyFeedback :
  preserves panel_invariant Preview.showCopyFeedback.
Proof. unfold Preview.showCopyFeedback, Preview.detectAWSTheme. keeps. Qed.
#[local] Hint Resolve preserves_showCopyFeedback : preserves.

Lemma preserves_processPayload (P : Platform) (s : jsstring) :
  preserves panel_invariant (Preview.processPayload P s).
Proof. intros st H. now rewrite preview_processPayload_run. Qed.
#[local] Hint Resolve preserves_processPayload : preserves.

Lemma preserves_formatCurrentElement (P : Platform) :
  preserves panel_invariant (Preview.formatCurrentElement P).
Proof. unfold Preview.formatCurrentElement. keeps. Qed.
#[local] Hint Resolve preserves_formatCurrentElement : preserves.

Lemma preserves_showPreviewForTextarea (P : Platform) (textarea : Target) :
  preserves panel_invariant (Preview.showPreviewForTextarea P textarea).
Proof. unfold Preview.showPreviewForTextarea. keeps. Qed.
#[local] Hint Resolve preserves_showPreviewForTextarea : preserves.

Lemma preserves_startHoverTimer (textarea : Target) :
  preserves panel_invariant (Preview.startHoverTimer textarea).
Proof. unfold Preview.startHoverTimer. keeps. Qed.
#[local] Hint Resolve preserves_startHoverTimer : preserves.

Lemma preserves_handleMouseMove (target : Target) (now : Z) :
  preserves panel_invariant (Preview.handleMouseMove target now).
Proof. unfold Preview.handleMouseMove, Preview.isInDynamoDBConsole. keeps. Qed.
#[local] Hint Resolve preserves_handleMouseMove : preserves.

Lemma preserves_handleMouseLeave (target : Target) :
  preserves panel_invariant (Preview.handleMouseLeave target).
Proof. unfold Preview.handleMouseLeave. keeps. Qed.

Lemma preserves_run_callback (P : Platform) (cb : TimerCallback) :
  preserves panel_invariant (Preview.run_callback P cb).
Proof. unfold Preview.run_callback, Preview.detectAWSTheme. keeps. Qed.
#[local] Hint Resolve preserves_run_callback : preserves.

Lemma preserves_clickOutside (target : Target) :
  preserves panel_invariant (Preview.clickOutside target).
Proof. unfold Preview.clickOutside. keeps. Qed.
#[local] Hint Resolve preserves_clickOutside : preserves.

Lemma preserves_panelMouseEnter :
  preserves panel_invariant Preview.panelMouseEnter.
Proof. unfold Preview.panelMouseEnter. keeps. Qed.
#[local] Hint Resolve preserves_panelMouseEnter : preserves.

Lemma preserves_copyButtonClick (text : jsstring) :
  preserves panel_invariant (Preview.copyButtonClick text).
Proof. unfold Preview.copyButtonClick. keeps. Qed.
#[local] Hint Resolve preserves_copyButtonClick : preserves.

Lemma preserves_dispatch (P : Platform) (ev : Preview.Event) :
  preserves panel_invariant (Preview.dispatch P ev).
Proof. unfold Preview.dispatch. keeps. Qed.

Lemma preserves_perform (P : Platform) (a : Action) :
  preserves panel_invariant (perform P a).
Proof. destruct a; simpl; auto using preserves_dispatch with preserves. Qed.

Lemma panel_invariant_construct (w : World) :
  panel_invariant (Preview.construct w).
Proof.
  unfold Preview.construct, exec, Preview.constructor, Preview.createPreviewPanel,
    Preview.detectAWSTheme, bind, gets, modify, when, ret. simpl.
  destruct (dynamoDBFormatterDebug w); simpl; (split; [reflexivity|]);
    eexists; (split; [reflexivity|]);
    split; split; intros H; try reflexivity; discriminate H.
Qed.

(** The invariant of the hover-preview script: whatever happens after its
    construction, the one panel object created by the constructor is the
    only one, [this._previewPanel] refers to it, and its flag agrees with
    its display style. *)
Lemma panel_invariant_history (P : Platform) (w : World) (acts : list Action) :
  panel_invariant (history P w acts).
Proof.
  unfold history. generalize (panel_invariant_construct w).
  generalize (Preview.construct w). induction acts as [|a acts IH]; intros st H.
  - exact H.
  - simpl. apply IH. now apply preserves_perform.
Qed.

(** C7. At most one preview panel is visible at a time: whatever happens
    after the script was loaded, the panel object the constructor created is
    the only one, [this._previewPanel] still refers to it, and so at most
    one panel is shown. *)
Theorem single_preview_panel (P : Platform) (w : World) (acts : list Action) :
  let st := history P w acts in
  length (panels (Preview.construct w)) = 1%nat
  /\ length (panels st) = 1%nat
  /\ _previewPanel st = _previewPanel (Preview.construct w)
  /\ _previewPanel st = Some 0%nat
  /\ (length (List.filter isVisible (panels st)) <= 1)%nat.
Proof.
  intros st.
  destruct (panel_invariant_history P w acts) as (Href & p & Hp & _).
  destruct (panel_invariant_construct w) as (Href0 & p0 & Hp0 & _).
  fold st in Href, Hp. rewrite Hp, Hp0, Href, Href0. simpl.
  repeat split; try reflexivity. destruct (isVisible p); simpl; lia.
Qed.

(** C10. The [isVisible] flag of the panel agrees with the display style of
    its element after the panel was created and after whatever happens
    later, the show, error-show and hide operations included: the flag is
    true exactly when the style is [block] and false exactly when it is
    [none]. *)
Theorem visibility_flag_matches_display (P : Platform) (w : World)
    (acts : list Action) :
  exists p,
    Preview.current_panel (history P w acts) = Some p
    /\ (isVisible p = true <-> element_display p = str "block")
    /\ (isVisible p = false <-> element_display p = str "none").
Proof.
  destruct (panel_invariant_history P w acts) as (Href & p & Hp & Hc).
  exists p. split; [|exact Hc].
  unfold Preview.current_panel. rewrite Href, Hp. reflexivity.
Qed.

(** ** Leaving the hovered textarea *)

Lemma clearHoverTimer_panels (st : State) :
  panels (exec Preview.clearHoverTimer st) = panels st
  /\ _previewPanel (exec Preview.clearHoverTimer st) = _previewPanel st.
Proof.
  unfold exec, Preview.clearHoverTimer, Preview.debug, clearTimeout, bind, gets,
    when, emit, modify, ret. simpl.
  destruct (_hoverTimeout st) as [id|]; simpl; [|auto].
  destruct (negb (id =? 0)); simpl; [|auto].
  destruct (_debugMode st); simpl; auto.
Qed.

Lemma hidePreviewPanel_hidden (st : State) :
  Preview.panel_isVisible (exec Preview.hidePreviewPanel st) = false.
Proof.
  unfold exec, Preview.hidePreviewPanel, bind, gets. simpl.
  destruct (_previewPanel st) as [i|] eqn:Href.
  - destruct (Preview.panel_isVisible st) eqn:Hvis.
    + unfold when. 
      unfold Preview.debug, Preview.update_panel, bind, gets, when, emit, modify, ret.
      simpl.
      destruct (_debugMode st); simpl; rewrite Href; simpl; rewrite Href; simpl.
      all: match goal with
           | |- Preview.panel_isVisible (snd (Preview.clearHoverTimer ?s)) = false =>
               destruct (clearHoverTimer_panels s) as [Hp Hr];
               unfold exec in Hp, Hr; unfold Preview.panel_isVisible, Preview.current_panel;
               rewrite Hp, Hr; simpl; rewrite Href
           end.
      all: rewrite !list_lookup_alter_eq;
        unfold Preview.panel_isVisible, Preview.current_panel in Hvis;
        rewrite Href in Hvis; destruct (panels st !! i); [reflexivity|discriminate].
    + simpl. destruct (clearHoverTimer_panels st) as [Hp Hr].
      unfold exec in Hp, Hr.
      unfold Preview.panel_isVisible, Preview.current_panel in *.
      now rewrite Hp, Hr.
  - simpl. destruct (clearHoverTimer_panels st) as [Hp Hr].
    unfold exec in Hp, Hr.
    unfold Preview.panel_isVisible, Preview.current_panel. now rewrite Hr, Href.
Qed.

Lemma clearHoverTimer_returns (st : State) :
  fst (Preview.clearHoverTimer st) = Returned tt.
Proof.
  unfold Preview.clearHoverTimer, Preview.debug, clearTimeout, bind, gets,
    when, emit, modify, ret. simpl.
  destruct (_hoverTimeout st) as [id|]; simpl; [|reflexivity].
  destruct (negb (id =? 0)); simpl; [|reflexivity].
  destruct (_debugMode st); reflexivity.
Qed.

Lemma panel_part_not_textarea (w : World) (i : nat) (part : PanelPart) :
  is_textarea w (PanelNode i part) = false.
Proof. destruct part; reflexivity. Qed.

(** C6 (the code departs from it).  When the pointer moves from the hovered
    textarea onto the visible preview panel, the [mousemove] listener hides
    the panel: the target of the event is a part of the panel, which is not
    a textarea, and nothing on this path asks whether the pointer is over
    the panel. *)
Theorem panel_hidden_under_pointer (st : State) (i : nat) (part : PanelPart)
    (now : Z) :
  _previewPanel st = Some i ->
  Preview.panel_isVisible st = true ->
  panel_hovered (world st) = true ->
  _currentHoveredTextarea st <> None ->
  (_mouseMoveThrottle <= now - _lastMouseMoveTime st)%Z ->
  Preview.panel_isVisible
    (exec (Preview.handleMouseMove (PanelNode i part) now) st) = false.
Proof.
  intros Href Hvis Hover Hcur Hthrottle.
  unfold exec, Preview.handleMouseMove, Preview.isInDynamoDBConsole, bind, gets,
    modify. simpl.
  apply Z.ltb_ge in Hthrottle. rewrite Hthrottle.
  rewrite panel_part_not_textarea. simpl.
  destruct (_currentHoveredTextarea st) as [cur|]; [|congruence].
  match goal with
  | |- context [Preview.clearHoverTimer ?s] =>
      pose proof (clearHoverTimer_returns s) as Hret;
      destruct (Preview.clearHoverTimer s) as [c st2]
  end.
  simpl in Hret. subst c. apply hidePreviewPanel_hidden.
Qed.

Lemma panel_hidden_under_pointer_witness :
  let P := reference_platform in
  let st := Preview.run P
              [Preview.MouseMove (PageNode 1) 1000; Preview.TimerFires 1;
               Preview.WorldChanges (sample_world_over_panel sample_payload)]
              (Preview.construct (sample_world sample_payload true)) in
  Preview.panel_isVisible st = true
  /\ panel_hovered (world st) = true
  /\ Preview.panel_isVisible
       (exec (Preview.handleMouseMove (PanelNode 0 PanelContent) 2000) st) = false.
Proof.
  intros P st.
  split; [vm_compute; reflexivity|]. split; [reflexivity|].
  apply (panel_hidden_under_pointer st 0 PanelContent 2000).
  - vm_compute. reflexivity.
  - vm_compute. reflexivity.
  - reflexivity.
  - vm_compute. discriminate.
  - vm_compute. discriminate.
Defined.

(** The path of [handleMouseLeave], which no listener runs, does ask: its
    delayed callback leaves the panel alone while the pointer is over it. *)
Lemma mouse_leave_callback_spares_hovered_panel (P : Platform) (st : State) (i : nat) :
  _previewPanel st = Some i ->
  panel_hovered (world st) = true ->
  Preview.run_callback P MouseLeaveHide st = (Returned tt, st).
Proof.
  intros Href Hover. unfold Preview.run_callback, bind, gets. simpl.
  now rewrite Href, Hover.
Qed.

(** ** Copying on an explicit invocation *)

Lemma clipboardSettled_returns (fulfilled : bool) (st : State) :
  outcome (clipboardSettled fulfilled) st = Returned tt.
Proof.
  unfold outcome, clipboardSettled, manualCopy, bind, gets, emit, modify, when.
  simpl. destruct (awaiting st), fulfilled; reflexivity.
Qed.

(** Settling the oldest pending writes takes them off the queue and makes
    the manual copy for each that was rejected. *)
Lemma settle_pending (q : list jsstring) :
  forall (outcomes : list bool) (rest : list jsstring) (st : State),
    length outcomes = length q ->
    awaiting st = q ++ rest ->
    settle outcomes st
    = set_trace (trace st ++ fallback_copies q outcomes) (set_awaiting rest st).
Proof.
  induction q as [|text q IH]; intros outcomes rest st Hlen Hq.
  - destruct outcomes; [|discriminate Hlen].
    destruct st. simpl in *. subst. unfold set_trace, set_awaiting. simpl.
    now rewrite app_nil_r.
  - destruct outcomes as [|fulfilled outcomes]; [discriminate Hlen|].
    injection Hlen as Hlen. unfold settle. simpl fold_left.
    fold (settle outcomes (exec (clipboardSettled fulfilled) st)).
    assert (Hstep : exec (clipboardSettled fulfilled) st
                    = set_trace
                        (trace st ++ (if fulfilled then [] else [ExecCommandCopy text]))
                        (set_awaiting (q ++ rest) st)).
    { unfold exec, clipboardSettled, manualCopy, bind, gets, emit, modify, when.
      simpl. rewrite Hq. destruct st, fulfilled; simpl;
        unfold set_trace, set_awaiting; simpl; now rewrite ?app_nil_r. }
    rewrite Hstep. rewrite (IH outcomes rest _ Hlen) by reflexivity.
    destruct st. unfold set_trace, set_awaiting. simpl.
    now rewrite <- app_assoc.
Qed.

(** C8. On a successful explicit invocation of the hover-preview script the
    result is returned together with a call of [copyToClipboard] on the
    formatted text.  Without [navigator.clipboard] the manual copy is made
    at once; with it [writeText] is called and the result is returned while
    the write is still pending, behind the writes that were pending
    already.  However those settle, each with its own manual copy if it is
    rejected, the write of the formatted text is then the one pending: if
    it is rejected the manual copy of the formatted text is made, if it is
    fulfilled nothing more happens.  Neither the call nor a settling
    throws. *)
Theorem explicit_invocation_copies (P : Platform) (st : State) (el : Target)
    (v : JSValue P) :
  _lastRightClickedElement st = Some el ->
  tagName (target_element (world st) el) = str "TEXTAREA" ->
  trim (value (target_element (world st) el)) <> [] ->
  decoded_value P (trim (value (target_element (world st) el))) = Some v ->
  let formatted := JSON_stringify P v 2 in
  let st1 := exec (copyToClipboard formatted) st in
  Preview.formatCurrentElement P st
  = (Returned (mkFormatResult true (Some formatted) None), st1)
  /\ (clipboard_api (world st) = false ->
      st1 = set_trace (trace st ++ [ExecCommandCopy formatted]) st)
  /\ (clipboard_api (world st) = true ->
      st1 = set_awaiting (awaiting st ++ [formatted])
              (set_trace (trace st ++ [ClipboardWriteText formatted]) st)
      /\ forall earlier : list bool,
           length earlier = length (awaiting st) ->
           let st2 := settle earlier st1 in
           st2 = set_trace (trace st1 ++ fallback_copies (awaiting st) earlier)
                   (set_awaiting [formatted] st1)
           /\ clipboardSettled true st2 = (Returned tt, set_awaiting [] st2)
           /\ clipboardSettled false st2
              = (Returned tt,
                 set_trace (trace st2 ++ [ExecCommandCopy formatted])
                   (set_awaiting [] st2)))
  /\ (forall fulfilled s, outcome (clipboardSettled fulfilled) s = Returned tt).
Proof.
  intros Hel Htag Hval Hdec formatted st1.
  assert (Hne : truthy (Some formatted) = true)
    by (apply truthy_cons, JSON_stringify_nonempty).
  split; [|split; [|split]].
  - unfold Preview.formatCurrentElement, bind, gets. simpl.
    rewrite Hel. simpl.
    apply is_textarea_true in Htag. rewrite Htag. simpl.
    destruct (trim (value (target_element (world st) el))) as [|c cs] eqn:Htrim;
      [congruence|]. simpl.
    rewrite preview_processPayload_run, Hdec. simpl success. simpl data.
    fold formatted. rewrite Hne. simpl.
    pose proof (copyToClipboard_returns formatted st) as Hret.
    unfold outcome in Hret. subst st1. unfold exec.
    destruct (copyToClipboard formatted st) as [c0 st']. simpl in *.
    subst c0. reflexivity.
  - intros Hapi. subst st1.
    unfold exec, copyToClipboard, manualCopy, bind, gets, emit, modify. simpl.
    rewrite Hapi. reflexivity.
  - intros Hapi.
    assert (Hst1 : st1 = set_awaiting (awaiting st ++ [formatted])
                           (set_trace (trace st ++ [ClipboardWriteText formatted]) st)).
    { subst st1.
      unfold exec, copyToClipboard, manualCopy, bind, gets, emit, modify. simpl.
      rewrite Hapi. reflexivity. }
    split; [exact Hst1|]. intros earlier Hlen st2.
    assert (Hst2 : st2 = set_trace (trace st1 ++ fallback_copies (awaiting st) earlier)
                           (set_awaiting [formatted] st1)).
    { subst st2. apply settle_pending; [exact Hlen|].
      rewrite Hst1. reflexivity. }
    split; [exact Hst2|].
    assert (Hq : awaiting st2 = [formatted]) by (rewrite Hst2; reflexivity).
    unfold clipboardSettled, manualCopy, bind, gets, emit, modify, when. simpl.
    rewrite Hq. simpl. split; reflexivity.
  - intros fulfilled s. apply clipboardSettled_returns.
Qed.

Lemma explicit_invocation_copies_witness :
  let P := reference_platform in
  let st :=
    Preview.run P
      [Preview.MouseMove (PageNode 1) 1000; Preview.TimerFires 1;
       Preview.Click (PanelNode 0 PanelCopyButton);
       Preview.ContextMenu (PageNode 1)]
      (Preview.construct (sample_world sample_payload true)) in
  let st1 := exec (copyToClipboard sample_formatted) st in
  awaiting st = [sample_formatted]
  /\ Preview.formatCurrentElement P st
     = (Returned (mkFormatResult true (Some sample_formatted) None), st1)
  /\ awaiting st1 = [sample_formatted; sample_formatted]
  /\ trace (settle [true] st1) = trace st1
  /\ trace (exec (clipboardSettled false) (settle [true] st1))
     = trace st1 ++ [ExecCommandCopy sample_formatted]
  /\ trace (exec (clipboardSettled false) (settle [false] st1))
     = trace st1 ++ [ExecCommandCopy sample_formatted;
                     ExecCommandCopy sample_formatted].
Proof.
  intros P st st1.
  assert (Hq : awaiting st = [sample_formatted]) by (vm_compute; reflexivity).
  destruct (explicit_invocation_copies P st (PageNode 1) sample_value)
    as (H1 & _ & H3 & _).
  - reflexivity.
  - reflexivity.
  - vm_compute. discriminate.
  - vm_compute. reflexivity.
  - split; [exact Hq|]. split; [exact H1|].
    destruct (H3 eq_refl) as [Hst1 Hsettle].
    assert (Hlen : length [false] = length (awaiting st)) by (now rewrite Hq).
    destruct (Hsettle [false] Hlen) as (Hst2 & _ & Hrejected).
    split; [vm_compute; reflexivity|]. split; [vm_compute; reflexivity|].
    split; [vm_compute; reflexivity|].
    change (JSON_stringify P sample_value 2) with sample_formatted
      in Hst2, Hrejected.
    fold st1 in Hst2, Hrejected.
    unfold exec at 1. rewrite Hrejected. cbn [snd]. rewrite Hst2.
    cbn [trace set_trace set_awaiting]. rewrite Hq. cbn [fallback_copies app].
    now rewrite <- app_assoc.
Defined.

(** Without the clipboard API the manual copy is made before the result is
    returned. *)
Example explicit_invocation_without_clipboard_api :
  let P := reference_platform in
  let st := Preview.run P [Preview.ContextMenu (PageNode 1)]
              (Preview.construct (sample_world sample_payload false)) in
  outcome (Preview.formatCurrentElement P) st
  = Returned (mkFormatResult true (Some sample_formatted) None)
  /\ trace (exec (Preview.formatCurrentElement P) st)
     = [ExecCommandCopy sample_formatted].
Proof. split; vm_compute; reflexivity. Qed.

(** * Further properties of the scripts *)

(** ** [decodeBase64] *)

(** [decodeBase64] undoes the standard base64 encoding: on the encoding of a
    byte sequence it returns that sequence and leaves the state alone. *)
Theorem decodeBase64_btoa (bs : list N) (st : State) :
  Forall (fun b => b < 256) bs ->
  decodeBase64 (Base64.btoa bs) st = (Returned bs, st).
Proof.
  intros HF. unfold decodeBase64, try_catch, ret.
  rewrite (Base64Facts.atob_btoa bs HF), (Base64Facts.bytes_mod_256 bs HF).
  reflexivity.
Qed.

Lemma decodeBase64_btoa_witness :
  let st := initial_state (sample_world [] true) in
  decodeBase64 (Base64.btoa sample_gzip) st = (Returned sample_gzip, st).
Proof.
  intros st. apply (decodeBase64_btoa sample_gzip st).
  unfold sample_gzip. repeat constructor.
Defined.

Lemma drop_trailing_pad_keeps (c : N) (d : jsstring) :
  In c d -> c <> Base64.pad -> In c (Base64.drop_trailing_pad d).
Proof.
  intros Hin Hc.
  assert (H : forall n d, (length d <= n)%nat -> In c d ->
              In c (Base64.drop_trailing_pad d)).
  { clear d Hin. induction n as [|n IH]; intros d Hlen Hin.
    - destruct d; [destruct Hin|simpl in Hlen; lia].
    - destruct d as [|x [|y [|z d]]].
      + destruct Hin.
      + simpl. destruct Hin as [->|[]].
        destruct (N.eqb_spec c Base64.pad); [contradiction|now left].
      + simpl. destruct (N.eqb_spec y Base64.pad) as [Hy|Hy].
        * destruct (N.eqb_spec x Base64.pad) as [Hx|Hx].
          -- destruct Hin as [->|[->|[]]]; contradiction.
          -- destruct Hin as [->|[->|[]]]; [now left|contradiction].
        * exact Hin.
      + change (Base64.drop_trailing_pad (x :: y :: z :: d))
          with (x :: Base64.drop_trailing_pad (y :: z :: d)).
        destruct Hin as [->|Hin]; [now left|right].
        apply IH; [simpl in *; lia|exact Hin]. }
  apply (H (length d)); auto.
Qed.

Lemma b64_values_all (d : jsstring) (vs : list N) (c : N) :
  Base64.b64_values d = Some vs -> In c d -> Base64.b64_value c <> None.
Proof.
  revert vs. induction d as [|x d IH]; intros vs H Hin; [destruct Hin|].
  simpl in H. destruct (Base64.b64_value x) as [v|] eqn:Hx; [|discriminate].
  destruct (Base64.b64_values d) as [vs'|]; [|discriminate].
  destruct Hin as [->|Hin]; [congruence|]. eapply IH; eauto.
Qed.

Lemma atob_rejects_foreign_character (s : jsstring) (c : N) :
  In c s -> Base64.b64_value c = None ->
  Base64.is_ascii_whitespace c = false -> c <> Base64.pad ->
  Base64.atob s = None.
Proof.
  intros Hin Hval Hws Hpad. unfold Base64.atob.
  set (clean := List.filter (fun c => negb (Base64.is_ascii_whitespace c)) s).
  assert (Hc : In c clean).
  { apply filter_In. split; [exact Hin|]. now rewrite Hws. }
  assert (Hd : In c (Base64.strip_padding clean)).
  { unfold Base64.strip_padding. destruct (_ =? 0)%nat; [|exact Hc].
    now apply drop_trailing_pad_keeps. }
  destruct (_ =? 1)%nat; [reflexivity|].
  destruct (Base64.b64_values (Base64.strip_padding clean)) as [vs|] eqn:Hvs;
    [|reflexivity].
  exfalso. exact (b64_values_all _ _ _ Hvs Hd Hval).
Qed.

(** [decodeBase64] throws [Error('Invalid base64 encoding')], whatever
    [atob] threw, as soon as the input holds a character that is neither of
    the base64 alphabet, nor ASCII white space, nor [=]. *)
Theorem decodeBase64_rejects_foreign_character (s : jsstring) (c : N)
    (st : State) :
  In c s -> Base64.b64_value c = None ->
  Base64.is_ascii_whitespace c = false -> c <> Base64.pad ->
  decodeBase64 s st = (Thrown (ErrorObject (str "Invalid base64 encoding")), st).
Proof.
  intros Hin Hval Hws Hpad. unfold decodeBase64, try_catch, throw.
  now rewrite (atob_rejects_foreign_character s c Hin Hval Hws Hpad).
Qed.

Lemma decodeBase64_rejects_foreign_character_witness :
  let st := initial_state (sample_world [] true) in
  decodeBase64 (str "aGVs!G8=") st
  = (Thrown (ErrorObject (str "Invalid base64 encoding")), st).
Proof.
  intros st.
  apply (decodeBase64_rejects_foreign_character (str "aGVs!G8=") 33 st).
  - vm_compute. tauto.
  - reflexivity.
  - reflexivity.
  - discriminate.
Defined.

(** ** Failures of the pipeline of [src/content.ts] *)

(** The failure of [processPayload] of [src/content.ts] names the step that
    failed: the message of [decodeBase64], that of [decompressGzip], or the
    message of the [SyntaxError] of [JSON.parse], each after the prefix
    [Failed to process payload: ]; and the state is left alone. *)
Theorem content_processPayload_failure_message (P : Platform) (s : jsstring)
    (st : State) :
  let failure message :=
    (Returned (mkFormatResult false None
                 (Some (str "Failed to process payload: " ++ message))), st) in
  (Base64.atob s = None ->
   Content.processPayload P s st = failure (str "Invalid base64 encoding"))
  /\ (forall b, Base64.atob s = Some b -> pako_inflate P b = None ->
      Content.processPayload P s st = failure (str "Failed to decompress gzip data"))
  /\ (forall b raw message,
        Base64.atob s = Some b -> pako_inflate P b = Some raw ->
        JSON_parse P (TextDecoder_decode P raw) = inl message ->
        Content.processPayload P s st = failure message).
Proof.
  intros failure. subst failure.
  unfold Content.processPayload, try_catch, bind, decodeBase64, decompressGzip,
    parseJson, try_catch, ret, throw.
  split; [|split].
  - intros H. now rewrite H.
  - intros b H Hi. rewrite H.
    rewrite (Base64Facts.bytes_mod_256 b (atob_bytes s b H)). now rewrite Hi.
  - intros b raw m H Hi Hp. rewrite H.
    rewrite (Base64Facts.bytes_mod_256 b (atob_bytes s b H)). now rewrite Hi, Hp.
Qed.

Lemma content_processPayload_failure_message_witness :
  let st := initial_state (sample_world [] true) in
  let P := reference_platform in
  let failure message :=
    (Returned (mkFormatResult false None
                 (Some (str "Failed to process payload: " ++ message))), st) in
  let truncated := str "H4sIAAAAAAAEAwEGAPn/eyJhIjoxbvwCpwYAAAA=" in
  Content.processPayload P (str "aGVs!G8=") st
  = failure (str "Invalid base64 encoding")
  /\ Content.processPayload P (str "aGVsbG8gd29ybGQ=") st
     = failure (str "Failed to decompress gzip data")
  /\ Content.processPayload P truncated st
     = failure (str "Unexpected token in JSON").
Proof.
  intros st P failure truncated.
  destruct (content_processPayload_failure_message P (str "aGVs!G8=") st)
    as (H1 & _ & _).
  destruct (content_processPayload_failure_message P (str "aGVsbG8gd29ybGQ=") st)
    as (_ & H2 & _).
  destruct (content_processPayload_failure_message P truncated st)
    as (_ & _ & H3).
  split; [|split].
  - exact (H1 eq_refl).
  - refine (H2 (str "hello world") _ _); vm_compute; reflexivity.
  - refine (H3 (default [] (Base64.atob truncated))
              [123; 34; 97; 34; 58; 49] (str "Unexpected token in JSON") _ _ _);
      vm_compute; reflexivity.
Defined.

(** ** [formatCurrentElement] as a whole *)

(** What the hover-preview [formatCurrentElement] does in a state. *)
Lemma preview_format_run (P : Platform) (st : State) :
  Preview.formatCurrentElement P st
  = match _lastRightClickedElement st with
    | None =>
        (Returned (mkFormatResult false None (Some (str "No element selected"))), st)
    | Some el =>
        if negb (is_textarea (world st) el) then
          (Returned (mkFormatResult false None
                       (Some (str "Selected element is not a textarea"))), st)
        else if falsy (trim (value (target_element (world st) el))) then
          (Returned (mkFormatResult false None (Some (str "Textarea is empty"))), st)
        else
          match decoded_value P (trim (value (target_element (world st) el))) with
          | Some v =>
              (Returned (mkFormatResult true (Some (JSON_stringify P v 2)) None),
               exec (copyToClipboard (JSON_stringify P v 2)) st)
          | None => (Returned (mkFormatResult false None None), st)
          end
    end.
Proof.
  unfold Preview.formatCurrentElement, bind, gets. simpl.
  destruct (_lastRightClickedElement st) as [el|]; [|reflexivity]. simpl.
  destruct (is_textarea (world st) el); [|reflexivity]. simpl.
  destruct (falsy _); [reflexivity|].
  rewrite preview_processPayload_run.
  destruct (decoded_value P _) as [v|]; [|reflexivity].
  simpl success. simpl data.
  rewrite (truthy_cons _ (JSON_stringify_nonempty P v 2)). simpl.
  pose proof (copyToClipboard_returns (JSON_stringify P v 2) st) as Hret.
  unfold outcome, exec in *.
  destruct (copyToClipboard (JSON_stringify P v 2) st) as [c st'].
  simpl in *. subst c. reflexivity.
Qed.

(** What [formatCurrentElement] of [src/content.ts] does in a state. *)
Lemma content_format_run (P : Platform) (st : State) :
  Content.formatCurrentElement P st
  = match _lastRightClickedElement st with
    | None =>
        (Returned (mkFormatResult false None (Some (str "No element selected"))), st)
    | Some el =>
        if negb (is_textarea (world st) el) then
          (Returned (mkFormatResult false None
                       (Some (str "Selected element is not a textarea"))), st)
        else if falsy (trim (value (target_element (world st) el))) then
          (Returned (mkFormatResult false None (Some (str "Textarea is empty"))), st)
        else Content.processPayload P (trim (value (target_element (world st) el))) st
    end.
Proof.
  unfold Content.formatCurrentElement, bind, gets. simpl.
  destruct (_lastRightClickedElement st) as [el|]; [|reflexivity]. simpl.
  destruct (is_textarea (world st) el); [|reflexivity]. simpl.
  destruct (falsy _); reflexivity.
Qed.

(** Nothing is copied on a failure: when [formatCurrentElement] of either
    content script returns a result with [success = false], it has made no
    call into the clipboard and left the whole state as it was. *)
Theorem failed_format_copies_nothing (P : Platform) (st : State) :
  (forall r, outcome (Preview.formatCurrentElement P) st = Returned r ->
             success r = false ->
             exec (Preview.formatCurrentElement P) st = st)
  /\ (forall r, outcome (Content.formatCurrentElement P) st = Returned r ->
                success r = false ->
                exec (Content.formatCurrentElement P) st = st).
Proof.
  unfold outcome, exec. split; intros r.
  - rewrite preview_format_run.
    destruct (_lastRightClickedElement st) as [el|]; [|reflexivity].
    destruct (negb _); [reflexivity|]. destruct (falsy _); [reflexivity|].
    destruct (decoded_value P _); [|reflexivity].
    simpl. intros H. injection H as <-. discriminate.
  - rewrite content_format_run.
    destruct (_lastRightClickedElement st) as [el|]; [|reflexivity].
    destruct (negb _); [reflexivity|]. destruct (falsy _); [reflexivity|].
    pose proof (content_processPayload_run P
                  (trim (value (target_element (world st) el)))) as H.
    destruct (decoded_value P _).
    + rewrite H. simpl. intros E. injection E as <-. discriminate.
    + destruct H as [m H]. rewrite H. reflexivity.
Qed.

Lemma failed_format_copies_nothing_witness :
  let P := reference_platform in
  let st := Preview.run P [Preview.ContextMenu (PageNode 1)]
              (Preview.construct (sample_world (str "aGVsbG8gd29ybGQ=") true)) in
  exec (Preview.formatCurrentElement P) st = st
  /\ exec (Content.formatCurrentElement P) st = st.
Proof.
  intros P st. destruct (failed_format_copies_nothing P st) as [H1 H2]. split.
  - apply (H1 (mkFormatResult false None None)); reflexivity.
  - eapply H2; reflexivity.
Defined.

(** [formatCurrentElement] never throws, and its result is well formed: a
    success carries non-empty data and no error; a failure carries no data,
    and in [src/content.ts] it always carries a non-empty error message. *)
Theorem formatCurrentElement_result_shape (P : Platform) (st : State) :
  (exists r, outcome (Preview.formatCurrentElement P) st = Returned r
     /\ if success r
        then (exists d, data r = Some d /\ d <> []) /\ error r = None
        else data r = None)
  /\ (exists r, outcome (Content.formatCurrentElement P) st = Returned r
     /\ if success r
        then (exists d, data r = Some d /\ d <> []) /\ error r = None
        else data r = None /\ exists e, error r = Some e /\ e <> []).
Proof.
  unfold outcome. split.
  - rewrite preview_format_run.
    destruct (_lastRightClickedElement st) as [el|];
      [|eexists; split; [reflexivity|reflexivity]].
    destruct (negb _); [eexists; split; reflexivity|].
    destruct (falsy _); [eexists; split; reflexivity|].
    destruct (decoded_value P _) as [v|]; eexists; (split; [reflexivity|]); simpl.
    + split; [|reflexivity]. eexists. split; [reflexivity|].
      apply JSON_stringify_nonempty.
    + reflexivity.
  - rewrite content_format_run.
    destruct (_lastRightClickedElement st) as [el|].
    2: { eexists; split; [reflexivity|]. simpl. split; [reflexivity|].
         eexists. split; [reflexivity|discriminate]. }
    destruct (negb _).
    { eexists; split; [reflexivity|]. simpl. split; [reflexivity|].
      eexists. split; [reflexivity|discriminate]. }
    destruct (falsy _).
    { eexists; split; [reflexivity|]. simpl. split; [reflexivity|].
      eexists. split; [reflexivity|discriminate]. }
    pose proof (content_processPayload_run P
                  (trim (value (target_element (world st) el)))) as H.
    destruct (decoded_value P _) as [v|].
    + rewrite H. eexists. split; [reflexivity|]. simpl.
      split; [|reflexivity]. eexists. split; [reflexivity|].
      apply JSON_stringify_nonempty.
    + destruct H as [m H]. rewrite H. eexists. split; [reflexivity|]. simpl.
      split; [reflexivity|]. eexists. split; [reflexivity|discriminate].
Qed.

(** ** Explicit invocations end to end *)



(** ** The panel object *)

Lemma update_panel_run (f : PreviewPanel -> PreviewPanel) (st : State) (i : nat) :
  _previewPanel st = Some i ->
  Preview.update_panel f st = (Returned tt, set_panels (alter f i (panels st)) st).
Proof. intros H. unfold Preview.update_panel, modify. now rewrite H. Qed.

Lemma current_panel_set_panels (st : State) (i : nat) (l : list PreviewPanel) :
  _previewPanel st = Some i ->
  Preview.current_panel (set_panels l st) = l !! i.
Proof. intros H. unfold Preview.current_panel. simpl. now rewrite H. Qed.

Lemma construct_panels (w : World) :
  panels (Preview.construct w)
  = [fresh_panel (Preview.getThemeStyles (aws_theme w))]
  /\ _previewPanel (Preview.construct w) = Some 0%nat
  /\ world (Preview.construct w) = w.
Proof.
  unfold Preview.construct, exec, Preview.constructor, Preview.createPreviewPanel,
    Preview.detectAWSTheme, bind, gets, modify, when, ret. simpl.
  destruct (dynamoDBFormatterDebug w); auto.
Qed.

(** ** The hover timer *)

Lemma Target_eqb_eq (a b : Target) : Target_eqb a b = true <-> a = b.
Proof.
  destruct a as [i|p x], b as [j|q y]; simpl; split; try discriminate.
  - intros H. apply N.eqb_eq in H. congruence.
  - intros H. injection H as ->. apply N.eqb_refl.
  - intros H. apply andb_prop in H as [H1 H2]. apply Nat.eqb_eq in H1.
    subst. destruct x, y; try discriminate; reflexivity.
  - intros H. injection H as -> ->. rewrite Nat.eqb_refl.
    destruct y; reflexivity.
Qed.

Lemma hovered_is_true (st : State) (t : Target) :
  Preview.hovered_is st t = true <-> _currentHoveredTextarea st = Some t.
Proof.
  unfold Preview.hovered_is. destruct (_currentHoveredTextarea st) as [c|].
  - rewrite Target_eqb_eq. split; congruence.
  - split; discriminate.
Qed.

Lemma debug_run (message : jsstring) (st : State) :
  Preview.debug message st
  = (Returned tt,
     if _debugMode st then set_trace (trace st ++ [ConsoleDebug message]) st else st).
Proof.
  unfold Preview.debug, bind, gets, when, emit, modify, ret. simpl.
  destruct (_debugMode st); reflexivity.
Qed.

(** Entering a textarea of the console arms the hover timer: a
    [mousemove] that is not throttled, over a textarea that is not the one
    hovered already, makes it the hovered one, cancels the timer pending
    for the previous one and starts a new one for it.  The panel is not
    touched: one shown for the previous textarea stays as it is until the
    new timer fires. *)
Theorem entering_textarea_arms_timer (st : State) (target : Target) (now : Z) :
  (_mouseMoveThrottle <= now - _lastMouseMoveTime st)%Z ->
  tagName (target_element (world st) target) = str "TEXTAREA" ->
  includes (hostname (world st)) (str "console.aws.amazon.com") = true ->
  _currentHoveredTextarea st <> Some target ->
  let st1 := exec (Preview.handleMouseMove target now) st in
  let id := next_timer st in
  _currentHoveredTextarea st1 = Some target
  /\ _hoverTimeout st1 = Some id
  /\ timers st1 !! id = Some (HoverTimerFired target)
  /\ (forall old, _hoverTimeout st = Some old -> old <> 0 -> old <> id ->
      timers st1 !! old = None)
  /\ (forall other, other <> id -> _hoverTimeout st <> Some other ->
      timers st1 !! other = timers st !! other)
  /\ panels st1 = panels st /\ _previewPanel st1 = _previewPanel st
  /\ world st1 = world st /\ _lastMouseMoveTime st1 = now.
Proof.
  intros Hthrottle Htag Hconsole Hcur st1 id. subst st1 id.
  apply Z.ltb_ge in Hthrottle. apply is_textarea_true in Htag.
  assert (Hsame : Preview.hovered_is st target = false).
  { destruct (Preview.hovered_is st target) eqn:E; [|reflexivity].
    apply hovered_is_true in E. contradiction. }
  unfold Preview.hovered_is in Hsame.
  destruct st as [w clicked hover ref cur last dbg ps tm nt aw tr].
  simpl in *.
  unfold exec, Preview.handleMouseMove, Preview.isInDynamoDBConsole,
    Preview.startHoverTimer, Preview.clearHoverTimer, Preview.debug,
    Preview.hovered_is, setTimeout, clearTimeout, bind, gets, when, emit,
    modify, ret.
  cbn -[is_textarea includes Target_eqb Z.ltb Z.sub str].
  rewrite Hthrottle. cbn -[is_textarea includes Target_eqb str].
  rewrite Htag, Hconsole. cbn -[Target_eqb str]. rewrite Hsame. simpl.
  destruct hover as [old|]; simpl.
  - destruct (N.eqb_spec old 0) as [Hz|Hz]; simpl; destruct dbg; simpl;
      (split; [reflexivity|]); (split; [reflexivity|]);
      (split; [apply lookup_insert_eq|]); (split; [|split; [|auto]]).
    all: try (intros o Ho Hne0 Hneid; injection Ho as <-;
              try contradiction;
              rewrite lookup_insert_ne by congruence; apply lookup_delete_eq).
    all: intros o Hneid Hno; rewrite lookup_insert_ne by congruence;
         try (rewrite lookup_delete_ne by congruence); reflexivity.
  - destruct dbg; simpl;
      (split; [reflexivity|]); (split; [reflexivity|]);
      (split; [apply lookup_insert_eq|]); (split; [|split; [|auto]]).
    all: try (intros o Ho; discriminate Ho).
    all: intros o Hneid Hno; rewrite lookup_insert_ne by congruence;
         reflexivity.
Qed.

(** One step of running a handler on a state given by its fields. *)
Ltac run_step :=
  cbn -[Preview.processPayload Preview.showPreviewPanel Preview.update_panel
        Preview.hidePreviewPanel Preview.clearHoverTimer copyToClipboard
        Preview.showCopyFeedback
        Target_eqb str trim falsy truthy lookup delete insert alter
        is_textarea includes Z.ltb Z.sub].

(** [showPreviewPanel] as one update of the panel object. *)
Lemma showPreviewPanel_run (content : jsstring) (textarea : Target)
    (st : State) (i : nat) :
  _previewPanel st = Some i ->
  exists l t,
    Preview.showPreviewPanel content textarea st
    = (Returned tt,
       set_panels
         (alter (fun p =>
                   Preview.set_position l t
                     (Preview.set_element_display (str "block")
                        (Preview.set_isVisible true
                           (Preview.set_content_textContent content p))))
                i (panels st)) st).
Proof.
  intros Href. destruct st as [w clicked hover ref cur last dbg ps tm nt aw tr].
  simpl in Href. subst ref.
  unfold Preview.showPreviewPanel, Preview.positionPanel, Preview.update_panel,
    bind, gets, modify, ret. cbn -[str alter].
  do 2 eexists. f_equal. unfold set_panels. cbn -[str alter]. f_equal.
  rewrite !list_alter_alter_eq. reflexivity.
Qed.

(** When the hover timer of the hovered textarea fires and the trimmed
    content of the textarea decodes, the timer is gone, the panel is shown
    with the formatted JSON as its text, and the copy button is set to copy
    that same text. *)
Theorem hover_timer_shows_formatted_json (P : Platform) (st : State) (id : N)
    (textarea : Target) (v : JSValue P) (i : nat) (p : PreviewPanel) :
  timers st !! id = Some (HoverTimerFired textarea) ->
  _currentHoveredTextarea st = Some textarea ->
  _previewPanel st = Some i ->
  panels st !! i = Some p ->
  trim (value (target_element (world st) textarea)) <> [] ->
  decoded_value P (trim (value (target_element (world st) textarea))) = Some v ->
  let st2 := exec (Preview.dispatch P (Preview.TimerFires id)) st in
  timers st2 !! id = None
  /\ exists p',
       Preview.current_panel st2 = Some p'
       /\ isVisible p' = true
       /\ element_display p' = str "block"
       /\ content_textContent p' = JSON_stringify P v 2
       /\ copyButton_onclick p' = Some (JSON_stringify P v 2).
Proof.
  intros Hid Hcur Href Hp Hval Hdec st2. subst st2.
  assert (Hfalsy : falsy (trim (value (target_element (world st) textarea))) = false).
  { destruct (trim _); [congruence|reflexivity]. }
  assert (Heqb : Target_eqb textarea textarea = true) by now apply Target_eqb_eq.
  destruct st as [w clicked hover ref cur last dbg ps tm nt aw tr].
  simpl in *. subst ref cur.
  assert (Hne : truthy (Some (JSON_stringify P v 2)) = true)
    by (apply truthy_cons, JSON_stringify_nonempty).
  unfold exec, Preview.dispatch, Preview.run_callback,
    Preview.showPreviewForTextarea, Preview.debug,
    Preview.hovered_is, bind, gets, when, emit, modify, ret.
  run_step. rewrite Hid.
  destruct dbg; run_step; rewrite Heqb; run_step; rewrite Hfalsy; run_step;
    rewrite preview_processPayload_run, Hdec; run_step; rewrite Hne; run_step.
  all: match goal with
       | |- context [Preview.showPreviewPanel ?c ?ta ?s] =>
           destruct (showPreviewPanel_run c ta s i eq_refl) as (l & t & Hrun);
           rewrite Hrun
       end.
  all: match goal with
       | |- context [Preview.update_panel ?f ?s] =>
           rewrite (update_panel_run f s i eq_refl)
       end.
  all: split; [cbn; apply lookup_delete_eq|].
  all: unfold Preview.current_panel; cbn -[str alter lookup].
  all: rewrite !list_lookup_alter_eq, Hp; cbn -[str].
  all: eexists; split; [reflexivity|]; cbn -[str]; auto.
Qed.

Lemma entering_textarea_arms_timer_witness :
  let st := Preview.construct (sample_world sample_payload true) in
  let st1 := exec (Preview.handleMouseMove (PageNode 1) 1000) st in
  _currentHoveredTextarea st1 = Some (PageNode 1)
  /\ _hoverTimeout st1 = Some 1
  /\ timers st1 !! 1 = Some (HoverTimerFired (PageNode 1))
  /\ panels st1 = panels st.
Proof.
  intros st st1.
  destruct (entering_textarea_arms_timer st (PageNode 1) 1000)
    as (H1 & H2 & H3 & _ & _ & H6 & _).
  - vm_compute. discriminate.
  - reflexivity.
  - reflexivity.
  - vm_compute. discriminate.
  - repeat split; assumption.
Defined.

Lemma hover_timer_shows_formatted_json_witness :
  let P := reference_platform in
  let st := Preview.run P [Preview.MouseMove (PageNode 1) 1000]
              (Preview.construct (sample_world sample_payload true)) in
  let st2 := exec (Preview.dispatch P (Preview.TimerFires 1)) st in
  timers st2 !! 1 = None
  /\ exists p',
       Preview.current_panel st2 = Some p'
       /\ isVisible p' = true
       /\ element_display p' = str "block"
       /\ content_textContent p' = sample_formatted
       /\ copyButton_onclick p' = Some sample_formatted.
Proof.
  intros P st st2.
  apply (hover_timer_shows_formatted_json P st 1 (PageNode 1) sample_value 0
           (fresh_panel (Preview.getThemeStyles light))).
  - vm_compute. reflexivity.
  - vm_compute. reflexivity.
  - vm_compute. reflexivity.
  - vm_compute. reflexivity.
  - vm_compute. discriminate.
  - vm_compute. reflexivity.
Defined.

Lemma hidePreviewPanel_timers (st : State) (k : N) :
  timers st !! k = None -> timers (exec Preview.hidePreviewPanel st) !! k = None.
Proof.
  intros Hk. destruct st as [w clicked hover ref cur last dbg ps tm nt aw tr].
  simpl in Hk.
  unfold exec, Preview.hidePreviewPanel, Preview.clearHoverTimer, Preview.debug,
    Preview.update_panel, Preview.panel_isVisible, Preview.current_panel,
    clearTimeout, bind, gets, when, emit, modify, ret.
  cbn -[str alter lookup delete].
  destruct ref as [i|]; cbn -[str alter lookup delete].
  - destruct (ps !! i) as [p|]; cbn -[str alter lookup delete].
    + destruct (isVisible p), dbg, hover as [old|];
        cbn -[str alter lookup delete]; try exact Hk;
        destruct (negb (old =? 0)); cbn -[str alter lookup delete];
        try exact Hk;
        (destruct (decide (old = k)) as [->|Hne];
         [apply lookup_delete_eq|now rewrite lookup_delete_ne]).
    + destruct dbg, hover as [old|];
        cbn -[str alter lookup delete]; try exact Hk;
        destruct (negb (old =? 0)); cbn -[str alter lookup delete];
        try exact Hk;
        (destruct (decide (old = k)) as [->|Hne];
         [apply lookup_delete_eq|now rewrite lookup_delete_ne]).
  - destruct dbg, hover as [old|];
      cbn -[str alter lookup delete]; try exact Hk;
      destruct (negb (old =? 0)); cbn -[str alter lookup delete];
      try exact Hk;
      (destruct (decide (old = k)) as [->|Hne];
       [apply lookup_delete_eq|now rewrite lookup_delete_ne]).
Qed.

(** When the hover timer of the hovered textarea fires and the content of
    the textarea is not empty and does not decode, there is nothing to
    preview: the panel is hidden afterwards, also when it was showing the
    preview of another textarea, and the timer is gone. *)
Theorem hover_timer_hides_on_undecodable (P : Platform) (st : State) (id : N)
    (textarea : Target) :
  timers st !! id = Some (HoverTimerFired textarea) ->
  _currentHoveredTextarea st = Some textarea ->
  trim (value (target_element (world st) textarea)) <> [] ->
  undecodable P (trim (value (target_element (world st) textarea))) ->
  let st2 := exec (Preview.dispatch P (Preview.TimerFires id)) st in
  Preview.panel_isVisible st2 = false /\ timers st2 !! id = None.
Proof.
  intros Hid Hcur Hval Hu st2. subst st2.
  apply undecodable_decoded_value in Hu.
  assert (Hfalsy : falsy (trim (value (target_element (world st) textarea))) = false).
  { destruct (trim _); [congruence|reflexivity]. }
  assert (Heqb : Target_eqb textarea textarea = true) by now apply Target_eqb_eq.
  destruct st as [w clicked hover ref cur last dbg ps tm nt aw tr].
  simpl in *. subst cur.
  unfold exec, Preview.dispatch, Preview.run_callback,
    Preview.showPreviewForTextarea, Preview.debug,
    Preview.hovered_is, bind, gets, when, emit, modify, ret.
  run_step. rewrite Hid.
  destruct dbg, ref as [i|]; run_step; rewrite Heqb; run_step;
    try (split; [reflexivity|apply lookup_delete_eq]).
  all: rewrite Hfalsy; run_step; rewrite preview_processPayload_run, Hu; run_step.
  all: match goal with
       | |- context [Preview.hidePreviewPanel ?s] =>
           pose proof (hidePreviewPanel_hidden s) as Hh;
           pose proof (hidePreviewPanel_timers s id) as Ht;
           unfold exec in Hh, Ht
       end.
  all: split; [exact Hh|apply Ht; cbn; apply lookup_delete_eq].
Qed.

Lemma hover_timer_hides_on_undecodable_witness :
  let P := reference_platform in
  let st := Preview.run P
              [Preview.MouseMove (PageNode 1) 1000; Preview.TimerFires 1;
               Preview.WorldChanges (sample_world (str "aGVsbG8gd29ybGQ=") true);
               Preview.MouseMove (PageNode 3) 2000;
               Preview.MouseMove (PageNode 1) 3000]
              (Preview.construct (sample_world sample_payload true)) in
  let st2 := exec (Preview.dispatch P (Preview.TimerFires 3)) st in
  Preview.panel_isVisible st = true
  /\ Preview.panel_isVisible st2 = false /\ timers st2 !! 3 = None.
Proof.
  intros P st st2. split; [vm_compute; reflexivity|].
  apply (hover_timer_hides_on_undecodable P st 3 (PageNode 1)).
  - vm_compute. reflexivity.
  - vm_compute. reflexivity.
  - vm_compute. discriminate.
  - right. left. exists (str "hello world"). split; vm_compute; reflexivity.
Defined.

(** ** Properties kept by every handler *)

Lemma preserves_setTimeout_any {I : State -> Prop} (cb : TimerCallback) (delay : Z) :
  (forall st, I st ->
     I (set_timers (<[next_timer st := cb]> (timers st)) (next_timer st + 1) st)) ->
  preserves I (setTimeout cb delay).
Proof. intros H st HI. now apply H. Qed.

Lemma preserves_processPayload_any {I : State -> Prop} (P : Platform) (s : jsstring) :
  preserves I (Preview.processPayload P s).
Proof. intros st H. now rewrite preview_processPayload_run. Qed.

(** The handlers of the hover-preview script down to the updates of the
    state they are made of; [debug] and [processPayload] stay folded. *)
Ltac unfold_handlers :=
  unfold perform, Preview.dispatch, Preview.run_callback, Preview.clickOutside,
    Preview.panelMouseEnter, Preview.copyButtonClick, Preview.handleMouseMove,
    Preview.handleMouseLeave, Preview.startHoverTimer,
    Preview.showPreviewForTextarea, Preview.formatCurrentElement,
    Preview.showCopyFeedback, Preview.showErrorPreview, Preview.showPreviewPanel,
    Preview.positionPanel, Preview.hidePreviewPanel, Preview.clearHoverTimer,
    Preview.isInDynamoDBConsole, Preview.detectAWSTheme, Preview.update_panel,
    copyToClipboard, clipboardSettled, manualCopy, clearTimeout, emit.

(** A property kept by every update a handler is made of is kept by the
    handler; [tac] shows it for one update. *)
Ltac by_updates tac :=
  repeat first
    [ solve [auto with preserves]
    | apply preserves_processPayload_any
    | preserves_step
    | apply preserves_modify; tac
    | apply preserves_setTimeout_any; tac ].

Lemma console_silent_debug (message : jsstring) :
  preserves console_silent (Preview.debug message).
Proof.
  intros st [Hd Ht]. rewrite debug_run, Hd. split; assumption.
Qed.
#[local] Hint Resolve console_silent_debug : preserves.

Lemma console_silent_perform (P : Platform) (a : Action) :
  preserves console_silent (perform P a).
Proof.
  assert (Hin : forall (tr : list HostCall) c m,
            (forall m', ~ In (ConsoleDebug m') tr) ->
            (forall m', c <> ConsoleDebug m') -> ~ In (ConsoleDebug m) (tr ++ [c])).
  { intros tr c m Htr Hc Hin. apply in_app_or in Hin as [Hin|[Hin|[]]].
    - exact (Htr m Hin).
    - exact (Hc m Hin). }
  destruct a as [[]| | |]; unfold_handlers;
    by_updates ltac:(intros st [Hd Ht]; split;
                     [try destruct (_previewPanel st); exact Hd
                     |try destruct (_previewPanel st); simpl;
                      first [exact Ht
                            |intros m; apply Hin; [exact Ht|discriminate]]]).
Qed.

(** Debug logging is fixed when the script is loaded: if
    [window.dynamoDBFormatterDebug] is not set then, nothing is ever
    written to the console, whatever happens later and even if the flag is
    set afterwards. *)
Theorem no_logging_unless_enabled_at_load (P : Platform) (w : World)
    (acts : list Action) :
  dynamoDBFormatterDebug w = false ->
  _debugMode (history P w acts) = false
  /\ forall message, ~ In (ConsoleDebug message) (trace (history P w acts)).
Proof.
  intros Hw. change (console_silent (history P w acts)).
  unfold history.
  assert (H0 : console_silent (Preview.construct w)).
  { unfold Preview.construct, exec, Preview.constructor, Preview.createPreviewPanel,
      Preview.detectAWSTheme, bind, gets, modify, when, ret. simpl.
    rewrite Hw. split; [reflexivity|]. intros m []. }
  revert H0. generalize (Preview.construct w).
  induction acts as [|a acts IH]; intros st H; [exact H|].
  simpl. apply IH. now apply console_silent_perform.
Qed.

Lemma no_logging_unless_enabled_at_load_witness :
  let P := reference_platform in
  let w := sample_world sample_payload true in
  let w' := mkWorld (page w) (hostname w) (innerWidth w) (innerHeight w)
              (aws_theme w) false true true in
  let st := history P w
              [HostEvent (Preview.WorldChanges w');
               HostEvent (Preview.MouseMove (PageNode 1) 1000);
               HostEvent (Preview.TimerFires 1);
               HostEvent (Preview.MouseMove (PageNode 2) 2000)] in
  dynamoDBFormatterDebug (world st) = true
  /\ _debugMode st = false
  /\ forall message, ~ In (ConsoleDebug message) (trace st).
Proof.
  intros P w w' st. split; [reflexivity|].
  apply (no_logging_unless_enabled_at_load P w). reflexivity.
Defined.

(** ** The hover timer is debounced *)

Lemma no_hover_timer_invariant (st : State) :
  no_hover_timer st -> hover_timer_invariant st.
Proof.
  intros [Hn Hno]. split; [split; [exact Hn|]|]; intros id ta H;
    destruct (Hno id ta H).
Qed.

(** [clearHoverTimer] leaves no hover timer pending. *)
Lemma clearHoverTimer_no_hover (st : State) :
  hover_timer_named st ->
  no_hover_timer (exec Preview.clearHoverTimer st)
  /\ _currentHoveredTextarea (exec Preview.clearHoverTimer st)
     = _currentHoveredTextarea st.
Proof.
  intros [Hn Hh]. destruct st as [w clicked hover ref cur last dbg ps tm nt aw tr].
  simpl in *.
  unfold exec, Preview.clearHoverTimer, Preview.debug, clearTimeout, bind, gets,
    when, emit, modify, ret, no_hover_timer.
  cbn -[str lookup delete].
  destruct hover as [old|]; cbn -[str lookup delete].
  - destruct (N.eqb_spec old 0) as [Hz|Hz]; cbn -[str lookup delete].
    + repeat split; try assumption. intros id ta H.
      destruct (Hh id ta H) as [E Hne]. congruence.
    + destruct dbg; cbn -[str lookup delete]; repeat split; try assumption;
        intros id ta H; apply lookup_delete_Some in H as [Hne H];
        destruct (Hh id ta H) as [E _]; congruence.
  - repeat split; try assumption. intros id ta H.
    destruct (Hh id ta H) as [E _]. discriminate.
Qed.

Lemma hover_invariant_clearHoverTimer :
  preserves hover_timer_invariant Preview.clearHoverTimer.
Proof.
  intros st [Hn _]. apply no_hover_timer_invariant.
  apply (clearHoverTimer_no_hover st Hn).
Qed.
#[local] Hint Resolve hover_invariant_clearHoverTimer : preserves.

Lemma no_hover_clearHoverTimer :
  preserves no_hover_timer Preview.clearHoverTimer.
Proof.
  intros st [Hn Hno]. apply (clearHoverTimer_no_hover st).
  split; [exact Hn|]. intros id ta H. destruct (Hno id ta H).
Qed.
#[local] Hint Resolve no_hover_clearHoverTimer : preserves.

Lemma hover_invariant_panelMouseEnter :
  preserves hover_timer_invariant Preview.panelMouseEnter.
Proof.
  intros st [[Hn Hh] _]. apply no_hover_timer_invariant.
  destruct st as [w clicked hover ref cur last dbg ps tm nt aw tr]. simpl in *.
  unfold Preview.panelMouseEnter, clearTimeout, bind, gets, when, modify, ret,
    no_hover_timer.
  cbn -[str lookup delete].
  destruct hover as [old|]; cbn -[str lookup delete].
  - destruct (N.eqb_spec old 0) as [Hz|Hz]; cbn -[str lookup delete].
    + split; [exact Hn|]. intros id ta H.
      destruct (Hh id ta H) as [E Hne]. congruence.
    + split; [exact Hn|]. intros id ta H.
      apply lookup_delete_Some in H as [Hne H].
      destruct (Hh id ta H) as [E _]. congruence.
  - split; [exact Hn|]. intros id ta H.
    destruct (Hh id ta H) as [E _]. discriminate.
Qed.
#[local] Hint Resolve hover_invariant_panelMouseEnter : preserves.

(** [startHoverTimer] leaves one hover timer pending: the one it starts. *)
Lemma hover_invariant_startHoverTimer (textarea : Target) :
  preserves hover_timer_invariant (Preview.startHoverTimer textarea).
Proof.
  intros st [Hn _].
  destruct (clearHoverTimer_no_hover st Hn) as [[Hn1 Hno] _].
  pose proof (clearHoverTimer_returns st) as Hret.
  unfold Preview.startHoverTimer, bind. unfold exec in *.
  destruct (Preview.clearHoverTimer st) as [c st1]. simpl in Hret, Hn1, Hno.
  subst c.
  destruct st1 as [w clicked hover ref cur last dbg ps tm nt aw tr]. simpl in *.
  unfold Preview.debug, setTimeout, bind, gets, when, emit, modify, ret.
  unfold hover_timer_invariant, hover_timer_named.
  destruct dbg; cbn -[str lookup insert N.add N.le];
    (split; [split; [lia|]|]); intros id ta H;
    (destruct (decide (nt = id)) as [<-|Hne];
     [rewrite lookup_insert_eq in H; injection H as <-;
      try (split; [reflexivity|lia]); reflexivity
     |rewrite lookup_insert_ne in H by exact Hne; destruct (Hno id ta H)]).
Qed.
#[local] Hint Resolve hover_invariant_startHoverTimer : preserves.

Lemma preserves_debug_any {I : State -> Prop} (message : jsstring) :
  (forall st tr, I st -> I (set_trace tr st)) ->
  preserves I (Preview.debug message).
Proof.
  intros H st HI. rewrite debug_run. destruct (_debugMode st); simpl; auto.
Qed.

(** Leaving the hovered textarea: the reference is dropped and the timer
    cancelled. *)
Lemma hover_invariant_leave :
  preserves hover_timer_invariant
    (modify (set_currentHoveredTextarea None) ;;; Preview.clearHoverTimer).
Proof.
  intros st [Hn _]. apply no_hover_timer_invariant.
  unfold bind, modify.
  apply (clearHoverTimer_no_hover (set_currentHoveredTextarea None st)).
  exact Hn.
Qed.
#[local] Hint Resolve hover_invariant_leave : preserves.

(** The handlers with the three methods that cancel or start the hover
    timer left folded. *)
Ltac unfold_handlers_but_timer :=
  unfold perform, Preview.dispatch, Preview.run_callback, Preview.clickOutside,
    Preview.copyButtonClick, Preview.handleMouseMove,
    Preview.showPreviewForTextarea, Preview.formatCurrentElement,
    Preview.showCopyFeedback, Preview.showErrorPreview, Preview.showPreviewPanel,
    Preview.positionPanel, Preview.hidePreviewPanel,
    Preview.isInDynamoDBConsole, Preview.detectAWSTheme, Preview.update_panel,
    copyToClipboard, clipboardSettled, manualCopy, emit.

Ltac by_updates tac ::=
  repeat first
    [ solve [auto with preserves]
    | apply preserves_processPayload_any
    | apply preserves_debug_any; intros ? ?; tac
    | apply preserves_pair; [solve [auto with preserves]|intros ?]
    | preserves_step
    | apply preserves_modify; tac
    | apply preserves_setTimeout_any; tac ].

(** An update that leaves the timers and the two fields about the hover
    alone, or removes a timer, or adds one that is not a hover timer. *)
Ltac hover_update :=
  idtac;
  let st := fresh "st" in
  let HI := fresh "HI" in
  let Hn := fresh "Hn" in
  let Hh := fresh "Hh" in
  let Hc := fresh "Hc" in
  let H := fresh "H" in
  let Hne := fresh "Hne" in
  let k := fresh "k" in
  let ta := fresh "ta" in
  intros st HI; try destruct (_previewPanel st);
  first
    [ exact HI
    | destruct HI as [[Hn Hh] Hc];
      (split; [split; [exact Hn|]|]); intros k ta H;
      cbn -[lookup delete] in H;
      apply lookup_delete_Some in H as [_ H];
      [exact (Hh k ta H)|exact (Hc k ta H)]
    | destruct HI as [[Hn Hh] Hc];
      (split; [split; [cbn -[N.add N.le]; lia|]|]); intros k ta H;
      cbn -[lookup insert] in H;
      (destruct (decide (next_timer st = k)) as [<-|Hne];
       [rewrite lookup_insert_eq in H; discriminate H
       |rewrite lookup_insert_ne in H by exact Hne;
        first [exact (Hh k ta H)|exact (Hc k ta H)]]) ].

Lemma hover_invariant_perform (P : Platform) (a : Action) :
  preserves hover_timer_invariant (perform P a).
Proof.
  destruct a as [[]| | |]; unfold_handlers_but_timer; by_updates hover_update.
Qed.

Lemma hover_invariant_history (P : Platform) (w : World) (acts : list Action) :
  hover_timer_invariant (history P w acts).
Proof.
  unfold history.
  assert (H0 : hover_timer_invariant (Preview.construct w)).
  { apply no_hover_timer_invariant.
    unfold Preview.construct, exec, Preview.constructor, Preview.createPreviewPanel,
      Preview.detectAWSTheme, bind, gets, modify, when, ret. simpl.
    destruct (dynamoDBFormatterDebug w); (split; [simpl; lia|]);
      intros id ta H; simpl in H; rewrite lookup_empty in H; discriminate. }
  revert H0. generalize (Preview.construct w).
  induction acts as [|a acts IH]; intros st H; [exact H|].
  simpl. apply IH. now apply hover_invariant_perform.
Qed.

(** The hover timer is debounced: whatever happens after the script was
    loaded, at most one hover timer is pending, it is the one
    [this._hoverTimeout] names, and it was started for the textarea that is
    hovered now.  So a timer that fires always finds the check
    [this._currentHoveredTextarea === textarea] true. *)
Theorem pending_hover_timer_is_current (P : Platform) (w : World)
    (acts : list Action) :
  let st := history P w acts in
  forall id textarea,
    timers st !! id = Some (HoverTimerFired textarea) ->
    _hoverTimeout st = Some id
    /\ _currentHoveredTextarea st = Some textarea
    /\ forall id' textarea',
         timers st !! id' = Some (HoverTimerFired textarea') ->
         id' = id /\ textarea' = textarea.
Proof.
  intros st id ta H.
  destruct (hover_invariant_history P w acts) as [[_ Hh] Hc]. fold st in Hh, Hc.
  destruct (Hh id ta H) as [E _]. split; [exact E|]. split; [exact (Hc id ta H)|].
  intros id' ta' H'. destruct (Hh id' ta' H') as [E' _].
  assert (id' = id) by congruence. subst id'. split; [reflexivity|].
  congruence.
Qed.

Lemma pending_hover_timer_is_current_witness :
  let P := reference_platform in
  let st := history P (sample_world sample_payload true)
              [HostEvent (Preview.MouseMove (PageNode 1) 1000);
               HostEvent (Preview.MouseMove (PageNode 3) 2000)] in
  timers st !! 2 = Some (HoverTimerFired (PageNode 3))
  /\ timers st !! 1 = None
  /\ _hoverTimeout st = Some 2
  /\ _currentHoveredTextarea st = Some (PageNode 3).
Proof.
  intros P st.
  assert (H : timers st !! 2 = Some (HoverTimerFired (PageNode 3)))
    by (vm_compute; reflexivity).
  destruct (pending_hover_timer_is_current P (sample_world sample_payload true)
              [HostEvent (Preview.MouseMove (PageNode 1) 1000);
               HostEvent (Preview.MouseMove (PageNode 3) 2000)]
              2 (PageNode 3) H) as (H1 & H2 & _).
  split; [exact H|]. split; [vm_compute; reflexivity|]. split; assumption.
Defined.

(** ** The copy button copies what the panel shows *)

(** An update that leaves the panel alone, or changes a property of the
    panel other than its text and its click handler without making it
    visible. *)
Ltac shown_update :=
  idtac;
  let st := fresh "st" in
  let HI := fresh "HI" in
  let E := fresh "E" in
  let Ep := fresh "Ep" in
  let p := fresh "p" in
  let q := fresh "q" in
  let Hq := fresh "Hq" in
  let Hvis := fresh "Hvis" in
  intros st HI;
  first
    [ exact HI
    | destruct (_previewPanel st) as [?i|] eqn:E; [|exact HI];
      intros q Hq Hvis;
      unfold Preview.current_panel in Hq; cbn -[lookup alter str] in Hq;
      rewrite E, list_lookup_alter_eq in Hq;
      destruct (panels st !! _) as [p|] eqn:Ep; [|discriminate Hq];
      injection Hq as <-;
      specialize (HI p); unfold Preview.current_panel in HI;
      rewrite E in HI; specialize (HI Ep);
      cbn -[str] in Hvis |- *;
      first [discriminate Hvis|exact (HI Hvis)] ].

(** The handlers with [showPreviewForTextarea] left folded. *)
Ltac unfold_handlers_but_show :=
  unfold Preview.dispatch, Preview.run_callback, Preview.clickOutside,
    Preview.panelMouseEnter, Preview.copyButtonClick, Preview.handleMouseMove,
    Preview.startHoverTimer, Preview.formatCurrentElement,
    Preview.showCopyFeedback, Preview.hidePreviewPanel, Preview.clearHoverTimer,
    Preview.isInDynamoDBConsole, Preview.detectAWSTheme, Preview.update_panel,
    copyToClipboard, clipboardSettled, manualCopy, clearTimeout, emit.

Lemma shown_is_copied_hidePreviewPanel :
  preserves shown_is_copied Preview.hidePreviewPanel.
Proof. unfold_handlers_but_show. by_updates shown_update. Qed.

Lemma shown_is_copied_showPreviewForTextarea (P : Platform) (textarea : Target) :
  preserves shown_is_copied (Preview.showPreviewForTextarea P textarea).
Proof.
  intros st HI.
  unfold Preview.showPreviewForTextarea, bind, gets. run_step.
  destruct (_previewPanel st) as [i|] eqn:Href; [|exact HI].
  destruct (falsy _); [exact HI|].
  rewrite preview_processPayload_run.
  destruct (decoded_value P _) as [v|]; run_step.
  - rewrite (truthy_cons _ (JSON_stringify_nonempty P v 2)). run_step.
    destruct (showPreviewPanel_run (JSON_stringify P v 2) textarea st i Href)
      as (l & t & Hrun).
    rewrite Hrun.
    rewrite (update_panel_run _ _ i) by exact Href.
    intros q Hq _. unfold Preview.current_panel in Hq.
    cbn -[lookup alter str] in Hq. rewrite Href in Hq.
    rewrite !list_lookup_alter_eq in Hq.
    destruct (panels st !! i) as [p|]; [|discriminate Hq].
    injection Hq as <-. reflexivity.
  - now apply shown_is_copied_hidePreviewPanel.
Qed.
#[local] Hint Resolve shown_is_copied_showPreviewForTextarea : preserves.

Lemma shown_is_copied_dispatch (P : Platform) (ev : Preview.Event) :
  preserves shown_is_copied (Preview.dispatch P ev).
Proof. destruct ev; unfold_handlers_but_show; by_updates shown_update. Qed.

Lemma shown_is_copied_run (P : Platform) (w : World) (evs : list Preview.Event) :
  shown_is_copied (Preview.run P evs (Preview.construct w)).
Proof.
  unfold Preview.run.
  assert (H0 : shown_is_copied (Preview.construct w)).
  { intros p Hp Hvis. unfold Preview.current_panel in Hp.
    destruct (construct_panels w) as (Hps & Href & _).
    rewrite Href, Hps in Hp. injection Hp as <-. discriminate Hvis. }
  revert H0. generalize (Preview.construct w).
  induction evs as [|ev evs IH]; intros st H; [exact H|].
  simpl. apply IH. now apply shown_is_copied_dispatch.
Qed.

Lemma run_history (P : Platform) (w : World) (evs : list Preview.Event) :
  Preview.run P evs (Preview.construct w) = history P w (List.map HostEvent evs).
Proof.
  unfold Preview.run, history. generalize (Preview.construct w).
  induction evs as [|ev evs IH]; intros st; [reflexivity|]. simpl. apply IH.
Qed.

(** Whatever events the host delivers after the script was loaded, a visible
    panel has a copy button whose click handler holds exactly the text the
    panel shows, and a click on the button asks the clipboard for that
    text, through [writeText] or, without the clipboard API, through the
    manual copy. *)
Theorem copy_button_copies_what_is_shown (P : Platform) (w : World)
    (evs : list Preview.Event) :
  let st := Preview.run P evs (Preview.construct w) in
  forall p,
    Preview.current_panel st = Some p -> isVisible p = true ->
    copyButton_onclick p = Some (content_textContent p)
    /\ trace (exec (Preview.dispatch P (Preview.Click (PanelNode 0 PanelCopyButton))) st)
       = trace st
         ++ [if clipboard_api (world st)
             then ClipboardWriteText (content_textContent p)
             else ExecCommandCopy (content_textContent p)].
Proof.
  intros st p Hp Hvis.
  pose proof (shown_is_copied_run P w evs p Hp Hvis) as Hcopy.
  split; [exact Hcopy|].
  assert (Hinv : panel_invariant st).
  { subst st. rewrite run_history. apply panel_invariant_history. }
  destruct Hinv as (Href & q & Hq & _).
  unfold Preview.current_panel in Hp. rewrite Href, Hq in Hp.
  injection Hp as ->.
  generalize dependent st. intros st.
  destruct st as [w' clicked hover ref cur last dbg ps tm nt aw tr].
  simpl. intros -> ->.
  unfold exec, Preview.dispatch, Preview.copyButtonClick, Preview.clickOutside,
    Preview.showCopyFeedback, Preview.detectAWSTheme, Preview.update_panel,
    Preview.current_panel, Preview.panel_isVisible, copyToClipboard, manualCopy,
    setTimeout, bind, gets, when, emit, modify, ret.
  cbn -[str]. rewrite Hcopy. cbn -[str].
  destruct (clipboard_api w');
    repeat (cbn -[str]; unfold Preview.current_panel; rewrite ?Hvis);
    reflexivity.
Qed.

Lemma copy_button_copies_what_is_shown_witness :
  let P := reference_platform in
  let evs := [Preview.MouseMove (PageNode 1) 1000; Preview.TimerFires 1] in
  let st := Preview.run P evs (Preview.construct (sample_world sample_payload true)) in
  let p :=
    Preview.set_copyButton_onclick (Some sample_formatted)
      (Preview.set_position 410 50
         (Preview.set_element_display (str "block")
            (Preview.set_isVisible true
               (Preview.set_content_textContent sample_formatted
                  (fresh_panel (Preview.getThemeStyles light)))))) in
  Preview.current_panel st = Some p
  /\ trace (exec (Preview.dispatch P (Preview.Click (PanelNode 0 PanelCopyButton))) st)
     = trace st ++ [ClipboardWriteText sample_formatted].
Proof.
  intros P evs st p.
  assert (Hp : Preview.current_panel st = Some p) by (vm_compute; reflexivity).
  split; [exact Hp|].
  exact (proj2 (copy_button_copies_what_is_shown P
                  (sample_world sample_payload true) evs p Hp eq_refl)).
Defined.

(** ** Outside the console *)

Lemma handleMouseMove_outside (st : State) (target : Target) (now : Z) :
  outside_console (world st) ->
  Preview.handleMouseMove target now st
  = (if (now - _lastMouseMoveTime st <? _mouseMoveThrottle)%Z then ret tt
     else
       modify (set_lastMouseMoveTime now) ;;;
       (let! cur := gets _currentHoveredTextarea in
        match cur with
        | Some _ =>
            modify (set_currentHoveredTextarea None) ;;;
            Preview.clearHoverTimer ;;;
            Preview.hidePreviewPanel
        | None => ret tt
        end)) st.
Proof.
  unfold outside_console. intros Hout.
  unfold Preview.handleMouseMove, Preview.isInDynamoDBConsole, bind, gets, modify.
  cbn -[includes is_textarea str Z.ltb Z.sub].
  destruct (_ <? _)%Z; [reflexivity|].
  cbn -[includes is_textarea str]. rewrite Hout, andb_false_r. reflexivity.
Qed.

(** An update that keeps the script idle: one that leaves the world, the
    timers, the hovered textarea and the visibility of the panel alone, or
    removes a timer, or adds one that is not a hover timer, or changes a
    property of the panel without making it visible. *)
Ltac idle_update :=
  idtac;
  let st := fresh "st" in
  let Hw := fresh "Hw" in
  let Hc := fresh "Hc" in
  let Hn := fresh "Hn" in
  let Hh := fresh "Hh" in
  let Hv := fresh "Hv" in
  let H := fresh "H" in
  let Hne := fresh "Hne" in
  let E := fresh "E" in
  let k := fresh "k" in
  let ta := fresh "ta" in
  intros st (Hw & Hc & [Hn Hh] & Hv); cbv beta;
  try match goal with
      | |- context [match _previewPanel st with _ => _ end] =>
          destruct (_previewPanel st) as [?i|] eqn:E
      end;
  (split;
   [ exact Hw
   | split;
     [ first [exact Hc|reflexivity]
     | split;
       [ split;
         [ cbn -[N.add N.le]; lia
         | intros k ta H; cbn -[lookup delete insert] in H;
           first
             [ apply lookup_delete_Some in H as [_ H]; exact (Hh k ta H)
             | destruct (decide (next_timer st = k)) as [<-|Hne];
               [rewrite lookup_insert_eq in H; discriminate H
               |rewrite lookup_insert_ne in H by exact Hne; exact (Hh k ta H)]
             | exact (Hh k ta H) ] ]
       | first
           [ match goal with
             | |- context [alter] =>
                 unfold Preview.panel_isVisible, Preview.current_panel in Hv |- *;
                 cbn -[lookup alter str]; rewrite E in Hv |- *;
                 rewrite list_lookup_alter_eq;
                 destruct (panels st !! _); first [exact Hv|reflexivity]
             end
           | exact Hv ] ] ] ]).

Ltac unfold_handlers_but_move :=
  unfold Preview.run_callback, Preview.clickOutside,
    Preview.panelMouseEnter, Preview.copyButtonClick,
    Preview.formatCurrentElement,
    Preview.showCopyFeedback, Preview.hidePreviewPanel, Preview.clearHoverTimer,
    Preview.detectAWSTheme, Preview.update_panel,
    copyToClipboard, clipboardSettled, manualCopy, clearTimeout, emit.

Lemma idle_outside_leave (now : Z) :
  preserves idle_outside
    (modify (set_lastMouseMoveTime now) ;;;
     (let! cur := gets _currentHoveredTextarea in
      match cur with
      | Some _ =>
          modify (set_currentHoveredTextarea None) ;;;
          Preview.clearHoverTimer ;;;
          Preview.hidePreviewPanel
      | None => ret tt
      end)).
Proof. unfold_handlers_but_move. by_updates idle_update. Qed.

Lemma idle_outside_callback (P : Platform) (id : N) (cb : TimerCallback) :
  (forall textarea, cb <> HoverTimerFired textarea) ->
  preserves idle_outside
    (modify (fun st => set_timers (delete id (timers st)) (next_timer st) st) ;;;
     Preview.run_callback P cb).
Proof.
  intros Hcb. destruct cb as [ta| | |]; [destruct (Hcb ta eq_refl)|..];
    unfold_handlers_but_move; by_updates idle_update.
Qed.

Lemma idle_outside_dispatch (P : Platform) (ev : Preview.Event) :
  stays_outside ev -> preserves idle_outside (Preview.dispatch P ev).
Proof.
  intros Hev.
  destruct ev as [target|target now|target| | | |action|id|fulfilled|w'];
    unfold Preview.dispatch.
  - unfold_handlers_but_move. by_updates idle_update.
  - intros st HI. rewrite handleMouseMove_outside by apply HI.
    destruct (_ <? _)%Z; [exact HI|]. now apply idle_outside_leave.
  - unfold_handlers_but_move. by_updates idle_update.
  - unfold_handlers_but_move. by_updates idle_update.
  - unfold_handlers_but_move. by_updates idle_update.
  - unfold_handlers_but_move. by_updates idle_update.
  - unfold_handlers_but_move. by_updates idle_update.
  - intros st HI. unfold bind at 1. unfold gets at 1.
    destruct (timers st !! id) as [cb|] eqn:E; [|exact HI].
    apply idle_outside_callback; [|exact HI].
    intros ta ->. destruct HI as (_ & _ & [_ Hno] & _). exact (Hno id ta E).
  - unfold_handlers_but_move. by_updates idle_update.
  - apply preserves_modify. intros st (Hw & Hc & Hn & Hv).
    repeat split; try assumption; apply Hn.
Qed.

(** Outside the console the hover preview stays idle: if the page is not
    one of the console when the script is loaded and does not become one,
    then whatever events the host delivers, no textarea is taken as
    hovered, no hover timer is started and the panel is never shown. *)
Theorem no_preview_outside_console (P : Platform) (w : World)
    (evs : list Preview.Event) :
  outside_console w ->
  Forall stays_outside evs ->
  let st := Preview.run P evs (Preview.construct w) in
  Preview.panel_isVisible st = false
  /\ _currentHoveredTextarea st = None
  /\ forall id textarea, timers st !! id <> Some (HoverTimerFired textarea).
Proof.
  intros Hw Hevs st.
  assert (H : idle_outside st).
  { subst st. unfold Preview.run.
    assert (H0 : idle_outside (Preview.construct w)).
    { destruct (construct_panels w) as (Hps & Href & Hworld).
      unfold idle_outside, no_hover_timer, Preview.panel_isVisible,
        Preview.current_panel.
      rewrite Hworld, Href, Hps. split; [exact Hw|].
      unfold Preview.construct, exec, Preview.constructor,
        Preview.createPreviewPanel, Preview.detectAWSTheme, bind, gets, modify,
        when, ret. simpl.
      destruct (dynamoDBFormatterDebug w); simpl;
        (split; [reflexivity|]); (split; [|reflexivity]);
        (split; [lia|]); intros id ta H; rewrite lookup_empty in H;
        discriminate. }
    revert H0. generalize (Preview.construct w).
    induction Hevs as [|ev evs Hev _ IH]; intros s H; [exact H|].
    simpl. apply IH. now apply idle_outside_dispatch. }
  destruct H as (_ & Hc & [_ Hno] & Hv). auto.
Qed.

Lemma no_preview_outside_console_witness :
  let P := reference_platform in
  let st := Preview.run P
              [Preview.MouseMove (PageNode 1) 1000; Preview.TimerFires 1;
               Preview.MouseMove (PageNode 3) 2000; Preview.Click (PageNode 1)]
              (Preview.construct (sample_world_elsewhere sample_payload)) in
  Preview.panel_isVisible st = false
  /\ _currentHoveredTextarea st = None
  /\ forall id textarea, timers st !! id <> Some (HoverTimerFired textarea).
Proof.
  intros P st.
  apply (no_preview_outside_console P (sample_world_elsewhere sample_payload)).
  - reflexivity.
  - repeat constructor.
Defined.

(** ** White space in the payload *)

Lemma filter_idempotent {A} (f : A -> bool) (l : list A) :
  List.filter f (List.filter f l) = List.filter f l.
Proof.
  induction l as [|x l IH]; [reflexivity|]. simpl.
  destruct (f x) eqn:E; [simpl; rewrite E, IH; reflexivity|exact IH].
Qed.

Lemma atob_without_whitespace (s : jsstring) :
  Base64.atob (without_whitespace s) = Base64.atob s.
Proof.
  unfold Base64.atob, without_whitespace. now rewrite filter_idempotent.
Qed.

(** ASCII white space in the payload does not matter: the pipeline of
    either content script does on an input what it does on the input with
    its tabs, line feeds, form feeds, carriage returns and spaces removed. *)
Theorem processPayload_ignores_whitespace (P : Platform) (s : jsstring)
    (st : State) :
  Preview.processPayload P s st
  = Preview.processPayload P (without_whitespace s) st
  /\ Content.processPayload P s st
     = Content.processPayload P (without_whitespace s) st.
Proof.
  split.
  - rewrite !preview_processPayload_run. unfold decoded_value.
    now rewrite atob_without_whitespace.
  - unfold Content.processPayload, decodeBase64.
    now rewrite atob_without_whitespace.
Qed.

Example wrapped_payload_decodes :
  outcome (Preview.processPayload reference_platform
             (str "H4sIAAAAAAAEAwEH" ++ [10] ++ str "APj/eyJhIjoxfa+s" ++ [13; 10; 32]
              ++ str "G1YHAAAA"))
    (initial_state (sample_world [] true))
  = Returned (mkFormatResult true (Some sample_formatted) None).
Proof. vm_compute. reflexivity. Qed.

(** ** Clicks *)

(** A click outside the panel hides it, and a click on a part of the panel
    other than the copy button changes nothing.  Both click listeners of
    the document run; the second finds the panel hidden already. *)
Theorem click_outside_hides_panel (P : Platform) (st : State) (i : nat) :
  _previewPanel st = Some i ->
  (forall target,
     panel_contains i target = false ->
     Preview.panel_isVisible (exec (Preview.dispatch P (Preview.Click target)) st)
     = false)
  /\ (forall part,
        part <> PanelCopyButton ->
        Preview.dispatch P (Preview.Click (PanelNode i part)) st = (Returned tt, st)).
Proof.
  intros Href. split.
  - intros target Hout.
    assert (Hskip : forall (p : PreviewPanel) (s : State),
              match target with
              | PanelNode j PanelCopyButton =>
                  match copyButton_onclick p with
                  | Some text => when (Nat.eqb i j) (Preview.copyButtonClick text)
                  | None => ret tt
                  end
              | _ => ret tt
              end s = (Returned tt, s)).
    { intros p s. destruct target as [n|j part]; [reflexivity|].
      simpl in Hout. destruct part; try reflexivity.
      destruct (copyButton_onclick p); [|reflexivity]. now rewrite Hout. }
    unfold exec, Preview.dispatch, bind, gets. cbv beta. rewrite Href.
    assert (Hfirst : forall s, _previewPanel s = Some i ->
              Preview.panel_isVisible (snd (Preview.clickOutside target s)) = false
              /\ _previewPanel (snd (Preview.clickOutside target s)) = Some i
              /\ fst (Preview.clickOutside target s) = Returned tt).
    { intros s Hs. unfold Preview.clickOutside, bind, gets, when. run_step.
      rewrite Hs, Hout. run_step.
      destruct (Preview.panel_isVisible s) eqn:Hv; run_step.
      - pose proof (hidePreviewPanel_hidden s) as Hh. unfold exec in Hh.
        split; [exact Hh|]. clear Hh.
        destruct s as [w clicked hover ref cur last dbg ps tm nt aw tr].
        simpl in Hs. subst ref.
        unfold Preview.hidePreviewPanel, Preview.clearHoverTimer, Preview.debug,
          Preview.update_panel, clearTimeout, bind, gets, when, emit, modify, ret.
        cbn -[str lookup delete alter Preview.panel_isVisible].
        destruct (Preview.panel_isVisible _), dbg, hover as [old|];
          cbn -[str lookup delete alter]; try (split; reflexivity);
          destruct (negb (old =? 0)); split; reflexivity.
      - auto. }
    destruct (Preview.current_panel st) as [p|].
    + rewrite Hskip. cbv beta iota.
      destruct (Hfirst st Href) as (_ & Hr1 & Hret1).
      destruct (Preview.clickOutside target st) as [c s1]. simpl in *. subst c.
      apply (Hfirst s1 Hr1).
    + unfold ret at 1. cbv beta iota.
      destruct (Hfirst st Href) as (_ & Hr1 & Hret1).
      destruct (Preview.clickOutside target st) as [c s1]. simpl in *. subst c.
      apply (Hfirst s1 Hr1).
  - intros part Hpart.
    unfold Preview.dispatch, Preview.clickOutside, bind, gets, when. run_step.
    rewrite Href.
    destruct (Preview.current_panel st) as [p|];
      destruct part; try congruence;
      repeat (run_step; rewrite ?Href, ?Nat.eqb_refl, ?andb_false_r);
      reflexivity.
Qed.

(** ** The feedback of the copy button *)

(** [showCopyFeedback] as one update of the panel object and one timer. *)
Lemma showCopyFeedback_run (st : State) (i : nat) (p : PreviewPanel) :
  _previewPanel st = Some i ->
  panels st !! i = Some p ->
  Preview.showCopyFeedback st
  = (Returned tt,
     set_timers
       (<[next_timer st :=
            CopyFeedbackReset (copyButton_textContent p)
              (Preview.getThemeStyles (aws_theme (world st)))]> (timers st))
       (next_timer st + 1)
       (set_panels
          (alter (fun q =>
                    Preview.set_copyButton_background
                      (successBg (Preview.getThemeStyles (aws_theme (world st))))
                      (Preview.set_copyButton_textContent (str "Copied!") q))
                 i (panels st)) st)).
Proof.
  intros Href Hp. destruct st as [w clicked hover ref cur last dbg ps tm nt aw tr].
  simpl in Href, Hp. subst ref.
  unfold Preview.showCopyFeedback, Preview.current_panel, Preview.detectAWSTheme,
    Preview.update_panel, setTimeout, bind, gets, modify, ret.
  cbn -[str alter insert Preview.getThemeStyles N.add]. rewrite Hp.
  cbn -[str alter insert Preview.getThemeStyles N.add].
  unfold set_timers, set_panels. cbn -[str alter insert Preview.getThemeStyles N.add].
  rewrite list_alter_alter_eq. reflexivity.
Qed.

(** The callback [showCopyFeedback] hands to [setTimeout], run by the host. *)
Lemma copyFeedbackReset_run (P : Platform) (st : State) (i : nat) (id : N)
    (originalText : jsstring) (styles : ThemeStyles) :
  _previewPanel st = Some i ->
  timers st !! id = Some (CopyFeedbackReset originalText styles) ->
  Preview.dispatch P (Preview.TimerFires id) st
  = (Returned tt,
     set_panels
       (alter (fun q =>
                 Preview.set_copyButton_background (buttonBg styles)
                   (Preview.set_copyButton_textContent originalText q))
              i (panels st))
       (set_timers (delete id (timers st)) (next_timer st) st)).
Proof.
  intros Href Ht. destruct st as [w clicked hover ref cur last dbg ps tm nt aw tr].
  simpl in Href, Ht. subst ref.
  unfold Preview.dispatch, bind, gets, modify, ret.
  cbn -[str alter delete lookup]. rewrite Ht.
  unfold Preview.run_callback, Preview.update_panel, bind, gets, modify.
  cbn -[str alter delete lookup].
  unfold set_timers, set_panels. cbn -[str alter delete lookup].
  rewrite list_alter_alter_eq. reflexivity.
Qed.

(** One second after a click on the copy button the button is as before:
    while the timer is pending its label is "Copied!" on the success colour
    of the theme found at the click; when the timer fires the label is the
    one the button had before the click and the background is the button
    colour of that theme; no other field of the panel changes, and the timer
    is gone. *)
Theorem copy_feedback_is_undone (P : Platform) (st : State) (i : nat)
    (p : PreviewPanel) :
  _previewPanel st = Some i ->
  panels st !! i = Some p ->
  let styles := Preview.getThemeStyles (aws_theme (world st)) in
  let st1 := exec Preview.showCopyFeedback st in
  let st2 := exec (Preview.dispatch P (Preview.TimerFires (next_timer st))) st1 in
  Preview.current_panel st1
  = Some (Preview.set_copyButton_background (successBg styles)
            (Preview.set_copyButton_textContent (str "Copied!") p))
  /\ Preview.current_panel st2
     = Some (Preview.set_copyButton_background (buttonBg styles) p)
  /\ timers st2 !! next_timer st = None.
Proof.
  intros Href Hp styles st1 st2. subst st2 st1. unfold exec.
  rewrite (showCopyFeedback_run st i p Href Hp). cbn [snd].
  fold styles.
  set (st1 := set_timers _ _ _).
  assert (Href1 : _previewPanel st1 = Some i) by exact Href.
  assert (Ht1 : timers st1 !! next_timer st
                = Some (CopyFeedbackReset (copyButton_textContent p) styles)).
  { subst st1. destruct st. cbn -[insert lookup str]. apply lookup_insert_eq. }
  split.
  { subst st1. destruct st; simpl in *; subst.
    unfold Preview.current_panel. cbn -[alter str].
    rewrite list_lookup_alter_eq, Hp. reflexivity. }
  rewrite (copyFeedbackReset_run P st1 i _ _ _ Href1 Ht1). cbn [snd].
  split.
  - subst st1. destruct st; simpl in *; subst.
    unfold Preview.current_panel. cbn -[alter str delete insert].
    rewrite !list_lookup_alter_eq, Hp. destruct p. reflexivity.
  - subst st1. destruct st. cbn -[alter str delete insert lookup].
    apply lookup_delete_eq.
Qed.

(** A second click on the copy button before the timer of the first has
    fired leaves the label "Copied!" for good: the second click records
    "Copied!" as the label to restore, so once both timers have fired, in
    the order they were set, the label is "Copied!" and neither timer is
    left to change it. *)
Theorem second_click_keeps_copied_label (P : Platform) (st : State) (i : nat)
    (p : PreviewPanel) :
  _previewPanel st = Some i ->
  panels st !! i = Some p ->
  let t := next_timer st in
  let st2 := exec (Preview.showCopyFeedback ;;; Preview.showCopyFeedback) st in
  let st4 :=
    exec (Preview.dispatch P (Preview.TimerFires t) ;;;
          Preview.dispatch P (Preview.TimerFires (t + 1))) st2 in
  option_map copyButton_textContent (Preview.current_panel st4)
  = Some (str "Copied!")
  /\ timers st4 !! t = None
  /\ timers st4 !! (t + 1) = None.
Proof.
  intros Href Hp t st2 st4. subst st4 st2 t. unfold exec, bind.
  rewrite (showCopyFeedback_run st i p Href Hp). cbv beta iota.
  set (styles := Preview.getThemeStyles (aws_theme (world st))).
  set (p1 := Preview.set_copyButton_background (successBg styles)
               (Preview.set_copyButton_textContent (str "Copied!") p)).
  set (st1 := set_timers _ _ _).
  assert (Href1 : _previewPanel st1 = Some i) by exact Href.
  assert (Hp1 : panels st1 !! i = Some p1).
  { subst st1 p1. destruct st; simpl in *.
    rewrite list_lookup_alter_eq, Hp. reflexivity. }
  rewrite (showCopyFeedback_run st1 i p1 Href1 Hp1). cbn [snd].
  set (st2 := set_timers _ _ _).
  assert (Href2 : _previewPanel st2 = Some i) by exact Href.
  assert (Hne : next_timer st <> next_timer st + 1) by lia.
  assert (Ht2 : timers st2 !! next_timer st
                = Some (CopyFeedbackReset (copyButton_textContent p) styles)).
  { subst st2 st1. destruct st. cbn -[insert lookup str N.add].
    rewrite lookup_insert_ne by (cbn -[N.add] in Hne; congruence).
    apply lookup_insert_eq. }
  rewrite (copyFeedbackReset_run P st2 i _ _ _ Href2 Ht2). cbv beta iota.
  set (st3 := set_panels _ _).
  assert (Href3 : _previewPanel st3 = Some i) by exact Href.
  assert (Ht3 : timers st3 !! (next_timer st + 1)
                = Some (CopyFeedbackReset (str "Copied!")
                          (Preview.getThemeStyles (aws_theme (world st1))))).
  { subst st3 st2 st1 p1. destruct st. cbn -[insert delete lookup str N.add].
    rewrite lookup_delete_ne by (cbn -[N.add] in Hne; congruence).
    apply lookup_insert_eq. }
  rewrite (copyFeedbackReset_run P st3 i _ _ _ Href3 Ht3). cbn [snd].
  split; [|split].
  - erewrite current_panel_set_panels by exact Href.
    rewrite list_lookup_alter_eq.
    change (panels (set_timers (delete (next_timer st + 1) (timers st3))
                      (next_timer st3) st3)) with (panels st3).
    destruct (panels st3 !! i) eqn:H3.
    + reflexivity.
    + exfalso. subst st3 st2 st1. destruct st; simpl in *.
      rewrite !list_lookup_alter_eq, Hp in H3. discriminate.
  - subst st3 st2 st1. destruct st. cbn -[insert delete lookup str N.add].
    rewrite lookup_delete_ne by (cbn -[N.add] in Hne; congruence).
    apply lookup_delete_eq.
  - subst st3 st2 st1. destruct st. cbn -[insert delete lookup str N.add].
    apply lookup_delete_eq.
Qed.

Lemma copy_feedback_is_undone_witness :
  let P := reference_platform in
  let st := Preview.construct (sample_world [] true) in
  let p := fresh_panel (Preview.getThemeStyles light) in
  let styles := Preview.getThemeStyles light in
  let st1 := exec Preview.showCopyFeedback st in
  let st2 := exec (Preview.dispatch P (Preview.TimerFires 1)) st1 in
  (_previewPanel st = Some 0%nat /\ panels st !! 0%nat = Some p)
  /\ Preview.current_panel st1
     = Some (Preview.set_copyButton_background (successBg styles)
               (Preview.set_copyButton_textContent (str "Copied!") p))
  /\ Preview.current_panel st2 = Some p
  /\ timers st2 !! 1 = None.
Proof.
  intros P st p styles st1 st2.
  split; [split; reflexivity|].
  exact (copy_feedback_is_undone P st 0 p eq_refl eq_refl).
Defined.

Lemma second_click_keeps_copied_label_witness :
  let P := reference_platform in
  let st := Preview.construct (sample_world [] true) in
  let p := fresh_panel (Preview.getThemeStyles light) in
  let st2 := exec (Preview.showCopyFeedback ;;; Preview.showCopyFeedback) st in
  let st4 :=
    exec (Preview.dispatch P (Preview.TimerFires 1) ;;;
          Preview.dispatch P (Preview.TimerFires 2)) st2 in
  (_previewPanel st = Some 0%nat /\ panels st !! 0%nat = Some p)
  /\ copyButton_textContent p = str "Copy"
  /\ option_map copyButton_textContent (Preview.current_panel st4)
     = Some (str "Copied!")
  /\ timers st4 !! 1 = None
  /\ timers st4 !! 2 = None.
Proof.
  intros P st p st2 st4.
  split; [split; reflexivity|]. split; [reflexivity|].
  exact (second_click_keeps_copied_label P st 0 p eq_refl eq_refl).
Defined.

Lemma click_outside_hides_panel_witness :
  let P := reference_platform in
  let st :=
    Preview.run P [Preview.MouseMove (PageNode 1) 1000; Preview.TimerFires 1]
      (Preview.construct (sample_world sample_payload true)) in
  _previewPanel st = Some 0%nat
  /\ Preview.panel_isVisible st = true
  /\ Preview.panel_isVisible
       (exec (Preview.dispatch P (Preview.Click (PageNode 2))) st) = false
  /\ Preview.dispatch P (Preview.Click (PanelNode 0 PanelContent)) st
     = (Returned tt, st).
Proof.
  intros P st.
  assert (Href : _previewPanel st = Some 0%nat) by (vm_compute; reflexivity).
  destruct (click_outside_hides_panel P st 0 Href) as [Hout Hin].
  split; [exact Href|]. split; [vm_compute; reflexivity|]. split.
  - apply Hout. reflexivity.
  - apply Hin. discriminate.
Defined.

(** ** The error form of the panel *)

(** An update that removes a timer, adds a hover timer or a reset of the
    copy feedback, or changes a property of the panel other than the colour
    of its text and the display of its button. *)
Ltac plain_update :=
  idtac;
  let st := fresh "st" in
  let Ht := fresh "Ht" in
  let Hp := fresh "Hp" in
  let H := fresh "H" in
  let Hne := fresh "Hne" in
  let E := fresh "E" in
  let Ep := fresh "Ep" in
  let k := fresh "k" in
  let cb := fresh "cb" in
  let p := fresh "p" in
  let q := fresh "q" in
  intros st [Ht Hp]; cbv beta;
  try match goal with
      | |- context [match _previewPanel st with _ => _ end] =>
          destruct (_previewPanel st) as [?i|] eqn:E
      end;
  (split;
   [ intros k cb H; cbn -[lookup delete insert] in H;
     first
       [ apply lookup_delete_Some in H as [_ H]; exact (Ht k cb H)
       | destruct (decide (next_timer st = k)) as [<-|Hne];
         [ rewrite lookup_insert_eq in H; injection H as <-;
           first [left; eexists; reflexivity|right; do 2 eexists; reflexivity]
         | rewrite lookup_insert_ne in H by exact Hne; exact (Ht k cb H) ]
       | exact (Ht k cb H) ]
   | intros q H;
     first
       [ match type of H with
         | context [alter] =>
             unfold Preview.current_panel in H, Hp;
             cbn -[lookup alter str] in H; rewrite E in H, Hp;
             rewrite list_lookup_alter_eq in H;
             destruct (panels st !! _) as [p|] eqn:Ep; [|discriminate H];
             injection H as <-; exact (Hp p eq_refl)
         end
       | exact (Hp q H) ] ]).

Ltac unfold_reachable_handlers :=
  unfold Preview.clickOutside,
    Preview.panelMouseEnter, Preview.copyButtonClick, Preview.handleMouseMove,
    Preview.startHoverTimer,
    Preview.showPreviewForTextarea, Preview.formatCurrentElement,
    Preview.showCopyFeedback, Preview.showPreviewPanel,
    Preview.positionPanel, Preview.hidePreviewPanel, Preview.clearHoverTimer,
    Preview.isInDynamoDBConsole, Preview.detectAWSTheme, Preview.update_panel,
    copyToClipboard, clipboardSettled, manualCopy, clearTimeout, emit.

Lemma no_error_form_callback (P : Platform) (id : N) (cb : TimerCallback) :
  cb <> ErrorPreviewReset -> cb <> MouseLeaveHide ->
  preserves no_error_form
    (modify (fun st => set_timers (delete id (timers st)) (next_timer st) st) ;;;
     Preview.run_callback P cb).
Proof.
  intros H1 H2. destruct cb as [ta| | |txt styles]; try congruence;
    unfold Preview.run_callback; unfold_reachable_handlers;
    by_updates plain_update.
Qed.

Lemma no_error_form_dispatch (P : Platform) (ev : Preview.Event) :
  preserves no_error_form (Preview.dispatch P ev).
Proof.
  destruct ev as [target|target now|target| | | |action|id|fulfilled|w'];
    unfold Preview.dispatch.
  8: { intros st HI. unfold bind at 1. unfold gets at 1.
       destruct (timers st !! id) as [cb|] eqn:E; [|exact HI].
       apply no_error_form_callback; [| |exact HI].
       - intros ->. destruct HI as [Ht _].
         destruct (Ht id _ E) as [[ta H]|(t & s & H)]; discriminate H.
       - intros ->. destruct HI as [Ht _].
         destruct (Ht id _ E) as [[ta H]|(t & s & H)]; discriminate H. }
  all: unfold_reachable_handlers; by_updates plain_update.
Qed.

(** Whatever events the host delivers after the script was loaded, the
    panel never takes its error form: the only timers pending are hover
    timers and resets of the copy feedback, so the callbacks of
    [showErrorPreview] and [handleMouseLeave] are never scheduled, and the
    copy button is never hidden nor the text coloured as an error, both
    inline styles staying unset as [createPreviewPanel] left them.  No
    listener and no method reached from one calls [showErrorPreview] or
    [handleMouseLeave]. *)
Theorem error_preview_never_shown (P : Platform) (w : World)
    (evs : list Preview.Event) :
  no_error_form (Preview.run P evs (Preview.construct w)).
Proof.
  unfold Preview.run.
  assert (H0 : no_error_form (Preview.construct w)).
  { split.
    - intros id cb H. exfalso. revert H.
      unfold Preview.construct, exec, Preview.constructor, Preview.createPreviewPanel,
        Preview.detectAWSTheme, bind, gets, modify, when, ret.
      cbn -[lookup]. destruct (dynamoDBFormatterDebug w); cbn -[lookup];
        rewrite lookup_empty; discriminate.
    - intros p Hp. unfold Preview.current_panel in Hp.
      destruct (construct_panels w) as (Hps & Href & _).
      rewrite Href, Hps in Hp. injection Hp as <-. split; reflexivity. }
  revert H0. generalize (Preview.construct w).
  induction evs as [|ev evs IH]; intros st H; [exact H|].
  simpl. apply IH. now apply no_error_form_dispatch.
Qed.
